(** * PowerBI Copilot Bridge: a shallow embedding of the message-delivery core

    The development follows the repository file by file:

    - [JsString]   JavaScript strings as sequences of UTF-16 code units,
                   with the few built-ins the sources call;
    - [VisualTs]   src/visual.ts: the four transport adapters, the fallback
                   controller [sendMessageWithFallback] and [processDataView];
    - later parts  the serverless functions under netlify/functions (the
                   storage bridge, the five chat proxies, the health
                   analysis of debug.js), src/errorHandler.ts and
                   src/chartGenerator.ts, each followed further down by a
                   module of its properties.

    Time is a simulated clock in milliseconds ([N]); a pending [setTimeout]
    is an entry of a timer list that fires when the clock reaches it. *)

From Stdlib Require Import NArith ZArith Ascii String Lia.
From stdpp Require Import gmap list sorting.

(** ** JavaScript strings *)

Module JsString.

(** A JavaScript string is a sequence of UTF-16 code units. *)
Abbreviation jsstring := (list N).

(** Source literals are written as Rocq strings (UTF-8 bytes) and decoded
    to code units; a code point above the basic plane becomes a surrogate
    pair, as in a JavaScript literal. *)
Fixpoint utf16_of_utf8 (bs : list N) : list N :=
  match bs with
  | [] => []
  | b0 :: r0 =>
    if (b0 <? 128)%N then b0 :: utf16_of_utf8 r0 else
    match r0 with
    | [] => [b0]
    | b1 :: r1 =>
      if (b0 <? 224)%N
      then ((b0 mod 32) * 64 + b1 mod 64)%N :: utf16_of_utf8 r1 else
      match r1 with
      | [] => [b0; b1]
      | b2 :: r2 =>
        if (b0 <? 240)%N
        then ((b0 mod 16) * 4096 + (b1 mod 64) * 64 + b2 mod 64)%N
             :: utf16_of_utf8 r2 else
        match r2 with
        | [] => [b0; b1; b2]
        | b3 :: r3 =>
          let cp := ((b0 mod 8) * 262144 + (b1 mod 64) * 4096
                     + (b2 mod 64) * 64 + b3 mod 64)%N in
          let c := (cp - 65536)%N in
          (55296 + c / 1024)%N :: (56320 + c mod 1024)%N :: utf16_of_utf8 r3
        end
      end
    end
  end.

Definition js (s : string) : list N :=
  utf16_of_utf8 (map N_of_ascii (list_ascii_of_string s)).
Arguments js s%_string.

(** The double quote and the line feed, which the templates use. *)
Definition dq : list N := [34%N].
Definition nl : list N := [10%N].

(** [s.startsWith(p)] on code units. *)
Fixpoint startsWith (p s : list N) : bool :=
  match p, s with
  | [], _ => true
  | _ :: _, [] => false
  | a :: p', b :: s' => (a =? b)%N && startsWith p' s'
  end.

(** [s.includes(p)]. *)
Fixpoint includes (s p : list N) : bool :=
  startsWith p s ||
  match s with
  | [] => false
  | _ :: s' => includes s' p
  end.

(** [s.replace(p, r)] with a string pattern: the first occurrence only. *)
Fixpoint replace (s p r : list N) : list N :=
  if startsWith p s then r ++ drop (length p) s
  else match s with
       | [] => []
       | c :: s' => c :: replace s' p r
       end.

(** [s.substring(0, n)]. *)
Definition substring0 (n : nat) (s : list N) : list N := take n s.

(** [a || d] for a possibly missing string [a]: the empty string and
    [undefined] are falsy. *)
Definition orElse (a : option (list N)) (d : list N) : list N :=
  match a with
  | Some (c :: s) => c :: s
  | _ => d
  end.

(** Decimal rendering of an array length or index. *)
Fixpoint digits (fuel : nat) (n : N) (acc : list N) : list N :=
  match fuel with
  | O => acc
  | S fuel' =>
    let acc' := (48 + n mod 10)%N :: acc in
    if (n <? 10)%N then acc' else digits fuel' (n / 10)%N acc'
  end.

Definition decimal (n : nat) : list N := digits (S n) (N.of_nat n) [].

(** [hay] has [needle] as a contiguous part. *)
Definition Contains (needle hay : list N) : Prop :=
  exists pre post, hay = pre ++ needle ++ post.

End JsString.

Import JsString.

Arguments js : simpl never.

(** ** src/visual.ts *)

Module VisualTs.

Section Widget.

(** [powerbi.PrimitiveValue]: the values the host supplies, [null] apart. *)
Variable PrimitiveValue : Type.

(** A cell of a column: a value, or [null] ([None]) for a blank. *)
Abbreviation Cell := (option PrimitiveValue).

(** *** Data context *)

Inductive ColumnKind := medida | categoria.

Record ColumnInfo := { col_name : jsstring; col_type : ColumnKind }.

(** A sample row is an object keyed by display name; a property holding
    [undefined] is [None]. *)
Abbreviation Row := (gmap (list N) (option Cell)).

Record DataContext := {
  hasData : bool;
  rowCount : nat;
  columns : list ColumnInfo;
  sampleData : list Row }.

Record DataViewMetadataColumn := { displayName : jsstring; isMeasure : bool }.

Record DataViewColumn := {
  source : DataViewMetadataColumn;
  values : list Cell }.

Record DataViewCategorical := {
  categories : option (list DataViewColumn);
  measures : option (list DataViewColumn) (* categorical.values *) }.

Record DataView := { categorical : option DataViewCategorical }.

Definition emptyContext : DataContext :=
  {| hasData := false; rowCount := 0; columns := []; sampleData := [] |}.

Definition isNull (cell : option Cell) : bool :=
  match cell with
  | Some None => true
  | _ => false
  end.

(** [row[key] = cell] on the row under construction: its own properties
    and whether it has lost its prototype.  The row starts as a plain
    object, so an assignment to ['__proto__'] goes to the accessor it
    inherits and creates no property; with [null] that accessor takes the
    row's prototype away, and from then on ['__proto__'] is a key like any
    other.  (With a Date the accessor makes it the prototype, through
    which the accessor is still inherited; other values it ignores.) *)
Definition assign (st : Row * bool) (key : jsstring) (cell : option Cell)
    : Row * bool :=
  if bool_decide (key = js "__proto__") && negb st.2
  then (st.1, isNull cell)
  else (<[key := cell]> st.1, st.2).

(** [row[col.source.displayName] = col.values[i]] for every column. *)
Definition buildRow (allColumns : list DataViewColumn) (i : nat) : Row * bool :=
  foldl (fun st col => assign st (displayName (source col)) (values col !! i))
        (∅, false) allColumns.

Definition sampleRow (allColumns : list DataViewColumn) (i : nat) : Row :=
  (buildRow allColumns i).1.

(** [[...categories, ...values]], empty when the view or its categorical
    part is missing. *)
Definition allColumns (dataView : option DataView) : list DataViewColumn :=
  match dataView with
  | None => []
  | Some dv =>
    match categorical dv with
    | None => []
    | Some cat => default [] (categories cat) ++ default [] (measures cat)
    end
  end.

Definition describe (col : DataViewColumn) : ColumnInfo :=
  {| col_name := displayName (source col);
     col_type := if isMeasure (source col) then medida else categoria |}.

Definition processDataView (dataView : option DataView) : DataContext :=
  match allColumns dataView with
  | [] => emptyContext
  | first :: rest =>
    let rowCount := length (values first) in
    let sampleSize := Nat.min rowCount 10 in
    {| hasData := true;
       rowCount := rowCount;
       columns := map describe (first :: rest);
       sampleData := map (sampleRow (first :: rest)) (seq 0 sampleSize) |}
  end.

(** *** Transport adapters

    An adapter builds its request from the question and the context and then
    only reacts to what the network does.  The network's behaviour for one
    request is given from outside ([Network]); times are milliseconds after
    the adapter was invoked.  An adapter returns when its promise settles
    and how. *)

Inductive Settled :=
| Resolved (value : jsstring)
| Rejected (message : jsstring).

(** The [error] field of a reply: absent, a boolean flag or a text. *)
Inductive ErrorField := NoError | ErrorFlag (b : bool) | ErrorText (s : jsstring).

Definition truthy (e : ErrorField) : bool :=
  match e with
  | NoError => false
  | ErrorFlag b => b
  | ErrorText [] => false
  | ErrorText (_ :: _) => true
  end.

(** [String(e)] for a truthy error field, as [new Error(e)] stores it. *)
Definition errorText (e : ErrorField) : jsstring :=
  match e with
  | ErrorText s => s
  | ErrorFlag true => js "true"
  | ErrorFlag false => js "false"
  | NoError => js "undefined"
  end.

(** A reply object: [data.error] and [data.answer] (a string when present). *)
Record Reply := { error : ErrorField; answer : option jsstring }.

(** The value handed to the JSONP callback or posted to the window is a
    reply, or [null] or [undefined] ([None]), whose properties cannot be
    read. *)
Inductive ScriptEvent := ScriptCallback (data : option Reply) | ScriptLoadError.

Inductive FrameEvent :=
| FrameMessage (origin : jsstring) (data : option Reply)
| FrameLoadError.

(** A server-push message whose body does not parse to an object with
    readable properties carries [None]. *)
Inductive StreamEvent := StreamMessage (data : option Reply) | StreamError.

(** One poll of the storage bridge: the request or its body fails, or the
    body is [{found, data}]. *)
Inductive PollReply := PollFails | PollJson (found : bool) (data : option Reply).

Record Network := {
  jsonpWire : option (N * ScriptEvent);
  iframeWire : list (N * FrameEvent);
  sseWire : option (N * StreamEvent);
  pixelWire : nat -> N * PollReply (* latency and reply of the k-th poll *) }.

(** An adapter's promise settles at some time in some way, or never
    ([None]): the callback clears the 15 s timer before it reads
    [data.error], so when that read throws nothing is left to settle the
    promise. *)
Definition sendViaJSONP (question : jsstring) (context : DataContext)
    (baseUrl : jsstring) (net : Network) : option (N * Settled) :=
  match jsonpWire net with
  | Some (t, ev) =>
    if (t <? 15000)%N then
      match ev with
      | ScriptCallback (Some data) =>
        if truthy (error data)
        then Some (t, Rejected (orElse (answer data) (js "Erro JSONP")))
        else Some (t, Resolved (orElse (answer data) (js "Resposta JSONP recebida")))
      | ScriptCallback None => None
      | ScriptLoadError => Some (t, Rejected (js "Erro ao carregar script JSONP"))
      end
    else Some (15000%N, Rejected (js "JSONP timeout após 15 segundos"))
  | None => Some (15000%N, Rejected (js "JSONP timeout após 15 segundos"))
  end.

(** The message handler ignores messages whose origin does not include the
    backend host; the first event it does not ignore decides. *)
Fixpoint firstFrameEvent (host : jsstring) (evs : list (N * FrameEvent))
    : option (N * FrameEvent) :=
  match evs with
  | [] => None
  | (t, FrameMessage origin data) :: rest =>
    if includes origin host then Some (t, FrameMessage origin data)
    else firstFrameEvent host rest
  | (t, FrameLoadError) :: _ => Some (t, FrameLoadError)
  end.

(** The message handler too clears the timer and removes itself, and the
    frame, before it reads [event.data.error]; a frame that is no longer in
    the document raises no load error, so nothing follows an accepted
    message. *)
Definition sendViaIframe (question : jsstring) (context : DataContext)
    (baseUrl : jsstring) (net : Network) : option (N * Settled) :=
  match firstFrameEvent (replace baseUrl (js "https://") []) (iframeWire net) with
  | Some (t, ev) =>
    if (t <? 15000)%N then
      match ev with
      | FrameMessage _ (Some data) =>
        if truthy (error data)
        then Some (t, Rejected (errorText (error data)))
        else Some (t, Resolved (orElse (answer data) (js "Resposta iframe recebida")))
      | FrameMessage _ None => None
      | FrameLoadError => Some (t, Rejected (js "Erro ao carregar iframe"))
      end
    else Some (15000%N, Rejected (js "Iframe timeout após 15 segundos"))
  | None => Some (15000%N, Rejected (js "Iframe timeout após 15 segundos"))
  end.

(** Here the reads are inside the [try]: a body that does not parse, or
    parses to [null], rejects. *)
Definition sendViaSSE (question : jsstring) (context : DataContext)
    (baseUrl : jsstring) (net : Network) : option (N * Settled) :=
  match sseWire net with
  | Some (t, ev) =>
    if (t <? 15000)%N then
      match ev with
      | StreamMessage (Some data) =>
        if truthy (error data)
        then Some (t, Rejected (orElse (answer data) (js "Erro SSE")))
        else Some (t, Resolved (orElse (answer data) (js "Resposta SSE recebida")))
      | StreamMessage None => Some (t, Rejected (js "Erro ao parsear resposta SSE"))
      | StreamError => Some (t, Rejected (js "Erro de conexão SSE"))
      end
    else Some (15000%N, Rejected (js "SSE timeout após 15 segundos"))
  | None => Some (15000%N, Rejected (js "SSE timeout após 15 segundos"))
  end.

(** [checkResponse]: [remaining] polls are left of the budget of 15, the
    next one is poll number [k] and starts at time [t]. *)
Fixpoint checkResponse (polls : nat -> N * PollReply) (remaining k : nat) (t : N)
    : N * Settled :=
  match remaining with
  | O => (t, Rejected (js "Pixel timeout após 15 segundos"))
  | S remaining' =>
    let '(latency, reply) := polls k in
    let t' := (t + latency)%N in
    match reply with
    | PollJson true (Some data) =>
      if truthy (error data)
      then (t', Rejected (orElse (answer data) (js "Erro pixel")))
      else (t', Resolved (orElse (answer data) (js "Resposta pixel recebida")))
    | _ => checkResponse polls remaining' (S k) (t' + 1000)%N
    end
  end.

Definition sendViaPixel (question : jsstring) (context : DataContext)
    (baseUrl : jsstring) (net : Network) : option (N * Settled) :=
  Some (checkResponse (pixelWire net) 15 1 2000%N).

(** *** Fallback controller *)

Record CommunicationMethod := {
  name : jsstring;
  func : jsstring -> DataContext -> jsstring -> Network -> option (N * Settled);
  priority : Z;
  enabled : bool }.

Definition setEnabled (b : bool) (m : CommunicationMethod) : CommunicationMethod :=
  {| name := name m; func := func m; priority := priority m; enabled := b |}.

Definition initializeCommunicationMethods : list CommunicationMethod :=
  [ {| name := js "JSONP"; func := sendViaJSONP; priority := 1; enabled := true |};
    {| name := js "Iframe"; func := sendViaIframe; priority := 2; enabled := true |};
    {| name := js "SSE"; func := sendViaSSE; priority := 3; enabled := true |};
    {| name := js "Pixel"; func := sendViaPixel; priority := 4; enabled := true |} ].

(** The widget.  [timers] are the pending [setTimeout] callbacks of the
    controller: the time each is due and the method object it re-enables
    (its position in [communicationMethods]). *)
Record Visual := {
  dataContext : DataContext;
  baseUrl : jsstring;
  communicationMethods : list CommunicationMethod;
  lastUsedMethod : jsstring;
  methodStatus : jsstring * jsstring (* textContent, className *);
  timers : list (N * nat);
  clock : N }.

Definition newVisual (now : N) : Visual :=
  {| dataContext := emptyContext;
     baseUrl := [];
     communicationMethods := initializeCommunicationMethods;
     lastUsedMethod := [];
     methodStatus := (js "Inicializando...", js "method-status");
     timers := [];
     clock := now |}.

Definition withMethods (ms : list CommunicationMethod) (v : Visual) : Visual :=
  {| dataContext := dataContext v; baseUrl := baseUrl v;
     communicationMethods := ms; lastUsedMethod := lastUsedMethod v;
     methodStatus := methodStatus v; timers := timers v; clock := clock v |}.

Definition withTimers (ts : list (N * nat)) (v : Visual) : Visual :=
  {| dataContext := dataContext v; baseUrl := baseUrl v;
     communicationMethods := communicationMethods v;
     lastUsedMethod := lastUsedMethod v;
     methodStatus := methodStatus v; timers := ts; clock := clock v |}.

Definition withClock (now : N) (v : Visual) : Visual :=
  {| dataContext := dataContext v; baseUrl := baseUrl v;
     communicationMethods := communicationMethods v;
     lastUsedMethod := lastUsedMethod v;
     methodStatus := methodStatus v; timers := timers v; clock := now |}.

Definition withLastUsed (n : jsstring) (v : Visual) : Visual :=
  {| dataContext := dataContext v; baseUrl := baseUrl v;
     communicationMethods := communicationMethods v;
     lastUsedMethod := n;
     methodStatus := methodStatus v; timers := timers v; clock := clock v |}.

Definition withStatus (st : jsstring * jsstring) (v : Visual) : Visual :=
  {| dataContext := dataContext v; baseUrl := baseUrl v;
     communicationMethods := communicationMethods v;
     lastUsedMethod := lastUsedMethod v;
     methodStatus := st; timers := timers v; clock := clock v |}.

Definition withData (url : jsstring) (ctx : DataContext) (v : Visual) : Visual :=
  {| dataContext := ctx; baseUrl := url;
     communicationMethods := communicationMethods v;
     lastUsedMethod := lastUsedMethod v;
     methodStatus := methodStatus v; timers := timers v; clock := clock v |}.

Definition updateMethodStatus (status : jsstring) (v : Visual) : Visual :=
  match status with
  | _ :: _ => withStatus (status, snd (methodStatus v)) v
  | [] =>
    match lastUsedMethod v with
    | _ :: _ =>
      withStatus (js "🔗 Via " ++ lastUsedMethod v, js "method-status connected") v
    | [] => withStatus (js "🔄 Standby", js "method-status standby") v
    end
  end.

(** The clock reaches [now]: every timer due by then runs its callback
    [method.enabled = true] and is gone. *)
Definition fireDue (v : Visual) : Visual :=
  let due := filter (fun t => (t.1 <= clock v)%N) (timers v) in
  let pending := filter (fun t => ¬ (t.1 <= clock v)%N) (timers v) in
  withTimers pending
    (withMethods
       (foldl (fun ms t => alter (setEnabled true) t.2 ms)
              (communicationMethods v) due) v).

Definition advance (dt : N) (v : Visual) : Visual :=
  fireDue (withClock (clock v + dt)%N v).

(** [Promise.race] of an adapter against the 16 s timer. *)
Definition raceTimeout (p : option (N * Settled)) : N * Settled :=
  match p with
  | Some (t, settled) =>
    if (t <? 16000)%N then (t, settled)
    else (16000%N, Rejected (js "Timeout geral"))
  | None => (16000%N, Rejected (js "Timeout geral"))
  end.

(** [.sort((a, b) => a.priority - b.priority)]: a stable sort. *)
Fixpoint insertByPriority (x : nat * CommunicationMethod)
    (l : list (nat * CommunicationMethod)) : list (nat * CommunicationMethod) :=
  match l with
  | [] => [x]
  | y :: l' =>
    if (priority x.2 <=? priority y.2)%Z then x :: l
    else y :: insertByPriority x l'
  end.

Definition sortByPriority (l : list (nat * CommunicationMethod))
    : list (nat * CommunicationMethod) :=
  foldr insertByPriority [] l.

(** The snapshot taken when a question is sent: references to the enabled
    method objects (position and object), by ascending priority. *)
Definition enabledMethods (v : Visual) : list (nat * CommunicationMethod) :=
  sortByPriority
    (filter (fun r => enabled r.2 = true) (imap pair (communicationMethods v))).

(** One turn of the loop, as the caller can observe it. *)
Record Attempt := {
  tried : nat;
  startedAt : N;
  settledAt : N;
  outcome : Settled }.

Definition World := N -> Network.

Definition exhaustedMessage (lastError : option jsstring) : jsstring :=
  js "Comunicação falhou. Último erro: "
  ++ match lastError with
     | Some message => message
     | None => js "undefined"
     end.

(** The catch branch: [method.enabled = false] and the timer that will set
    it back to [true] 30 s later. *)
Definition cooled (i : nat) (v : Visual) : Visual :=
  withTimers (timers v ++ [((clock v + 30000)%N, i)])
    (withMethods (alter (setEnabled false) i (communicationMethods v)) v).

Fixpoint tryMethods (w : World) (question : jsstring)
    (refs : list (nat * CommunicationMethod)) (lastError : option jsstring)
    (v : Visual) : Settled * list Attempt * Visual :=
  match refs with
  | [] =>
    (Rejected (exhaustedMessage lastError), [],
     updateMethodStatus (js "❌ Todos os métodos falharam") v)
  | (i, method) :: rest =>
    let v1 := updateMethodStatus (js "Tentando " ++ name method ++ js "...") v in
    let '(dt, r) :=
      raceTimeout (func method question (dataContext v1) (baseUrl v1)
                        (w (clock v1))) in
    let v2 := advance dt v1 in
    let a := {| tried := i; startedAt := clock v1; settledAt := clock v2;
                outcome := r |} in
    match r with
    | Resolved result =>
      (Resolved result, [a],
       updateMethodStatus (js "✅ Conectado via " ++ name method)
         (withLastUsed (name method) v2))
    | Rejected message =>
      let '(res, tr, v') :=
        tryMethods w question rest (Some message) (cooled i v2) in
      (res, a :: tr, v')
    end
  end.

Definition sendMessageWithFallback (w : World) (question : jsstring) (v : Visual)
    : Settled * list Attempt * Visual :=
  tryMethods w question (enabledMethods v) None v.

(** *** The widget over time

    Questions are sent one at a time (the input is disabled while one is
    pending); between them the host may push an update and time passes. *)

Inductive Op :=
| Ask (w : World) (question : jsstring)
| Update (directLineSecret : jsstring) (dataView : option DataView)
| Wait (dt : N).

Definition update (directLineSecret : jsstring) (dataView : option DataView)
    (v : Visual) : Visual :=
  let url := match directLineSecret with
             | _ :: _ => directLineSecret
             | [] => js "https://copilotassistbi.netlify.app"
             end in
  match dataView with
  | Some dv => updateMethodStatus [] (withData url (processDataView (Some dv)) v)
  | None => withData url (dataContext v) v
  end.

Definition step (s : Visual * list Attempt) (op : Op) : Visual * list Attempt :=
  match op with
  | Ask w question =>
    let '(_, tr, v') := sendMessageWithFallback w question s.1 in (v', s.2 ++ tr)
  | Update secret dv => (update secret dv s.1, s.2)
  | Wait dt => (advance dt s.1, s.2)
  end.

Definition run (ops : list Op) (now : N) : Visual * list Attempt :=
  foldl step (newVisual now, []) ops.

(** *** Properties of the data context extractor *)

(** The columns named ['__proto__'] that come after the first of them
    whose cell [i] is [null]: those that write an own property. *)
Fixpoint afterNull (i : nat) (ps : list DataViewColumn) : list DataViewColumn :=
  match ps with
  | [] => []
  | p :: ps' => if isNull (values p !! i) then ps' else afterNull i ps'
  end.

Lemma afterNull_snoc i ps p :
  afterNull i (ps ++ [p])
  = if existsb (fun c => isNull (values c !! i)) ps then afterNull i ps ++ [p]
    else [].
Proof.
  induction ps as [|q ps IH]; cbn [app afterNull existsb].
  - by destruct (isNull (values p !! i)).
  - destruct (isNull (values q !! i)); cbn [orb]; [done|exact IH].
Qed.

Lemma buildRow_snoc cols col i :
  buildRow (cols ++ [col]) i
  = assign (buildRow cols i) (displayName (source col)) (values col !! i).
Proof. unfold buildRow. by rewrite foldl_app. Qed.

(** The row has lost its prototype exactly when a ['__proto__'] column
    had [null] in cell [i]. *)
Lemma buildRow_bare cols i :
  (buildRow cols i).2
  = existsb (fun c => isNull (values c !! i))
            (filter (fun c => displayName (source c) = js "__proto__") cols).
Proof.
  induction cols as [|col cols IH] using rev_ind; [done|].
  rewrite buildRow_snoc, filter_app. unfold assign. rewrite IH.
  destruct (decide (displayName (source col) = js "__proto__")) as [Hcol|Hcol].
  - rewrite filter_cons_True, filter_nil by done.
    rewrite existsb_app, (bool_decide_eq_true_2 _ Hcol). cbn [andb existsb].
    destruct (existsb _ _); cbn [negb snd orb]; [done|by rewrite orb_false_r].
  - rewrite filter_cons_False, filter_nil, app_nil_r by done.
    by rewrite (bool_decide_eq_false_2 _ Hcol).
Qed.

(** A row has, under each display name but ['__proto__'], cell [i] of the
    last column of that name, and nothing else. *)
Lemma sampleRow_lookup cols i name :
  name <> js "__proto__" ->
  sampleRow cols i !! name
  = (fun c => values c !! i)
      <$> last (filter (fun c => displayName (source c) = name) cols).
Proof.
  intros Hname. unfold sampleRow.
  induction cols as [|col cols IH] using rev_ind; [done|].
  rewrite buildRow_snoc, filter_app. unfold assign.
  destruct (decide (displayName (source col) = name)) as [Heq|Hne].
  - rewrite filter_cons_True, filter_nil by done. rewrite last_snoc.
    rewrite bool_decide_eq_false_2 by congruence. cbn [andb fst].
    rewrite Heq. by rewrite lookup_insert_eq.
  - rewrite filter_cons_False, filter_nil, app_nil_r by done.
    destruct (bool_decide _ && negb _); cbn [fst]; [exact IH|].
    by rewrite lookup_insert_ne.
Qed.

(** Under ['__proto__'] it has cell [i] of the last ['__proto__'] column
    that came after one with [null] in cell [i], if there is one. *)
Lemma sampleRow_lookup_proto cols i :
  sampleRow cols i !! js "__proto__"
  = (fun c => values c !! i)
      <$> last (afterNull i (filter (fun c => displayName (source c) = js "__proto__")
                                    cols)).
Proof.
  unfold sampleRow.
  induction cols as [|col cols IH] using rev_ind; [done|].
  rewrite buildRow_snoc, filter_app. unfold assign.
  destruct (decide (displayName (source col) = js "__proto__")) as [Hcol|Hcol].
  - rewrite filter_cons_True, filter_nil by done.
    rewrite afterNull_snoc, <- buildRow_bare, (bool_decide_eq_true_2 _ Hcol).
    cbn [andb]. destruct (buildRow cols i).2 eqn:Hbare; cbn [negb fst].
    + rewrite last_snoc, Hcol. by rewrite lookup_insert_eq.
    + rewrite IH, buildRow_bare in *.
      clear IH. revert Hbare.
      generalize (filter (fun c => displayName (source c) = js "__proto__") cols).
      intros ps. induction ps as [|p ps IHps]; [done|].
      cbn [existsb afterNull]. destruct (isNull (values p !! i)); [done|].
      exact IHps.
  - rewrite filter_cons_False, filter_nil, app_nil_r by done.
    rewrite (bool_decide_eq_false_2 _ Hcol). cbn [andb fst].
    by rewrite lookup_insert_ne.
Qed.

(** C7.  For a view with a categorical part, whose categories and measures
    are [cs] and [ms] (either may be missing): the context lists the
    categories followed by the measures, in their order, each with its
    display name and its kind; the row count is the length of the first of
    these columns' values; the sample has min(rowCount, 10) rows, and row
    [i] holds exactly, under each display name, cell [i] of the column of
    that name (the last one when several share it; a column named
    ['__proto__'] leaves a property only when it comes after a
    ['__proto__'] column with [null] in cell [i]); three columns the first
    of which has 12 values give rowCount = 12 and 10 sample rows; without
    any column, without a categorical part or without a view the result is
    the empty context, hasData = false. *)
Theorem processDataView_extracts (cs ms : option (list DataViewColumn)) :
  let view := Some {| categorical := Some {| categories := cs; measures := ms |} |} in
  let cols := default [] cs ++ default [] ms in
  let ctx := processDataView view in
  hasData ctx = negb (bool_decide (cols = []))
  /\ columns ctx
     = map (fun c => {| col_name := displayName (source c);
                        col_type := if isMeasure (source c) then medida
                                    else categoria |}) cols
  /\ rowCount ctx
     = match cols with
       | [] => 0
       | first :: _ => length (values first)
       end
  /\ length (sampleData ctx) = Nat.min (rowCount ctx) 10
  /\ (forall i, i < Nat.min (rowCount ctx) 10 ->
        exists row,
          sampleData ctx !! i = Some row
          /\ (forall name, name <> js "__proto__" ->
                 row !! name
                 = (fun c => values c !! i)
                     <$> last (filter (fun c => displayName (source c) = name)
                                      cols))
          /\ row !! js "__proto__"
             = (fun c => values c !! i)
                 <$> last (afterNull i
                             (filter (fun c => displayName (source c)
                                               = js "__proto__") cols)))
  /\ (forall c1 c2 c3, cols = [c1; c2; c3] -> length (values c1) = 12 ->
        rowCount ctx = 12 /\ length (sampleData ctx) = 10
        /\ map col_name (columns ctx)
           = [displayName (source c1); displayName (source c2);
              displayName (source c3)])
  /\ (cols = [] ->
        ctx = {| hasData := false; rowCount := 0; columns := [];
                 sampleData := [] |})
  /\ processDataView None
     = {| hasData := false; rowCount := 0; columns := []; sampleData := [] |}
  /\ processDataView (Some {| categorical := None |})
     = {| hasData := false; rowCount := 0; columns := []; sampleData := [] |}.
Proof.
  intros view cols ctx. subst ctx view. unfold processDataView, allColumns.
  cbn [categorical categories measures]. fold cols.
  destruct cols as [|first rest] eqn:Hcols.
  - cbn. split_and!; try done. intros i Hi. lia.
  - cbn [hasData columns rowCount sampleData].
    split_and!; try done.
    + by rewrite length_map, length_seq.
    + intros i Hi. exists (sampleRow (first :: rest) i). split_and!.
      * rewrite list_lookup_fmap, lookup_seq_lt by done. done.
      * intros name. apply sampleRow_lookup.
      * apply sampleRow_lookup_proto.
    + intros c1 c2 c3 [= -> ->] H12.
      split_and!; [done| |done]. by rewrite length_map, length_seq, H12.
Qed.

(** *** Properties of the fallback controller *)

Definition byPriority (a b : nat * CommunicationMethod) : Prop :=
  (priority a.2 <= priority b.2)%Z.

Lemma insertByPriority_perm x l : insertByPriority x l ≡ₚ x :: l.
Proof.
  induction l as [|y l IH]; simpl; [done|].
  destruct (priority x.2 <=? priority y.2)%Z; [done|].
  rewrite IH. apply Permutation_swap.
Qed.

Lemma sortByPriority_perm l : sortByPriority l ≡ₚ l.
Proof.
  induction l as [|x l IH]; simpl; [done|].
  by rewrite insertByPriority_perm, IH.
Qed.

Lemma insertByPriority_sorted x l :
  StronglySorted byPriority l -> StronglySorted byPriority (insertByPriority x l).
Proof.
  induction 1 as [|y l Hs IH Hall]; simpl.
  - repeat constructor.
  - destruct (priority x.2 <=? priority y.2)%Z eqn:Hxy.
    + apply Z.leb_le in Hxy. constructor; [by constructor|].
      constructor; [done|].
      eapply Forall_impl; [exact Hall|]. unfold byPriority. intros; lia.
    + apply Z.leb_gt in Hxy. constructor; [done|].
      rewrite insertByPriority_perm. constructor; [|done].
      unfold byPriority. lia.
Qed.

Lemma sortByPriority_sorted l : StronglySorted byPriority (sortByPriority l).
Proof.
  induction l as [|x l IH]; simpl; [constructor|].
  by apply insertByPriority_sorted.
Qed.

(** The enabled method objects, in array order. *)
Definition enabledRefs (v : Visual) : list (nat * CommunicationMethod) :=
  filter (fun r => enabled r.2 = true) (imap pair (communicationMethods v)).

Lemma elem_of_imap_pair (ms : list CommunicationMethod) i m :
  (i, m) ∈ imap pair ms <-> ms !! i = Some m.
Proof.
  rewrite list_elem_of_lookup. split.
  - intros [k Hk]. rewrite list_lookup_imap in Hk.
    destruct (ms !! k) eqn:E; simpl in Hk; [|done]. by injection Hk as <- <-.
  - intros H. exists i. by rewrite list_lookup_imap, H.
Qed.

Lemma fst_imap_pair (ms : list CommunicationMethod) :
  (imap pair ms).*1 = seq 0 (length ms).
Proof.
  apply list_eq. intros k.
  rewrite list_lookup_fmap, list_lookup_imap.
  destruct (ms !! k) eqn:E; simpl.
  - symmetry. apply lookup_seq. split; [done|]. by apply lookup_lt_Some in E.
  - symmetry. apply lookup_seq_ge. by apply lookup_ge_None in E.
Qed.

Lemma enabledRefs_NoDup v : NoDup (enabledRefs v).*1.
Proof.
  unfold enabledRefs.
  eapply sublist_NoDup; [|apply fmap_sublist, sublist_filter].
  rewrite fst_imap_pair. apply NoDup_seq.
Qed.

Lemma elem_of_enabledMethods v i m :
  (i, m) ∈ enabledMethods v <->
  communicationMethods v !! i = Some m /\ enabled m = true.
Proof.
  unfold enabledMethods. rewrite sortByPriority_perm.
  rewrite list_elem_of_filter, elem_of_imap_pair. simpl. tauto.
Qed.

Lemma enabledMethods_NoDup v : NoDup (enabledMethods v).*1.
Proof.
  unfold enabledMethods. rewrite sortByPriority_perm. apply enabledRefs_NoDup.
Qed.

(** The message of the last failure among [tr], or [start] if none failed. *)
Definition lastFailure (start : option jsstring) (tr : list Attempt)
    : option jsstring :=
  foldl (fun acc a => match outcome a with
                      | Rejected message => Some message
                      | Resolved _ => acc
                      end) start tr.

Definition failed (a : Attempt) : bool :=
  match outcome a with Rejected _ => true | Resolved _ => false end.

(** An adapter that never resolves with the empty string. *)
Definition answersNonEmpty (m : CommunicationMethod) : Prop :=
  forall question ctx url net t value,
    func m question ctx url net = Some (t, Resolved value) -> value <> [].

Lemma orElse_nonempty a d : d <> [] -> orElse a d <> [].
Proof. intros Hd. by destruct a as [[|c s]|]. Qed.

Lemma js_nonempty_cons c s : c :: s <> ([] : list N).
Proof. done. Qed.

Lemma sendViaJSONP_nonempty question ctx url net t value :
  sendViaJSONP question ctx url net = Some (t, Resolved value) -> value <> [].
Proof.
  unfold sendViaJSONP. intros H.
  repeat (case_match; simplify_eq); by apply orElse_nonempty.
Qed.

Lemma sendViaIframe_nonempty question ctx url net t value :
  sendViaIframe question ctx url net = Some (t, Resolved value) -> value <> [].
Proof.
  unfold sendViaIframe. intros H.
  repeat (case_match; simplify_eq); by apply orElse_nonempty.
Qed.

Lemma sendViaSSE_nonempty question ctx url net t value :
  sendViaSSE question ctx url net = Some (t, Resolved value) -> value <> [].
Proof.
  unfold sendViaSSE. intros H.
  repeat (case_match; simplify_eq); by apply orElse_nonempty.
Qed.

Lemma checkResponse_nonempty polls remaining k t0 t value :
  checkResponse polls remaining k t0 = (t, Resolved value) -> value <> [].
Proof.
  revert k t0. induction remaining as [|r IH]; intros k t0; simpl; [done|].
  destruct (polls k) as [latency reply].
  destruct reply as [|[] [data|]]; try apply IH.
  destruct (truthy (error data)); [done|].
  intros [= _ <-]. by apply orElse_nonempty.
Qed.

Lemma initial_answersNonEmpty :
  Forall answersNonEmpty initializeCommunicationMethods.
Proof.
  repeat constructor; intros question ctx url net t value; simpl.
  - apply sendViaJSONP_nonempty.
  - apply sendViaIframe_nonempty.
  - apply sendViaSSE_nonempty.
  - unfold sendViaPixel. intros Heq. apply (inj Some) in Heq.
    by eapply checkResponse_nonempty.
Qed.

Lemma raceTimeout_resolved p t value :
  raceTimeout p = (t, Resolved value) -> p = Some (t, Resolved value).
Proof.
  unfold raceTimeout. destruct p as [[t0 settled]|]; [|done].
  destruct (t0 <? 16000)%N; [|done]. by intros [= -> ->].
Qed.

Lemma updateMethodStatus_frame status v :
  timers (updateMethodStatus status v) = timers v
  /\ clock (updateMethodStatus status v) = clock v
  /\ communicationMethods (updateMethodStatus status v) = communicationMethods v
  /\ dataContext (updateMethodStatus status v) = dataContext v
  /\ baseUrl (updateMethodStatus status v) = baseUrl v.
Proof.
  unfold updateMethodStatus. destruct status; [|done].
  by destruct (lastUsedMethod v).
Qed.

(** *** What a call must do, in the words of the specification

    [attempted]: attempt [a] is the call of method object [m] (at position
    [i] of the table) started at time [t] with the question, the widget's
    context and base URL: it ends when the adapter settles, with the
    adapter's outcome, if that is within 16 s; else it ends at 16 s as a
    failure with the race's message. *)
Definition attempted (w : World) (question : jsstring) (context : DataContext)
    (url : jsstring) (t : N) (i : nat) (m : CommunicationMethod) (a : Attempt)
    : Prop :=
  tried a = i
  /\ startedAt a = t
  /\ match func m question context url (w t) with
     | Some (dt, settled) =>
       if (dt <? 16000)%N
       then settledAt a = (t + dt)%N /\ outcome a = settled
       else settledAt a = (t + 16000)%N
            /\ outcome a = Rejected (js "Timeout geral")
     | None =>
       settledAt a = (t + 16000)%N /\ outcome a = Rejected (js "Timeout geral")
     end.

(** [follows]: the attempts [tr] and the result [res] are those of going
    through [refs] in order from time [t]: each method is attempted when
    the one before has failed, the first answer ends the call and is its
    result, and when none is left the call rejects with the message of the
    last failure ([lastError], 'undefined' when there was none). *)
Fixpoint follows (w : World) (question : jsstring) (context : DataContext)
    (url : jsstring) (t : N) (refs : list (nat * CommunicationMethod))
    (lastError : option jsstring) (tr : list Attempt) (res : Settled) : Prop :=
  match refs with
  | [] =>
    tr = []
    /\ res = Rejected (js "Comunicação falhou. Último erro: "
                       ++ default (js "undefined") lastError)
  | (i, m) :: refs' =>
    match tr with
    | [] => False
    | a :: tr' =>
      attempted w question context url t i m a
      /\ match outcome a with
         | Resolved value => tr' = [] /\ res = Resolved value
         | Rejected message =>
           follows w question context url (settledAt a) refs' (Some message)
                   tr' res
         end
    end
  end.

Lemma tryMethods_follows w question refs lastError v :
  let '(res, tr, v') := tryMethods w question refs lastError v in
  follows w question (dataContext v) (baseUrl v) (clock v) refs lastError tr res.
Proof.
  revert lastError v. induction refs as [|[i m] rest IH]; intros lastError v.
  - cbn [tryMethods follows]. split; [done|]. unfold exhaustedMessage.
    by destruct lastError.
  - cbn [tryMethods].
    destruct (updateMethodStatus_frame (js "Tentando " ++ name m ++ js "...") v)
      as (_ & Hclock & _ & Hctx & Hurl).
    rewrite Hctx, Hurl, Hclock.
    set (v1 := updateMethodStatus (js "Tentando " ++ name m ++ js "...") v).
    set (p := func m question (dataContext v) (baseUrl v) (w (clock v))).
    destruct (raceTimeout p) as [dt r] eqn:Hrace.
    assert (forall a,
              tried a = i -> startedAt a = clock v ->
              settledAt a = (clock v + dt)%N -> outcome a = r ->
              attempted w question (dataContext v) (baseUrl v) (clock v) i m a)
      as Hattempt.
    { intros a Hi Hstart Hstop Hout. unfold attempted. fold p.
      split_and!; [done..|]. unfold raceTimeout in Hrace.
      destruct p as [[t0 settled]|].
      - destruct (t0 <? 16000)%N; injection Hrace as <- <-; done.
      - injection Hrace as <- <-. done. }
    assert (clock (advance dt v1) = (clock v + dt)%N) as Hend.
    { change (clock (advance dt v1)) with (clock v1 + dt)%N.
      subst v1. by rewrite Hclock. }
    destruct r as [value|message].
    + cbn [follows outcome]. split; [|done]. by apply Hattempt.
    + match goal with
      | |- context [tryMethods w question rest ?e ?v3] =>
        specialize (IH e v3); destruct (tryMethods w question rest e v3)
          as [[res tr] v']
      end.
      cbn [follows outcome settledAt]. split; [by apply Hattempt|].
      rewrite Hend.
      change (dataContext (cooled i (advance dt v1))) with (dataContext v1) in IH.
      change (baseUrl (cooled i (advance dt v1))) with (baseUrl v1) in IH.
      change (clock (cooled i (advance dt v1))) with (clock v1 + dt)%N in IH.
      subst v1. by rewrite Hctx, Hurl, Hclock in IH.
Qed.

Lemma tryMethods_contract w question refs lastError v :
  Forall answersNonEmpty refs.*2 ->
  let '(res, tr, v') := tryMethods w question refs lastError v in
  match res with
  | Resolved value =>
    value <> [] /\ (map tried tr) `prefix_of` refs.*1
  | Rejected message =>
    map tried tr = refs.*1
    /\ forallb failed tr = true
    /\ message = exhaustedMessage (lastFailure lastError tr)
  end.
Proof.
  revert lastError v. induction refs as [|[i m] rest IH]; intros lastError v Hne.
  - by simpl.
  - simpl. apply Forall_cons in Hne as [Hm Hrest].
    destruct (raceTimeout _) as [dt r] eqn:Hrace.
    destruct r as [value|message].
    + simpl. split.
      * apply raceTimeout_resolved in Hrace. by eapply Hm.
      * exists rest.*1. done.
    + match goal with
      | |- context [tryMethods w question rest ?e ?v3] =>
        specialize (IH e v3 Hrest); destruct (tryMethods w question rest e v3)
          as [[res tr] v']
      end.
      destruct res as [value|message'].
      * destruct IH as [? Hpre]. split; [done|]. simpl.
        by apply prefix_cons.
      * destruct IH as (Htr & Hall & Hmsg). simpl.
        by rewrite Htr, Hall.
Qed.

(** C1.  Whatever the question, the data context and the network do, a
    call either resolves with a non-empty answer, or rejects after the
    adapters enabled when it started were each tried once, by ascending
    priority, every attempt having failed; the rejection message embeds the
    message of the last failure.  The adapters tried are exactly the
    enabled entries of the method table, and each attempt is the adapter's
    call raced against 16 s ([follows]).  (Adapters are the widget's, which
    never resolve with an empty string.) *)
Theorem sendMessageWithFallback_contract w question v :
  Forall answersNonEmpty (communicationMethods v) ->
  let '(res, tr, v') := sendMessageWithFallback w question v in
  let order := enabledMethods v in
  order ≡ₚ enabledRefs v
  /\ StronglySorted byPriority order
  /\ NoDup order.*1
  /\ (forall i m, (i, m) ∈ order <->
        communicationMethods v !! i = Some m /\ enabled m = true)
  /\ follows w question (dataContext v) (baseUrl v) (clock v) order None tr res
  /\ match res with
     | Resolved value => value <> [] /\ (map tried tr) `prefix_of` order.*1
     | Rejected message =>
       map tried tr = order.*1
       /\ forallb failed tr = true
       /\ message = js "Comunicação falhou. Último erro: "
                    ++ default (js "undefined") (lastFailure None tr)
     end.
Proof.
  intros Hne. unfold sendMessageWithFallback.
  assert (Forall answersNonEmpty (enabledMethods v).*2) as Hrefs.
  { apply Forall_forall. intros m Hm. apply list_elem_of_fmap in Hm as [[i m'] [-> Hin]].
    apply elem_of_enabledMethods in Hin as [Hi _]. simpl.
    eapply Forall_forall; [exact Hne|]. by eapply list_elem_of_lookup_2. }
  pose proof (tryMethods_contract w question (enabledMethods v) None v Hrefs) as H.
  pose proof (tryMethods_follows w question (enabledMethods v) None v) as Hfollows.
  destruct (tryMethods w question (enabledMethods v) None v) as [[res tr] v'].
  split_and!.
  - apply sortByPriority_perm.
  - apply sortByPriority_sorted.
  - apply enabledMethods_NoDup.
  - intros i m. apply elem_of_enabledMethods.
  - exact Hfollows.
  - destruct res; [done|]. destruct H as (? & ? & ->). split_and!; [done..|].
    unfold exhaustedMessage. by destruct (lastFailure None tr).
Qed.

(** C10.  With every method disabled the call invokes no adapter, takes no
    time and rejects with the interpolation of a missing error message. *)
Theorem all_disabled_rejects_at_once w question v :
  Forall (fun m => enabled m = false) (communicationMethods v) ->
  let '(res, tr, v') := sendMessageWithFallback w question v in
  res = Rejected (js "Comunicação falhou. Último erro: undefined")
  /\ tr = []
  /\ clock v' = clock v
  /\ timers v' = timers v
  /\ communicationMethods v' = communicationMethods v
  /\ lastFailure None tr = None.
Proof.
  intros Hoff. unfold sendMessageWithFallback.
  assert (enabledMethods v = []) as ->.
  { destruct (enabledMethods v) as [|[i m] rest] eqn:E; [done|].
    assert ((i, m) ∈ enabledMethods v) as Hin by (rewrite E; left).
    apply elem_of_enabledMethods in Hin as [Hi Hon].
    apply list_elem_of_lookup_2 in Hi.
    rewrite Forall_forall in Hoff. rewrite (Hoff m Hi) in Hon. done. }
  simpl. by split_and!.
Qed.

(** *** The cool-down of a failed adapter *)

Arguments updateMethodStatus : simpl never.
Arguments advance : simpl never.
Arguments raceTimeout : simpl never.

(** [a] is a failure of method [i] less than 30 s before [now]. *)
Definition recentFailure (now : N) (i : nat) (a : Attempt) : bool :=
  bool_decide (tried a = i) && failed a && (now <? settledAt a + 30000)%N.

(** What holds between two operations of the widget: the pending timers
    are exactly those armed by the failures of the last 30 s, one per
    method at most, and a method is disabled exactly while it has one. *)
Record Cooling (v : Visual) (h : list Attempt) : Prop := {
  cool_nodup : NoDup (timers v).*2;
  cool_future : forall d i, (d, i) ∈ timers v -> (clock v < d)%N;
  cool_origin : forall d i, (d, i) ∈ timers v ->
    exists a, a ∈ h /\ tried a = i /\ failed a = true
              /\ d = (settledAt a + 30000)%N;
  cool_armed : forall a, a ∈ h -> failed a = true ->
    (clock v < settledAt a + 30000)%N ->
    ((settledAt a + 30000)%N, tried a) ∈ timers v;
  cool_flag : forall i m, communicationMethods v !! i = Some m ->
    (enabled m = false <-> i ∈ (timers v).*2) }.

Lemma lookup_enable_due (due : list (N * nat)) (ms : list CommunicationMethod) i :
  foldl (fun ms t => alter (setEnabled true) t.2 ms) ms due !! i
  = (fun m => if bool_decide (i ∈ due.*2) then setEnabled true m else m)
      <$> ms !! i.
Proof.
  revert ms. induction due as [|t due IH]; intros ms.
  - simpl. by destruct (ms !! i).
  - cbn [foldl]. rewrite IH, fmap_cons. destruct (decide (t.2 = i)) as [<-|Hne].
    + rewrite list_lookup_alter_eq. destruct (ms !! t.2) as [m|]; simpl; [|done].
      rewrite (bool_decide_eq_true_2 (t.2 ∈ t.2 :: due.*2)) by left.
      by case_bool_decide.
    + rewrite list_lookup_alter_ne by done.
      destruct (ms !! i) as [m|]; simpl; [|done].
      f_equal. rewrite (bool_decide_ext (i ∈ t.2 :: due.*2) (i ∈ due.*2)); [done|].
      rewrite elem_of_cons. split; [intros [->|?]; done|by right].
Qed.

Lemma NoDup_snd_agree (ts : list (N * nat)) d d' i :
  NoDup ts.*2 -> (d, i) ∈ ts -> (d', i) ∈ ts -> d = d'.
Proof.
  induction ts as [|[e j] ts IH]; intros Hnd H1 H2; [by inversion H1|].
  rewrite fmap_cons in Hnd. apply NoDup_cons in Hnd as [Hj Hnd].
  apply elem_of_cons in H1 as [H1|H1]; apply elem_of_cons in H2 as [H2|H2].
  - congruence.
  - injection H1 as -> ->. exfalso. apply Hj, list_elem_of_fmap. by exists (d', j).
  - injection H2 as -> ->. exfalso. apply Hj, list_elem_of_fmap. by exists (d, j).
  - by apply IH.
Qed.

Lemma elem_of_snd (ts : list (N * nat)) i :
  i ∈ ts.*2 <-> exists d, (d, i) ∈ ts.
Proof.
  rewrite list_elem_of_fmap. split.
  - intros [[d j] [-> H]]. by exists d.
  - intros [d H]. by exists (d, i).
Qed.

Lemma Cooling_advance dt v h : Cooling v h -> Cooling (advance dt v) h.
Proof.
  intros [Hnd Hfut Horig Harm Hflag]. unfold advance, fireDue. split; simpl.
  - eapply sublist_NoDup; [exact Hnd|]. apply fmap_sublist, sublist_filter.
  - intros d i Hin. apply list_elem_of_filter in Hin as [Hp _]. simpl in Hp. lia.
  - intros d i Hin. apply list_elem_of_filter in Hin as [_ Hin]. by apply Horig.
  - intros a Ha Hf Hc. apply list_elem_of_filter. split; [simpl; lia|].
    apply Harm; [done..|lia].
  - intros i m Hi. rewrite lookup_enable_due in Hi.
    destruct (communicationMethods v !! i) as [m0|] eqn:Hm0; simpl in Hi; [|done].
    injection Hi as <-. specialize (Hflag i m0 Hm0).
    case_bool_decide as Hdue; rewrite elem_of_snd.
    + simpl. split; [done|]. intros [d Hd].
      apply list_elem_of_filter in Hd as [Hp Hd]. simpl in Hp.
      apply elem_of_snd in Hdue as [d' Hd'].
      apply list_elem_of_filter in Hd' as [Hp' Hd']. simpl in Hp'.
      rewrite (NoDup_snd_agree _ d d' i Hnd Hd Hd') in Hp. done.
    + rewrite Hflag, elem_of_snd. split.
      * intros [d Hd]. exists d. apply list_elem_of_filter. split; [|done].
        simpl. intros Hp. apply Hdue, elem_of_snd. exists d.
        apply list_elem_of_filter. by split.
      * intros [d Hd]. exists d. by apply list_elem_of_filter in Hd as [_ Hd].
Qed.

Lemma Cooling_same v v' h :
  timers v' = timers v -> clock v' = clock v ->
  communicationMethods v' = communicationMethods v ->
  Cooling v h -> Cooling v' h.
Proof.
  intros Ht Hc Hm [Hnd Hfut Horig Harm Hflag].
  split; rewrite ?Ht, ?Hc, ?Hm; done.
Qed.

Lemma Cooling_status status v h :
  Cooling v h -> Cooling (updateMethodStatus status v) h.
Proof.
  destruct (updateMethodStatus_frame status v) as (? & ? & ? & _).
  by apply Cooling_same.
Qed.

Lemma timers_advance_subseteq dt v : timers (advance dt v) ⊆ timers v.
Proof.
  unfold advance, fireDue. simpl. intros t Ht.
  by apply list_elem_of_filter in Ht as [_ Ht].
Qed.

Lemma Cooling_success v h a :
  failed a = false -> Cooling v h -> Cooling v (h ++ [a]).
Proof.
  intros Ha [Hnd Hfut Horig Harm Hflag]. split; try done.
  - intros d i Hin. destruct (Horig d i Hin) as (b & Hb & ?).
    exists b. split; [|done]. apply elem_of_app. by left.
  - intros b Hb Hf Hc. apply elem_of_app in Hb as [Hb|Hb]; [by apply Harm|].
    apply list_elem_of_singleton in Hb as ->. congruence.
Qed.

Lemma Cooling_failure v h a :
  failed a = true -> settledAt a = clock v -> tried a ∉ (timers v).*2 ->
  Cooling v h -> Cooling (cooled (tried a) v) (h ++ [a]).
Proof.
  intros Ha Ht Hfresh [Hnd Hfut Horig Harm Hflag]. unfold cooled. split; simpl.
  - rewrite fmap_app. apply NoDup_app. split_and!; [done| |apply NoDup_singleton].
    intros i Hi Hin. simpl in Hin. apply list_elem_of_singleton in Hin. by subst.
  - intros d i Hin. apply elem_of_app in Hin as [Hin|Hin]; [by eapply Hfut|].
    apply list_elem_of_singleton in Hin. injection Hin as -> ->. lia.
  - intros d i Hin. apply elem_of_app in Hin as [Hin|Hin].
    + destruct (Horig d i Hin) as (b & Hb & ?).
      exists b. split; [|done]. apply elem_of_app. by left.
    + apply list_elem_of_singleton in Hin. injection Hin as -> ->.
      exists a. split_and!; [|done..|by rewrite Ht].
      apply elem_of_app. right. by apply list_elem_of_singleton.
  - intros b Hb Hf Hc. apply elem_of_app. apply elem_of_app in Hb as [Hb|Hb].
    + left. by apply Harm.
    + right. apply list_elem_of_singleton in Hb as ->.
      apply list_elem_of_singleton. by rewrite Ht.
  - intros i m Hi. rewrite fmap_app, elem_of_app. simpl.
    rewrite list_elem_of_singleton.
    destruct (decide (tried a = i)) as [<-|Hne].
    + rewrite list_lookup_alter_eq in Hi.
      destruct (communicationMethods v !! tried a); simpl in Hi; [|done].
      injection Hi as <-. simpl. split; [by right|done].
    + rewrite list_lookup_alter_ne in Hi by done.
      rewrite (Hflag i m Hi). split; [by left|]. by intros [?|?].
Qed.

Lemma Cooling_tryMethods w question refs lastError v h :
  Cooling v h -> NoDup refs.*1 ->
  (forall i, i ∈ refs.*1 -> i ∉ (timers v).*2) ->
  let '(res, tr, v') := tryMethods w question refs lastError v in
  Cooling v' (h ++ tr).
Proof.
  revert lastError v h.
  induction refs as [|[i m] rest IH]; intros lastError v h Hcool Hnd Hfresh.
  - cbn [tryMethods]. rewrite app_nil_r. by apply Cooling_status.
  - cbn [tryMethods]. rewrite fmap_cons in Hnd, Hfresh.
    apply NoDup_cons in Hnd as [Hi Hnd].
    destruct (raceTimeout _) as [dt r].
    set (v1 := updateMethodStatus _ v).
    assert (Cooling (advance dt v1) h) as Hcool2.
    { by apply Cooling_advance, Cooling_status. }
    assert (forall j, j ∈ (timers (advance dt v1)).*2 -> j ∈ (timers v).*2) as Hsub.
    { intros j Hj. apply list_elem_of_fmap in Hj as [t [-> Ht]].
      apply timers_advance_subseteq in Ht. unfold v1 in Ht.
      rewrite (proj1 (updateMethodStatus_frame _ v)) in Ht.
      apply list_elem_of_fmap. by exists t. }
    destruct r as [value|message].
    + apply Cooling_status.
      apply (Cooling_same (advance dt v1)); [done..|].
      by apply Cooling_success.
    + set (a := {| tried := i; startedAt := clock v1;
                   settledAt := clock (advance dt v1);
                   outcome := Rejected message |}).
      assert (Cooling (cooled (tried a) (advance dt v1)) (h ++ [a])) as Hcool3.
      { apply Cooling_failure; [done..| |done].
        intros Hin. apply (Hfresh i); [by left|]. by apply Hsub. }
      specialize (IH (Some message) _ _ Hcool3 Hnd). simpl tried in IH.
      destruct (tryMethods w question rest (Some message) (cooled i (advance dt v1)))
        as [[res tr] v'].
      rewrite <- app_assoc in IH. apply IH.
      intros j Hj. unfold cooled. simpl. rewrite fmap_app, elem_of_app. simpl.
      rewrite list_elem_of_singleton. intros [Hin| ->]; [|done].
      apply (Hfresh j); [by right|]. by apply Hsub.
Qed.

Lemma Cooling_step s op : Cooling s.1 s.2 -> Cooling (step s op).1 (step s op).2.
Proof.
  destruct s as [v h]. intros Hcool. destruct op as [w question|secret dv|dt]; simpl.
  - unfold sendMessageWithFallback.
    pose proof (Cooling_tryMethods w question (enabledMethods v) None v h Hcool
                  (enabledMethods_NoDup v)) as H.
    destruct (tryMethods w question (enabledMethods v) None v) as [[res tr] v'].
    simpl. apply H. intros i Hi Htimer.
    apply list_elem_of_fmap in Hi as [[i' m] [-> Hin]]. simpl in Htimer.
    apply elem_of_enabledMethods in Hin as [Hlook Hon].
    apply (cool_flag _ _ Hcool) in Hlook. apply Hlook in Htimer. congruence.
  - unfold update. destruct dv; [apply Cooling_status|];
      by apply (Cooling_same v).
  - by apply Cooling_advance.
Qed.

Lemma Cooling_run ops now : Cooling (run ops now).1 (run ops now).2.
Proof.
  unfold run. induction ops as [|op ops IH] using rev_ind.
  - split; simpl; try done.
    + constructor.
    + intros d i Hin. by apply elem_of_nil in Hin.
    + intros d i Hin. by apply elem_of_nil in Hin.
    + intros a Ha. by apply elem_of_nil in Ha.
    + intros i m Hi. split; [|intros Hin; by apply elem_of_nil in Hin].
      intros Hoff. exfalso.
      destruct i as [|[|[|[|i]]]]; simpl in Hi; simplify_eq; done.
  - rewrite foldl_app. simpl. by apply Cooling_step.
Qed.

Lemma Cooling_flags v h :
  Cooling v h ->
  forall i m, communicationMethods v !! i = Some m ->
    enabled m = negb (existsb (recentFailure (clock v) i) h)
    /\ (i ∈ (enabledMethods v).*1 <->
        existsb (recentFailure (clock v) i) h = false).
Proof.
  intros [Hnd Hfut Horig Harm Hflag] i m Hi.
  assert (enabled m = negb (existsb (recentFailure (clock v) i) h)) as Hen.
  { destruct (existsb (recentFailure (clock v) i) h) eqn:Hex; simpl.
    - apply existsb_exists in Hex as (a & Ha & Hrec).
      unfold recentFailure in Hrec.
      apply andb_prop in Hrec as [Hrec Hlt]. apply andb_prop in Hrec as [Htr Hf].
      apply bool_decide_eq_true in Htr. apply N.ltb_lt in Hlt.
      apply (Hflag i m Hi). apply elem_of_snd. exists (settledAt a + 30000)%N.
      subst i. apply Harm; [by apply list_elem_of_In|done..].
    - destruct (enabled m) eqn:Hm; [done|]. exfalso.
      apply (Hflag i m Hi) in Hm. apply elem_of_snd in Hm as [d Hd].
      destruct (Horig d i Hd) as (a & Ha & Htr & Hf & ->).
      specialize (Hfut _ _ Hd).
      assert (existsb (recentFailure (clock v) i) h = true) as Hex'; [|congruence].
      apply existsb_exists. exists a. split; [by apply list_elem_of_In|].
      unfold recentFailure. rewrite Hf, (bool_decide_eq_true_2 _ Htr). simpl.
      by apply N.ltb_lt. }
  split; [done|]. rewrite <- (negb_true_iff (existsb _ _)), <- Hen.
  split.
  - intros Hin. apply list_elem_of_fmap in Hin as [[i' m'] [-> Hin]].
    apply elem_of_enabledMethods in Hin as [Hlook Hon]. simpl in Hi. congruence.
  - intros Hon. apply list_elem_of_fmap. exists (i, m). split; [done|].
    by apply elem_of_enabledMethods.
Qed.

Lemma step_log_prefix s op : s.2 `prefix_of` (step s op).2.
Proof.
  destruct s as [v h]. destruct op as [w question|secret dv|dt]; cbn [step fst snd];
    [|done..].
  destruct (sendMessageWithFallback w question v) as [[res tr] v'].
  by apply prefix_app_r.
Qed.

Lemma log_prefix s ops : s.2 `prefix_of` (foldl step s ops).2.
Proof.
  revert s. induction ops as [|op ops IH]; intros s; [done|].
  cbn [foldl]. etransitivity; [apply step_log_prefix|apply IH].
Qed.

(** C4.  Take the widget in any state it can reach, a question asked then,
    and whatever happens afterwards.  The attempts of the question are the
    calls of the enabled adapters, each raced against 16 s, one after the
    other until one answers ([follows]); they stay in the log of attempts;
    and at any later moment between two operations a method is disabled,
    and so left out of the selection of the next question, exactly when one
    of its logged attempts failed (by the adapter's rejection or by losing
    the race) less than 30 000 ms ago: it is excluded from the instant of
    the failure, and selectable again once 30 s have passed. *)
Theorem cooldown_lasts_30s (ops : list Op) (now : N) (w : World)
    (question : jsstring) (ops' : list Op) :
  let '(v, h) := run ops now in
  let '(res, tr, v1) := sendMessageWithFallback w question v in
  let '(v2, h2) := run (ops ++ Ask w question :: ops') now in
  follows w question (dataContext v) (baseUrl v) (clock v) (enabledMethods v)
          None tr res
  /\ (forall i m, (i, m) ∈ enabledMethods v <->
        communicationMethods v !! i = Some m /\ enabled m = true)
  /\ (h ++ tr) `prefix_of` h2
  /\ (forall a m,
        a ∈ tr -> failed a = true ->
        communicationMethods v2 !! tried a = Some m ->
        (clock v2 < settledAt a + 30000)%N ->
        enabled m = false /\ tried a ∉ (enabledMethods v2).*1)
  /\ (forall i m, communicationMethods v2 !! i = Some m ->
        enabled m = negb (existsb (recentFailure (clock v2) i) h2)
        /\ (i ∈ (enabledMethods v2).*1 <->
            existsb (recentFailure (clock v2) i) h2 = false)).
Proof.
  pose proof (Cooling_run (ops ++ Ask w question :: ops') now) as Hcool.
  pose proof (log_prefix (step (run ops now) (Ask w question)) ops') as Hlog.
  assert (run (ops ++ Ask w question :: ops') now
          = foldl step (step (run ops now) (Ask w question)) ops') as Hrun.
  { unfold run. by rewrite foldl_app. }
  rewrite <- Hrun in Hlog. clear Hrun.
  destruct (run ops now) as [v h]. cbn [step fst snd] in Hlog.
  pose proof (tryMethods_follows w question (enabledMethods v) None v) as Hfollows.
  unfold sendMessageWithFallback in *.
  destruct (tryMethods w question (enabledMethods v) None v) as [[res tr] v1].
  cbn [snd] in Hlog.
  destruct (run (ops ++ Ask w question :: ops') now) as [v2 h2].
  cbn [fst snd] in Hcool, Hlog.
  pose proof (Cooling_flags v2 h2 Hcool) as Hflags.
  split_and!.
  - exact Hfollows.
  - intros i m. apply elem_of_enabledMethods.
  - exact Hlog.
  - intros a m Ha Hfailed Hm Hrecent.
    destruct (Hflags _ _ Hm) as [Hen Hsel].
    assert (existsb (recentFailure (clock v2) (tried a)) h2 = true) as Hex.
    { apply existsb_exists. exists a. split.
      - apply list_elem_of_In. destruct Hlog as [later ->].
        apply elem_of_app. left. apply elem_of_app. by right.
      - unfold recentFailure. rewrite Hfailed, bool_decide_eq_true_2 by done.
        cbn [andb]. by apply N.ltb_lt. }
    rewrite Hex in Hen, Hsel. split; [done|].
    intros Hin. apply Hsel in Hin. done.
  - exact Hflags.
Qed.

End Widget.

(** *** Concrete runs *)

(** Every transport fails at once: the script and the frame do not load,
    the stream errors, and the first poll finds a stored error. *)
Definition failFast : World := fun _ =>
  {| jsonpWire := Some (0%N, ScriptLoadError);
     iframeWire := [(0%N, FrameLoadError)];
     sseWire := Some (0%N, StreamError);
     pixelWire := fun _ =>
       (0%N, PollJson true (Some {| error := ErrorFlag true; answer := None |})) |}.

(** The script never loads; the frame answers after 1.2 s. *)
Definition frameAnswers : World := fun _ =>
  {| jsonpWire := None;
     iframeWire :=
       [(1200%N, FrameMessage (js "https://copilotassistbi.netlify.app")
                   (Some {| error := NoError;
                            answer := Some (js "42 registros") |}))];
     sseWire := None;
     pixelWire := fun _ => (0%N, PollFails) |}.

Definition configured : Op unit :=
  Update unit (js "https://copilotassistbi.netlify.app") None.

Example frameAnswers_run :
  let '(res, tr, v') :=
    sendMessageWithFallback unit frameAnswers (js "total?")
      (run unit [configured] 0).1 in
  res = Resolved (js "42 registros")
  /\ map (tried) tr = [0; 1]
  /\ clock unit v' = 16200%N
  /\ map (enabled unit) (communicationMethods unit v') = [false; true; true; true]
  /\ timers unit v' = [(45000%N, 0)]
  /\ lastUsedMethod unit v' = js "Iframe".
Proof. vm_compute. by split_and!. Qed.

Example failFast_run :
  let '(v, h) := run unit [Ask unit failFast (js "total?")] 0 in
  map (enabled unit) (communicationMethods unit v) = [false; false; false; false]
  /\ map (tried) h = [0; 1; 2; 3]
  /\ map (settledAt) h = [0; 0; 0; 2000]%N
  /\ timers unit v = [(30000%N, 0); (30000%N, 1); (30000%N, 2); (32000%N, 3)].
Proof. vm_compute. by split_and!. Qed.

(** 29 999 ms after the failure at time 0 JSONP is still out; one
    millisecond later it is back, while Pixel (failed at 2000) is not. *)
Example cooldown_run :
  map (enabled unit)
    (communicationMethods unit
       (run unit [Ask unit failFast (js "total?"); Wait unit 27999] 0).1)
  = [false; false; false; false]
  /\ map (enabled unit)
       (communicationMethods unit
          (run unit [Ask unit failFast (js "total?"); Wait unit 28000] 0).1)
     = [true; true; true; false].
Proof. vm_compute. by split. Qed.

Lemma all_off_check {V : Type} (ms : list (CommunicationMethod V)) :
  forallb (fun m => negb (enabled V m)) ms = true ->
  Forall (fun m => enabled V m = false) ms.
Proof.
  induction ms as [|m ms IH]; simpl; [constructor|].
  intros [Hm Hms]%andb_prop. constructor; [|by apply IH].
  by apply negb_true_iff.
Qed.

Lemma sendMessageWithFallback_contract_witness :
  Forall (answersNonEmpty unit)
    (communicationMethods unit (run unit [configured] 0).1)
  /\ let '(res, tr, v') :=
       sendMessageWithFallback unit frameAnswers (js "total?")
         (run unit [configured] 0).1 in
     let order := enabledMethods unit (run unit [configured] 0).1 in
     order ≡ₚ enabledRefs unit (run unit [configured] 0).1
     /\ StronglySorted (byPriority unit) order
     /\ NoDup order.*1
     /\ (forall i m, (i, m) ∈ order <->
           communicationMethods unit (run unit [configured] 0).1 !! i = Some m
           /\ enabled unit m = true)
     /\ follows unit frameAnswers (js "total?")
          (dataContext unit (run unit [configured] 0).1)
          (baseUrl unit (run unit [configured] 0).1)
          (clock unit (run unit [configured] 0).1) order None tr res
     /\ match res with
        | Resolved value =>
          value <> [] /\ (map (tried) tr) `prefix_of` order.*1
        | Rejected message =>
          map (tried) tr = order.*1
          /\ forallb (failed) tr = true
          /\ message = js "Comunicação falhou. Último erro: "
                       ++ default (js "undefined") (lastFailure None tr)
        end.
Proof.
  split.
  - apply initial_answersNonEmpty.
  - exact (sendMessageWithFallback_contract unit frameAnswers (js "total?")
             (run unit [configured] 0).1 (initial_answersNonEmpty unit)).
Defined.

Lemma all_disabled_rejects_at_once_witness :
  Forall (fun m => enabled unit m = false)
    (communicationMethods unit
       (run unit [Ask unit failFast (js "total?")] 0).1)
  /\ let '(res, tr, v') :=
       sendMessageWithFallback unit frameAnswers (js "e agora?")
         (run unit [Ask unit failFast (js "total?")] 0).1 in
     res = Rejected (js "Comunicação falhou. Último erro: undefined")
     /\ tr = []
     /\ clock unit v' = clock unit (run unit [Ask unit failFast (js "total?")] 0).1
     /\ timers unit v' = timers unit (run unit [Ask unit failFast (js "total?")] 0).1
     /\ communicationMethods unit v'
        = communicationMethods unit (run unit [Ask unit failFast (js "total?")] 0).1
     /\ lastFailure None tr = None.
Proof.
  assert (Forall (fun m => enabled unit m = false)
            (communicationMethods unit
               (run unit [Ask unit failFast (js "total?")] 0).1)) as Hoff.
  { apply all_off_check. vm_compute. reflexivity. }
  split; [exact Hoff|].
  exact (all_disabled_rejects_at_once unit frameAnswers (js "e agora?")
           (run unit [Ask unit failFast (js "total?")] 0).1 Hoff).
Defined.

End VisualTs.

(** ** JSON values, as [JSON.parse] produces them *)

Module Json.

(** [Num] stands for JavaScript numbers, which the functions below only
    carry around or print.  An object lists its own properties in
    enumeration order, each key once. *)
#[local] Unset Elimination Schemes.

Inductive json (Num : Type) : Type :=
| JNull
| JBool (b : bool)
| JNum (n : Num)
| JStr (s : list N)
| JArr (items : list (json Num))
| JObj (fields : list (list N * json Num)).

#[local] Set Elimination Schemes.

Arguments JNull {Num}.
Arguments JBool {Num} b.
Arguments JNum {Num} n.
Arguments JStr {Num} s.
Arguments JArr {Num} items.
Arguments JObj {Num} fields.

Section Objects.

Context {Num : Type}.

(** [o[key]] on an object's property list; [None] is [undefined]. *)
Fixpoint getProp (key : list N) (o : list (list N * json Num)) : option (json Num) :=
  match o with
  | [] => None
  | (k, x) :: o' => if bool_decide (k = key) then Some x else getProp key o'
  end.

(** [o[key] = x]: an existing property keeps its place. *)
Fixpoint setProp (key : list N) (x : json Num) (o : list (list N * json Num))
    : list (list N * json Num) :=
  match o with
  | [] => [(key, x)]
  | (k, y) :: o' =>
    if bool_decide (k = key) then (k, x) :: o' else (k, y) :: setProp key x o'
  end.

(** The own enumerable properties that [{...x}] copies; [None] is
    [undefined]. *)
Definition spread (x : option (json Num)) : list (list N * json Num) :=
  match x with
  | Some (JObj fields) => fields
  | Some (JArr items) => imap (fun i item => (decimal i, item)) items
  | Some (JStr s) => imap (fun i c => (decimal i, JStr [c])) s
  | _ => []
  end.

Lemma getProp_setProp_eq key x (o : list (list N * json Num)) :
  getProp key (setProp key x o) = Some x.
Proof.
  induction o as [|[k y] o IH]; simpl.
  - by rewrite bool_decide_eq_true_2.
  - case_bool_decide as Hk; simpl.
    + by rewrite bool_decide_eq_true_2.
    + by rewrite bool_decide_eq_false_2.
Qed.

Lemma getProp_setProp_ne key key' x (o : list (list N * json Num)) :
  key <> key' -> getProp key' (setProp key x o) = getProp key' o.
Proof.
  intros Hne. induction o as [|[k y] o IH]; simpl.
  - by rewrite bool_decide_eq_false_2.
  - case_bool_decide as Hk; simpl.
    + subst k. by rewrite !bool_decide_eq_false_2.
    + by rewrite IH.
Qed.

End Objects.

End Json.

Import Json.

(** ** netlify/functions/storage-bridge.js *)

Module StorageBridge.

Section Bridge.

Variable Num : Type.

(** [new Date(t).toISOString()]. *)
Variable toISOString : N -> list N.

Abbreviation json := (Json.json Num).
Abbreviation object := (list (list N * Json.json Num)).

(** The invocation: the HTTP method, [JSON.parse(event.body)] ([None] when
    it throws) and [event.queryStringParameters?.session]. *)
Record Event := {
  httpMethod : jsstring;
  body : option json;
  session : option jsstring }.

Inductive Body :=
| NoBody
| Stored (sessionId : option json)
| Found (data : object)
| Waiting (sessionId : jsstring)
| Failure (error : jsstring) (* [details], when present, is the engine's message *).

Record Response := { statusCode : Z; payload : Body }.

(** The module-level state.  [responses] is the Map restricted to string
    keys: a GET names its key by a string, so an entry stored under a key
    of another type can never be looked up.  [cleanups] are the pending
    auto-cleanup timers. *)
Record Store := {
  responses : gmap (list N) object;
  cleanups : list (N * list N);
  now : N }.

Definition emptyStore (t : N) : Store :=
  {| responses := ∅; cleanups := []; now := t |}.

(** Reading a property of [JSON.parse(event.body)] by destructuring:
    [null] throws, a value without the property gives [undefined]. *)
Definition destructure (parsed : json) : option object :=
  match parsed with
  | JNull => None
  | JObj fields => Some fields
  | _ => Some []
  end.

Definition methodNotAllowed : Response :=
  {| statusCode := 405; payload := Failure (js "Method not allowed") |}.

Definition internalError : Response :=
  {| statusCode := 500; payload := Failure (js "Internal error") |}.

Definition handler (event : Event) (st : Store) : Response * Store :=
  if bool_decide (httpMethod event = js "OPTIONS")
  then ({| statusCode := 200; payload := NoBody |}, st)
  else if bool_decide (httpMethod event = js "POST") then
    match body event with
    | None => (internalError, st)
    | Some parsed =>
      match destructure parsed with
      | None => (internalError, st)
      | Some fields =>
        match getProp (js "action") fields with
        | Some (JStr action) =>
          if bool_decide (action = js "store") then
            let sessionId := getProp (js "sessionId") fields in
            let entry :=
              setProp (js "storedAt") (JStr (toISOString (now st)))
                      (spread (getProp (js "data") fields)) in
            let st' :=
              match sessionId with
              | Some (JStr id) =>
                {| responses := <[id := entry]> (responses st);
                   cleanups := cleanups st ++ [((now st + 5 * 60 * 1000)%N, id)];
                   now := now st |}
              | _ => st
              end in
            ({| statusCode := 200; payload := Stored sessionId |}, st')
          else (methodNotAllowed, st)
        | _ => (methodNotAllowed, st)
        end
      end
    end
  else if bool_decide (httpMethod event = js "GET") then
    match session event with
    | Some (c :: s) =>
      let sessionId := c :: s in
      match responses st !! sessionId with
      | Some response =>
        ({| statusCode := 200; payload := Found response |},
         {| responses := delete sessionId (responses st);
            cleanups := cleanups st; now := now st |})
      | None => ({| statusCode := 200; payload := Waiting sessionId |}, st)
      end
    | _ =>
      ({| statusCode := 400; payload := Failure (js "Session ID required") |}, st)
    end
  else (methodNotAllowed, st).

(** Time passes: every cleanup due by then deletes its session. *)
Definition tick (dt : N) (st : Store) : Store :=
  let t := (now st + dt)%N in
  {| responses :=
       foldl (fun m c => delete c.2 m) (responses st)
             (filter (fun c => (c.1 <= t)%N) (cleanups st));
     cleanups := filter (fun c => ¬ (c.1 <= t)%N) (cleanups st);
     now := t |}.

(** The two requests the beacon transport makes. *)
Definition store (id : jsstring) (data : json) : Event :=
  {| httpMethod := js "POST";
     body := Some (JObj [(js "action", JStr (js "store"));
                         (js "sessionId", JStr id);
                         (js "data", data)]);
     session := None |}.

Definition fetch (id : jsstring) : Event :=
  {| httpMethod := js "GET"; body := None; session := Some id |}.

Inductive Op := Request (event : Event) | Tick (dt : N).

Definition step (st : Store) (op : Op) : Store :=
  match op with
  | Request event => (handler event st).2
  | Tick dt => tick dt st
  end.

Definition elapsed (ops : list Op) : N :=
  foldr (fun op t => match op with Tick dt => (dt + t)%N | Request _ => t end)
        0%N ops.

(** Does this operation store something under [id]? *)
Definition storesUnder (id : jsstring) (op : Op) : bool :=
  match op with
  | Request event =>
    bool_decide (httpMethod event = js "POST")
    && match body event with
       | Some (JObj fields) =>
         match getProp (js "action") fields, getProp (js "sessionId") fields with
         | Some (JStr action), Some (JStr id') =>
           bool_decide (action = js "store") && bool_decide (id' = id)
         | _, _ => false
         end
       | _ => false
       end
  | Tick _ => false
  end.

(** *** Properties of the store *)

Lemma lookup_expire (due : list (N * list N)) (m : gmap (list N) object) id :
  foldl (fun m c => delete c.2 m) m due !! id
  = if bool_decide (id ∈ due.*2) then None else m !! id.
Proof.
  revert m. induction due as [|c due IH]; intros m; [done|].
  cbn [foldl]. rewrite IH, fmap_cons.
  destruct (decide (c.2 = id)) as [<-|Hne].
  - rewrite lookup_delete_eq.
    rewrite (bool_decide_eq_true_2 (c.2 ∈ c.2 :: due.*2)) by left.
    by case_bool_decide.
  - rewrite lookup_delete_ne by done.
    rewrite (bool_decide_ext (id ∈ c.2 :: due.*2) (id ∈ due.*2)); [done|].
    rewrite elem_of_cons. split; [intros [->|?]; done|by right].
Qed.

Lemma handler_now event st : now (handler event st).2 = now st.
Proof.
  unfold handler. repeat (case_match; simpl; try done).
Qed.

Lemma now_run ops st : now (foldl step st ops) = (now st + elapsed ops)%N.
Proof.
  revert st. induction ops as [|op ops IH]; intros st; simpl; [lia|].
  rewrite IH. destruct op as [event|dt]; simpl.
  - by rewrite handler_now.
  - lia.
Qed.

(** A request that stores nothing under [id] leaves its entry alone or
    removes it. *)
Lemma handler_other id event st :
  storesUnder id (Request event) = false ->
  responses (handler event st).2 !! id = responses st !! id
  \/ responses (handler event st).2 !! id = None.
Proof.
  unfold storesUnder, handler. intros Hno.
  destruct (bool_decide (httpMethod event = js "OPTIONS")); [by left|].
  destruct (bool_decide (httpMethod event = js "POST")); simpl in Hno.
  - destruct (body event) as [[| | | | |fields]|]; simpl; try by left.
    destruct (getProp (js "action") fields) as [[| | |action| |]|]; try by left.
    case_bool_decide as Hstore; [|by left]. simpl in Hno.
    destruct (getProp (js "sessionId") fields) as [[| | |id'| |]|]; try by left.
    simpl. left. apply lookup_insert_ne.
    by apply bool_decide_eq_false in Hno.
  - case_bool_decide as Hget; [|by left].
    destruct (session event) as [[|c sid]|]; try by left.
    destruct (responses st !! (c :: sid)) eqn:Hlook; [|by left]. simpl.
    destruct (decide (c :: sid = id)) as [<-|Hne].
    + right. apply lookup_delete_eq.
    + left. by apply lookup_delete_ne.
Qed.

Lemma handler_keeps_cleanups event st c :
  c ∈ cleanups st -> c ∈ cleanups (handler event st).2.
Proof.
  unfold handler. intros Hc. repeat (case_match; simpl; try done).
  apply elem_of_app. by left.
Qed.

Definition noStoreUnder (id : jsstring) (ops : list Op) : bool :=
  forallb (fun op => negb (storesUnder id op)) ops.

Lemma absent_stays id ops st :
  noStoreUnder id ops = true ->
  responses st !! id = None -> responses (foldl step st ops) !! id = None.
Proof.
  revert st. induction ops as [|op ops IH]; intros st Hno Habs; [done|].
  simpl in Hno. apply andb_prop in Hno as [Hop Hno]. apply negb_true_iff in Hop.
  simpl. apply IH; [done|]. destruct op as [event|dt]; simpl.
  - destruct (handler_other id event st Hop) as [H|H]; congruence.
  - rewrite lookup_expire. by case_bool_decide.
Qed.

(** While the cleanup armed for time [due] is pending, the entry is
    gone or the cleanup is still to come. *)
Definition awaiting (id : jsstring) (due : N) (st : Store) : Prop :=
  responses st !! id = None \/ ((due, id) ∈ cleanups st /\ (now st < due)%N).

Lemma awaiting_run id due ops st :
  noStoreUnder id ops = true ->
  awaiting id due st -> awaiting id due (foldl step st ops).
Proof.
  revert st. induction ops as [|op ops IH]; intros st Hno Hst; [done|].
  simpl in Hno. apply andb_prop in Hno as [Hop Hno]. apply negb_true_iff in Hop.
  simpl. apply IH; [done|]. unfold awaiting in *.
  destruct op as [event|dt]; unfold step, tick; simpl.
  - destruct Hst as [Habs|[Hin Hlt]].
    + left. destruct (handler_other id event st Hop) as [H|H]; congruence.
    + right. split; [by apply handler_keeps_cleanups|by rewrite handler_now].
  - destruct Hst as [Habs|[Hin Hlt]].
    + left. rewrite lookup_expire. by case_bool_decide.
    + destruct (decide (due <= now st + dt)%N) as [Hdue|Hwait].
      * left. rewrite lookup_expire, bool_decide_eq_true_2; [done|].
        apply list_elem_of_fmap. exists (due, id). split; [done|].
        by apply list_elem_of_filter.
      * right. split; [|lia]. by apply list_elem_of_filter.
Qed.

Lemma handler_store id data st :
  handler (store id data) st
  = ({| statusCode := 200; payload := Stored (Some (JStr id)) |},
     {| responses :=
          <[id := setProp (js "storedAt") (JStr (toISOString (now st)))
                          (spread (Some data))]> (responses st);
        cleanups := cleanups st ++ [((now st + 300000)%N, id)];
        now := now st |}).
Proof. reflexivity. Qed.

Lemma handler_fetch id st :
  handler (fetch id) st
  = match id with
    | [] => ({| statusCode := 400; payload := Failure (js "Session ID required") |},
             st)
    | _ :: _ =>
      match responses st !! id with
      | Some response =>
        ({| statusCode := 200; payload := Found response |},
         {| responses := delete id (responses st);
            cleanups := cleanups st; now := now st |})
      | None => ({| statusCode := 200; payload := Waiting id |}, st)
      end
    end.
Proof. by destruct id. Qed.

(** C2, as the code has it.  For a non-empty session id, the first fetch
    after [store(id, X)] answers found with the stored entry, which is X's
    own properties with [storedAt] stamped at the time of the store (for
    an object X: [storedAt] reads the time of the store and every other
    key reads what it reads in X), and deletes it; the second immediate
    fetch, and every later fetch until something is stored under the id
    again, answers not found. *)
Theorem store_then_fetch_once (st : Store) (id : jsstring) (data : json) :
  id <> [] ->
  let st1 := (handler (store id data) st).2 in
  let '(first, st2) := handler (fetch id) st1 in
  let '(second, st3) := handler (fetch id) st2 in
  first = {| statusCode := 200;
             payload := Found (setProp (js "storedAt")
                                 (JStr (toISOString (now st)))
                                 (spread (Some data))) |}
  /\ (forall fields, data = JObj fields ->
        exists entry,
          payload first = Found entry
          /\ getProp (js "storedAt") entry = Some (JStr (toISOString (now st)))
          /\ forall key, key <> js "storedAt" ->
               getProp key entry = getProp key fields)
  /\ responses st2 !! id = None
  /\ second = {| statusCode := 200; payload := Waiting id |}
  /\ st3 = st2
  /\ forall ops, noStoreUnder id ops = true ->
       (handler (fetch id) (foldl step st2 ops)).1
       = {| statusCode := 200; payload := Waiting id |}.
Proof.
  intros Hid. rewrite handler_store. cbn [snd]. rewrite !handler_fetch.
  destruct id as [|c id]; [done|]. cbn [responses].
  rewrite lookup_insert_eq. rewrite handler_fetch. cbn [responses].
  rewrite lookup_delete_eq. split_and!; try done.
  - intros fields ->. eexists. split; [reflexivity|]. split.
    + apply getProp_setProp_eq.
    + intros key Hkey. by apply getProp_setProp_ne.
  - intros ops Hno. rewrite handler_fetch.
    rewrite (absent_stays (c :: id) ops); [done..|]. apply lookup_delete_eq.
Qed.

(** C9.  [store(id, X)] puts the stamped entry under [id].  Whatever the
    store held before and whatever happens next, short of storing under
    the same id again, once 5 minutes have passed since the store the
    entry is gone and a fetch of [id] does not find it.
    (A fetch of the empty id is refused before any lookup.) *)
Theorem unclaimed_entry_expires (st : Store) (id : jsstring) (data : json)
    (ops : list Op) :
  noStoreUnder id ops = true ->
  (5 * 60 * 1000 <= elapsed ops)%N ->
  let st' := foldl step (handler (store id data) st).2 ops in
  responses (handler (store id data) st).2 !! id
  = Some (setProp (js "storedAt") (JStr (toISOString (now st)))
                  (spread (Some data)))
  /\ responses st' !! id = None
  /\ (handler (fetch id) st').1
     = match id with
       | [] => {| statusCode := 400; payload := Failure (js "Session ID required") |}
       | _ :: _ => {| statusCode := 200; payload := Waiting id |}
       end.
Proof.
  intros Hno Hlong st'.
  split; [rewrite handler_store; apply lookup_insert_eq|].
  assert (responses st' !! id = None) as Hgone.
  { destruct (awaiting_run id (now st + 300000)%N ops
                (handler (store id data) st).2 Hno) as [H|[_ H]].
    - right. rewrite handler_store. simpl. split; [|lia].
      apply elem_of_app. right. by apply list_elem_of_singleton.
    - done.
    - unfold st' in *. rewrite now_run, handler_now in H. lia. }
  split; [done|]. rewrite handler_fetch. destruct id; [done|]. by rewrite Hgone.
Qed.

End Bridge.

(** *** Concrete runs *)

Definition stamp (t : N) : list N := js "T+" ++ decimal (N.to_nat t).

Definition okAnswer : Json.json Z := JObj [(js "answer", JStr (js "ok"))].

(** What comes back is not the stored X: the entry carries [storedAt]. *)
Lemma fetch_returns_stamped_entry :
  (handler Z stamp (fetch Z (js "s1"))
     (handler Z stamp (store Z (js "s1") okAnswer) (emptyStore Z 0)).2).1
  = {| statusCode := 200;
       payload := Found Z [(js "answer", JStr (js "ok"));
                           (js "storedAt", JStr (js "T+0"))] |}
  /\ [(js "answer", JStr (js "ok")); (js "storedAt", @JStr Z (js "T+0"))]
     <> [(js "answer", JStr (js "ok"))].
Proof. split; [by vm_compute|done]. Qed.

(** The empty id can be stored under but not fetched. *)
Example empty_id_not_fetchable :
  (handler Z stamp (fetch Z [])
     (handler Z stamp (store Z [] okAnswer) (emptyStore Z 0)).2).1
  = {| statusCode := 400; payload := Failure Z (js "Session ID required") |}.
Proof. reflexivity. Qed.

Lemma store_then_fetch_once_witness :
  js "s1" <> []
  /\ let st1 := (handler Z stamp (store Z (js "s1") okAnswer) (emptyStore Z 0)).2 in
     let '(first, st2) := handler Z stamp (fetch Z (js "s1")) st1 in
     let '(second, st3) := handler Z stamp (fetch Z (js "s1")) st2 in
     first = {| statusCode := 200;
                payload := Found Z (setProp (js "storedAt")
                                      (JStr (stamp (now Z (emptyStore Z 0))))
                                      (spread (Some okAnswer))) |}
     /\ (forall fields, okAnswer = JObj fields ->
           exists entry,
             payload Z first = Found Z entry
             /\ getProp (js "storedAt") entry
                = Some (JStr (stamp (now Z (emptyStore Z 0))))
             /\ forall key, key <> js "storedAt" ->
                  getProp key entry = getProp key fields)
     /\ responses Z st2 !! js "s1" = None
     /\ second = {| statusCode := 200; payload := Waiting Z (js "s1") |}
     /\ st3 = st2
     /\ forall ops, noStoreUnder Z (js "s1") ops = true ->
          (handler Z stamp (fetch Z (js "s1")) (foldl (step Z stamp) st2 ops)).1
          = {| statusCode := 200; payload := Waiting Z (js "s1") |}.
Proof.
  split; [done|].
  apply (store_then_fetch_once Z stamp (emptyStore Z 0) (js "s1") okAnswer). done.
Defined.

Lemma unclaimed_entry_expires_witness :
  noStoreUnder Z (js "s1")
    [Tick Z 120000; Request Z (store Z (js "s2") okAnswer); Tick Z 180000] = true
  /\ (5 * 60 * 1000
      <= elapsed Z [Tick Z 120000; Request Z (store Z (js "s2") okAnswer);
                    Tick Z 180000])%N
  /\ let st' :=
       foldl (step Z stamp)
         (handler Z stamp (store Z (js "s1") okAnswer) (emptyStore Z 0)).2
         [Tick Z 120000; Request Z (store Z (js "s2") okAnswer); Tick Z 180000] in
     responses Z (handler Z stamp (store Z (js "s1") okAnswer) (emptyStore Z 0)).2
       !! js "s1"
     = Some (setProp (js "storedAt") (JStr (stamp (now Z (emptyStore Z 0))))
                     (spread (Some okAnswer)))
     /\ responses Z st' !! js "s1" = None
     /\ (handler Z stamp (fetch Z (js "s1")) st').1
        = match js "s1" with
          | [] => {| statusCode := 400;
                     payload := Failure Z (js "Session ID required") |}
          | _ :: _ => {| statusCode := 200; payload := Waiting Z (js "s1") |}
          end.
Proof.
  assert (noStoreUnder Z (js "s1")
            [Tick Z 120000; Request Z (store Z (js "s2") okAnswer); Tick Z 180000]
          = true) as Hno by reflexivity.
  assert (5 * 60 * 1000
          <= elapsed Z [Tick Z 120000; Request Z (store Z (js "s2") okAnswer);
                        Tick Z 180000])%N as Hlong by (vm_compute; discriminate).
  split; [exact Hno|]. split; [exact Hlong|].
  exact (unclaimed_entry_expires Z stamp (emptyStore Z 0) (js "s1") okAnswer _
           Hno Hlong).
Defined.

(** One millisecond before the five minutes are over the entry is still
    there. *)
Example entry_alive_before_expiry :
  (handler Z stamp (fetch Z (js "s1"))
     (foldl (step Z stamp)
        (handler Z stamp (store Z (js "s1") okAnswer) (emptyStore Z 0)).2
        [Tick Z 299999])).1
  = {| statusCode := 200;
       payload := Found Z [(js "answer", JStr (js "ok"));
                           (js "storedAt", JStr (js "T+0"))] |}.
Proof. by vm_compute. Qed.

End StorageBridge.

(** ** What the serverless functions share

    The chat proxies are separate files with the same shape: read the query
    parameters, run the Direct Line exchange (open a conversation, post the
    message, poll for a reply), and answer from the rule-based generator
    when the exchange fails. *)

Module Netlify.

(** The JavaScript built-ins the proxies call and this development does not
    define: numbers, case mapping, URI decoding and JSON text. *)
Class Engine := {
  Num : Type;
  (** [String(n)], as a template prints a number. *)
  numToString : Num -> list N;
  (** [parseInt(s)]. *)
  parseInt : list N -> Num;
  (** Truthiness: false for 0 and NaN. *)
  numTruthy : Num -> bool;
  (** [s.toLowerCase()]. *)
  toLowerCase : list N -> list N;
  (** [decodeURIComponent(s)]; [None] when it throws URIError. *)
  decodeURIComponent : list N -> option (list N);
  (** [JSON.parse(s)]; [None] when it throws SyntaxError. *)
  JSON_parse : list N -> option (Json.json Num);
  (** [JSON.stringify(x)] and [JSON.stringify(x, null, 2)]. *)
  JSON_stringify : Json.json Num -> list N;
  JSON_stringify_indented : Json.json Num -> list N;
  (** [String(x)], as a template prints a value. *)
  valueToString : Json.json Num -> list N;
  (** The messages of the engine's own TypeError and URIError. *)
  typeErrorMessage : list N;
  uriErrorMessage : list N }.

Section Shared.

Context {engine : Engine}.

Abbreviation json := (Json.json Num).

(** [event.queryStringParameters]: the parameters the proxies read. *)
Record Params := {
  callback : option jsstring;
  session : option jsstring;
  question : option jsstring;
  hasData : option jsstring;
  rowCount : option jsstring;
  context : option jsstring }.

Definition noParams : Params :=
  {| callback := None; session := None; question := None;
     hasData := None; rowCount := None; context := None |}.

Record Event := {
  httpMethod : jsstring;
  queryStringParameters : option Params }.

(** Truthiness of a value. *)
Definition truthy (x : json) : bool :=
  match x with
  | JNull => false
  | JBool b => b
  | JNum n => numTruthy n
  | JStr [] => false
  | JStr (_ :: _) => true
  | JArr _ | JObj _ => true
  end.

(** [Object.entries(x)]; [None] when it throws (on [null]). *)
Definition Object_entries (x : json) : option (list (jsstring * json)) :=
  match x with
  | JNull => None
  | JObj fields => Some fields
  | JArr items => Some (imap (fun i item => (decimal i, item)) items)
  | JStr s => Some (imap (fun i c => (decimal i, JStr [c])) s)
  | JBool _ | JNum _ => Some []
  end.

(** [Object.keys(x)]. *)
Definition Object_keys (x : json) : option (list jsstring) :=
  fmap (M := option) (fmap (M := list) fst) (Object_entries x).

(** [strings.join(sep)]. *)
Fixpoint join (sep : jsstring) (l : list jsstring) : jsstring :=
  match l with
  | [] => []
  | [s] => s
  | s :: l' => s ++ sep ++ join sep l'
  end.

(** [Array.isArray(context) && context.length > 0]: the rows, if so. *)
Definition rows (context : json) : option (list json) :=
  match context with
  | JArr (row :: more) => Some (row :: more)
  | _ => None
  end.

(** *** The Direct Line exchange *)

(** A settled [fetch]: it rejects, or resolves with a response whose body
    parses ([Some]) or not. *)
Inductive Fetched (A : Type) :=
| Unreachable (message : jsstring)
| Replied (ok : bool) (status : Num) (parsed : option A).

Arguments Unreachable {A} message.
Arguments Replied {A} ok status parsed.

Record Activity := {
  type : jsstring;
  from_id : jsstring;
  text : option jsstring }.

(** The environment of one invocation: the credential and, for each
    request to the conversational backend, its latency in ms and result. *)
Record Upstream := {
  COPILOT_SECRET : option jsstring;
  conversations : N * Fetched unit;
  postActivity : N * Fetched unit;
  getActivities : nat -> N * Fetched (list Activity) }.

Inductive Outcome :=
| Returned (text : option jsstring)
| Threw (message : jsstring).

Record Exchanged := {
  settledAt : N;
  outcome : Outcome;
  (** the message text posted to the conversation, if one was *)
  posted : option jsstring }.

(** What differs between the five copies of the exchange. *)
Record Variant := {
  userId : jsstring;
  convTimeout : option N;
  postTimeout : option N;
  pollTimeout : option N;
  attempts : nat;
  interval : N;
  catchesPollErrors : bool;
  convFailed : jsstring;
  exhausted : jsstring }.

(** node-fetch's [timeout] option. *)
Definition withTimeout {A} (limit : option N) (r : N * Fetched A) : N * Fetched A :=
  match limit with
  | Some l => if (r.1 <? l)%N then r else (l, Unreachable (js "network timeout"))
  | None => r
  end.

Definition botMessages (v : Variant) (activities : list Activity) : list Activity :=
  filter (fun a => type a = js "message" /\ from_id a <> userId v) activities.

Fixpoint poll (v : Variant) (up : Upstream) (remaining k : nat) (t : N)
    : N * Outcome :=
  match remaining with
  | O => (t, Threw (exhausted v))
  | S remaining' =>
    let '(latency, res) := withTimeout (pollTimeout v) (getActivities up k) in
    let t' := (t + interval v + latency)%N in
    match res with
    | Unreachable message =>
      if catchesPollErrors v then poll v up remaining' (S k) t'
      else (t', Threw message)
    | Replied true _ (Some activities) =>
      match last (botMessages v activities) with
      | Some a => (t', Returned (text a))
      | None => poll v up remaining' (S k) t'
      end
    | Replied true _ None =>
      if catchesPollErrors v then poll v up remaining' (S k) t'
      else (t', Threw typeErrorMessage)
    | Replied false _ _ => poll v up remaining' (S k) t'
    end
  end.

(** [message] is the text to post, [None] when preparing it throws. *)
Definition directLine (v : Variant) (up : Upstream) (message : option jsstring)
    : Exchanged :=
  match COPILOT_SECRET up with
  | Some (_ :: _) =>
    let '(t1, r1) := withTimeout (convTimeout v) (conversations up) in
    match r1 with
    | Unreachable m => {| settledAt := t1; outcome := Threw m; posted := None |}
    | Replied false status _ =>
      {| settledAt := t1; outcome := Threw (convFailed v ++ numToString status);
         posted := None |}
    | Replied true _ None =>
      {| settledAt := t1; outcome := Threw typeErrorMessage; posted := None |}
    | Replied true _ (Some _) =>
      match message with
      | None =>
        {| settledAt := t1; outcome := Threw typeErrorMessage; posted := None |}
      | Some body =>
        let '(t2, r2) := withTimeout (postTimeout v) (postActivity up) in
        match r2 with
        | Unreachable m =>
          {| settledAt := (t1 + t2)%N; outcome := Threw m; posted := Some body |}
        | Replied _ _ _ =>
          let '(t3, o) := poll v up (attempts v) 1 (t1 + t2)%N in
          {| settledAt := t3; outcome := o; posted := Some body |}
        end
      end
    end
  | _ =>
    {| settledAt := 0%N; outcome := Threw (js "COPILOT_SECRET não configurada");
       posted := None |}
  end.

(** [Promise.race] against a timer of [limit] ms. *)
Definition race (limit : N) (x : Exchanged) : N * Outcome :=
  if (settledAt x <? limit)%N then (settledAt x, outcome x)
  else (limit, Threw (js "Copilot timeout")).


End Shared.

Arguments Unreachable {_ A} message.
Arguments Replied {_ A} ok status parsed.

End Netlify.

(** ** netlify/functions/chat.js *)

Module ChatJs.

Section Handler.

Context {engine : Netlify.Engine}.

Import Netlify.

Abbreviation json := (Json.json Num).

Definition MAX_EXECUTION_TIME : N := 8500.
Definition COPILOT_TIMEOUT : N := 6000.
Definition MAX_POLLING_ATTEMPTS : nat := 3.
Definition POLLING_INTERVAL : N := 1500.

Definition questionTypes : list (jsstring * list jsstring) :=
  [ (js "totals", [js "total"; js "soma"; js "sum"; js "somar"; js "calcular"]);
    (js "quantities",
     [js "quantidade"; js "qtd"; js "quantos"; js "count"; js "número"]);
    (js "sales",
     [js "vendas"; js "receita"; js "faturamento"; js "revenue"; js "sales"]);
    (js "doctors",
     [js "médico"; js "doctor"; js "dr."; js "dra."; js "profissional"]);
    (js "averages", [js "média"; js "average"; js "mean"; js "médio"]);
    (js "comparisons",
     [js "comparar"; js "versus"; js "vs"; js "diferença"; js "maior";
      js "menor"]) ].

(** The loop over [Object.entries(questionTypes)]: the first type one of
    whose terms occurs in [q], with the terms that occur; ['general']
    without keywords when none does. *)
Fixpoint classify (q : jsstring) (types : list (jsstring * list jsstring))
    : jsstring * list jsstring :=
  match types with
  | [] => (js "general", [])
  | (type, terms) :: rest =>
    if existsb (fun term => includes q term) terms
    then (type, List.filter (fun term => includes q term) terms)
    else classify q rest
  end.

(** [Object.entries(row).slice(0, 3).map(([key, value]) => `${key}: ${value}`)
    .join(' | ')]. *)
Definition renderRow (row : json) : option jsstring :=
  fmap (M := option)
    (fun entries =>
       join (js " | ")
         (map (fun kv => kv.1 ++ js ": " ++ valueToString kv.2) (take 3 entries)))
    (Object_entries row).

(** The [forEach] over the sample rows, from index [index]; [None] when a
    row is [null]. *)
Fixpoint renderSample (sample : list json) (index : nat) (sampleText : jsstring)
    : option jsstring :=
  match sample with
  | [] => Some sampleText
  | row :: rest =>
    match renderRow row with
    | None => None
    | Some line =>
      renderSample rest (S index)
        (sampleText ++ js "**Registro " ++ decimal (index + 1) ++ js ":** "
         ++ line ++ nl)
    end
  end.

Definition generateDataSample (context : json) : option jsstring :=
  match rows context with
  | None => Some []
  | Some items =>
    match renderSample (take 2 items) 0 ((nl ++ js "📋 **Amostra dos dados:**" ++ nl)) with
    | None => None
    | Some sampleText =>
      Some (if decide (2 < length items)
            then sampleText ++ js "... e mais " ++ decimal (length items - 2)
                 ++ js " registros"
            else sampleText)
    end
  end.

Definition generateIntelligentFallback (question : jsstring) (context : json)
    : option jsstring :=
  let q := toLowerCase question in
  let '(responseType, keywords) := classify q questionTypes in
  if bool_decide (responseType = js "totals") then
    match rows context with
    | Some items =>
      match generateDataSample context with
      | None => None
      | Some sample =>
        Some ((js "📊 **ANÁLISE DE TOTAIS** ") ++ (nl ++ js "      " ++ nl ++ js "✅ **Dados Processados:** ") ++ decimal (length items)
              ++ (js " registros" ++ nl ++ js "🔍 **Palavras-chave:** ") ++ join (js ", ") keywords
              ++ (nl ++ js "📈 **Sugestão:** Use a coluna de valores numéricos para calcular totais" ++ nl ++ js "🎯 **Próximo passo:** Identifique a coluna de valores e aplique SUM()" ++ nl ++ nl) ++ sample)
      end
    | None => Some ((js "📊 **ANÁLISE DE TOTAIS** ") ++ (js "⚠️ Nenhum dado disponível para cálculo de totais"))
    end
  else if bool_decide (responseType = js "doctors") then
    match rows context with
    | Some items =>
      match Object_keys (default JNull (head items)), generateDataSample context with
      | Some keys, Some sample =>
        Some ((js "👨‍⚕️ **ANÁLISE MÉDICOS** ") ++ (nl ++ js "      " ++ nl ++ js "✅ **Registros médicos:** ") ++ decimal (length items)
              ++ (js " encontrados" ++ nl ++ js "🔍 **Filtros aplicados:** ") ++ join (js ", ") keywords
              ++ (nl ++ js "📋 **Colunas disponíveis:** ") ++ join (js ", ") keys
              ++ (nl ++ js "💡 **Insights:** Agrupe por nome do médico para ver distribuição" ++ nl ++ nl) ++ sample)
      | _, _ => None
      end
    | None => Some ((js "👨‍⚕️ **ANÁLISE MÉDICOS** ") ++ (js "⚠️ Dados médicos não carregados no visual"))
    end
  else if bool_decide (responseType = js "sales") then
    match rows context with
    | Some items =>
      match generateDataSample context with
      | None => None
      | Some sample =>
        Some ((js "💰 **ANÁLISE DE VENDAS** ") ++ (nl ++ js "      " ++ nl ++ js "📊 **Transações:** ") ++ decimal (length items)
              ++ (js " registros de vendas" ++ nl ++ js "💵 **Métricas:** Receita, quantidade, performance" ++ nl ++ js "📈 **Período:** Baseado nos dados carregados" ++ nl ++ js "🎯 **Recomendação:** Visualize por período ou vendedor" ++ nl ++ nl) ++ sample)
      end
    | None => Some ((js "💰 **ANÁLISE DE VENDAS** ") ++ (js "⚠️ Carregue dados de vendas no visual"))
    end
  else
    match rows context with
    | Some items =>
      let first := default JNull (head items) in
      let keys := default [] (Object_keys (if truthy first then first else JObj [])) in
      match generateDataSample context with
      | None => None
      | Some sample =>
        Some ((js "🤖 **ASSISTENTE BI ATIVO** ") ++ (nl ++ js "      " ++ nl ++ js "✅ **Status:** ") ++ decimal (length items)
              ++ (js " registros processados" ++ nl ++ js "🔍 **Pergunta:** " ++ dq) ++ substring0 100 question
              ++ (js "..." ++ dq ++ nl ++ js "📊 **Dados:** ") ++ decimal (length keys)
              ++ (js " colunas disponíveis" ++ nl ++ js "⚡ **Modo:** Resposta rápida (otimizado para Netlify Free)" ++ nl ++ nl) ++ sample
              ++ (nl ++ nl ++ js "💡 **Dica:** Seja mais específico para análises detalhadas"))
      end
    | None => Some ((js "🤖 **ASSISTENTE BI ATIVO** ") ++ (js "⚠️ Nenhum dado carregado no visual"))
    end.

Definition prepareOptimizedMessage (question : jsstring) (context : json)
    : jsstring :=
  match rows context with
  | None => (js "Pergunta rápida: " ++ dq) ++ question ++ (dq ++ js " - Sem dados do Power BI.")
  | Some items =>
    let first := default JNull (head (take 3 items)) in
    let shown := if truthy first then first else JObj [] in
    let columns := take 5 (default [] (Object_keys shown)) in
    (js "ANÁLISE RÁPIDA:" ++ nl ++ js "Pergunta: " ++ dq) ++ question
    ++ (dq ++ nl ++ js "Dados: ") ++ decimal (length items)
    ++ (js " registros" ++ nl ++ js "Colunas: ") ++ join (js ", ") columns
    ++ (nl ++ js "Amostra: ") ++ JSON_stringify shown
    ++ (nl ++ js "RESPONDA DE FORMA CONCISA E DIRETA.")
  end.

Definition variant : Variant :=
  {| userId := js "PowerBI_Fast_User";
     convTimeout := Some 2000%N;
     postTimeout := Some 1500%N;
     pollTimeout := Some 1000%N;
     attempts := MAX_POLLING_ATTEMPTS;
     interval := POLLING_INTERVAL;
     catchesPollErrors := true;
     convFailed := js "Conversa falhou: ";
     exhausted := js "Polling timeout após 3 tentativas" |}.

Definition sendToCopilotOptimized (up : Upstream) (question : jsstring)
    (context : json) : Exchanged :=
  directLine variant up (Some (prepareOptimizedMessage question context)).

Record Payload := {
  answer : jsstring;
  method : jsstring;
  contextSummary : option jsstring;
  error : bool }.

Record Response := {
  statusCode : Z;
  body : option Payload (* [None]: the empty body of the preflight reply *) }.

(** What the callback of the global timer returns. *)
Definition timeoutReply : Response :=
  {| statusCode := 200;
     body := Some {| answer := (js "⚡ Resposta rápida ativada! O Copilot está processando sua pergunta. Funcionalidade otimizada para plano gratuito.");
                     method := js "FAST_FALLBACK";
                     contextSummary := None;
                     error := false |} |}.

Definition recovery (message : jsstring) : Response :=
  {| statusCode := 200;
     body := Some {| answer := (js "⚠️ Erro de processamento: ") ++ message ++ (js ". Sistema funcionando em modo de recuperação.");
                     method := js "ERROR_RECOVERY";
                     contextSummary := None;
                     error := true |} |}.

(** The context block: [contextData] and [contextSummary]. *)
Definition readContext (params : Params) : json * jsstring :=
  match context params with
  | Some (c :: raw) =>
    match decodeURIComponent (c :: raw) with
    | None => (JObj [], js "Sem dados")
    | Some rawContext =>
      match JSON_parse (substring0 2000 rawContext) with
      | None => (JObj [], js "Sem dados")
      | Some contextData =>
        match rows contextData with
        | Some items =>
          match Object_keys (default JNull (head items)) with
          | None => (JObj [], js "Sem dados")
          | Some keys =>
            (contextData,
             decimal (length items) ++ js " registros com "
             ++ decimal (length keys) ++ js " colunas")
          end
        | None => (contextData, js "Sem dados")
        end
      end
    end
  | _ => (JObj [], js "Sem dados")
  end.

(** One invocation.  [lag] is the delay the event loop adds before the
    continuation that clears the global timer runs.  The timer's callback
    runs when the 8.5 s pass first; what it returns goes to the timer, not
    to the caller of the handler. *)
Record Invocation := {
  response : Response;
  forwarded : option jsstring;
  clearedAt : N;
  timeoutFired : bool;
  returnedToTimer : option Response }.

Definition finish (r : Response) (sent : option jsstring) (cleared : N)
    : Invocation :=
  {| response := r;
     forwarded := sent;
     clearedAt := cleared;
     timeoutFired := (MAX_EXECUTION_TIME <=? cleared)%N;
     returnedToTimer :=
       if (MAX_EXECUTION_TIME <=? cleared)%N then Some timeoutReply else None |}.

(** The reply once the question and the context are read. *)
Definition reply (up : Upstream) (lag : N) (question : jsstring)
    (contextData : json) (contextSummary : jsstring) : Invocation :=
  let x := sendToCopilotOptimized up question contextData in
  let '(t, raced) := race COPILOT_TIMEOUT x in
  let cleared := (t + lag)%N in
  let copilotResponse :=
    match raced with
    | Returned (Some (r :: rs)) => Some (r :: rs)
    | _ => None
    end in
  let usedMethod :=
    match raced with
    | Returned _ => js "COPILOT"
    | Threw _ => js "FALLBACK"
    end in
  match copilotResponse with
  | Some finalAnswer =>
    finish {| statusCode := 200;
              body := Some {| answer := finalAnswer; method := usedMethod;
                              contextSummary := Some contextSummary;
                              error := false |} |}
           (posted x) cleared
  | None =>
    match generateIntelligentFallback question contextData with
    | Some finalAnswer =>
      finish {| statusCode := 200;
                body := Some {| answer := finalAnswer; method := usedMethod;
                                contextSummary := Some contextSummary;
                                error := false |} |}
             (posted x) cleared
    | None => finish (recovery typeErrorMessage) (posted x) cleared
    end
  end.

(** How far the handler gets before it talks to the backend. *)
Inductive Intake :=
| Preflight
| Malformed
| NoQuestion
| Asked (question : jsstring) (contextData : json) (contextSummary : jsstring).

Definition intake (event : Event) : Intake :=
  if bool_decide (httpMethod event = js "OPTIONS") then Preflight
  else
    let params := default noParams (queryStringParameters event) in
    match decodeURIComponent (default [] (question params)) with
    | None => Malformed
    | Some decoded =>
      match substring0 500 decoded with
      | [] => NoQuestion
      | c :: s =>
        let '(contextData, contextSummary) := readContext params in
        Asked (c :: s) contextData contextSummary
      end
    end.

Definition handler (event : Event) (up : Upstream) (lag : N) : Invocation :=
  match intake event with
  | Preflight => finish {| statusCode := 204; body := None |} None lag
  | Malformed => finish (recovery uriErrorMessage) None lag
  | NoQuestion => finish (recovery ((js "Parâmetro 'question' é obrigatório"))) None lag
  | Asked question contextData contextSummary =>
    reply up lag question contextData contextSummary
  end.

End Handler.

End ChatJs.

(** ** netlify/functions/chat-jsonp.js *)

Module ChatJsonp.

Section Handler.

Context {engine : Netlify.Engine}.

Import Netlify.

Abbreviation json := (Json.json Num).

Definition prepareQuickMessage (question : jsstring) (context : json)
    : option jsstring :=
  match rows context with
  | None => Some ((js "RESPOSTA RÁPIDA: " ++ dq) ++ question ++ (dq ++ js " - Sem dados Power BI."))
  | Some items =>
    let sample := default JNull (head items) in
    match Object_keys sample with
    | None => None
    | Some keys =>
      let columns := take 3 keys in
      Some ((js "ANÁLISE RÁPIDA Power BI:" ++ nl ++ js "Pergunta: " ++ dq) ++ question
            ++ (dq ++ nl ++ js "Dados: ") ++ decimal (length items)
            ++ (js " registros" ++ nl ++ js "Colunas: ") ++ join (js ", ") columns
            ++ (nl ++ js "Exemplo: ") ++ JSON_stringify sample
            ++ (nl ++ js "RESPONDA DE FORMA CONCISA."))
    end
  end.

Definition variant : Variant :=
  {| userId := js "PowerBI_JSONP_User";
     convTimeout := None;
     postTimeout := None;
     pollTimeout := None;
     attempts := 3;
     interval := 1200;
     catchesPollErrors := false;
     convFailed := js "JSONP Conversa falhou: ";
     exhausted := js "JSONP Polling timeout" |}.

Definition sendToCopilotFast (up : Upstream) (question : jsstring)
    (context : json) : Exchanged :=
  directLine variant up (prepareQuickMessage question context).

(** [hasData && Array.isArray(context) && context.length > 0]: the first
    row, if so. *)
Definition firstRow (hasData : bool) (context : json) : option json :=
  if hasData then
    match rows context with
    | Some items => head items
    | None => None
    end
  else None.

Definition generateSmartFallback (question : jsstring) (context : json)
    (hasData : bool) (rowCount : Num) : option jsstring :=
  let q := toLowerCase question in
  if includes q (js "total") || includes q (js "soma") || includes q (js "sum") then
    match firstRow hasData context with
    | Some row =>
      match Object_keys row with
      | None => None
      | Some keys =>
        Some ((js "📊 **ANÁLISE DE TOTAIS via JSONP**" ++ nl ++ js "    " ++ nl ++ js "✅ **Status:** ")
              ++ (if hasData then numToString rowCount ++ (js " registros processados")
                  else (js "Nenhum dado disponível"))
              ++ (nl ++ js "🔍 **Pergunta:** ") ++ question
              ++ (nl ++ js "💡 **Sugestão:** ")
              ++ (if hasData then (js "Use SUM() nas colunas numéricas para calcular totais") else (js "Adicione dados numéricos ao visual"))
              ++ nl ++ nl
              ++ (js "📋 **Dados disponíveis:** ") ++ join (js ", ") keys)
      end
    | None =>
      Some ((js "📊 **ANÁLISE DE TOTAIS via JSONP**" ++ nl ++ js "    " ++ nl ++ js "✅ **Status:** ")
            ++ (if hasData then numToString rowCount ++ (js " registros processados")
                else (js "Nenhum dado disponível"))
            ++ (nl ++ js "🔍 **Pergunta:** ") ++ question
            ++ (nl ++ js "💡 **Sugestão:** ")
            ++ (if hasData then (js "Use SUM() nas colunas numéricas para calcular totais") else (js "Adicione dados numéricos ao visual"))
            ++ nl ++ nl
            ++ (js "⚠️ Configure dados no visual Power BI"))
    end
  else if includes q (js "médico") || includes q (js "doctor")
          || includes q (js "quantidade") then
    Some ((js "👨‍⚕️ **ANÁLISE MÉDICOS via JSONP**" ++ nl ++ js "    " ++ nl ++ js "✅ **Registros encontrados:** ") ++ numToString rowCount
          ++ (nl ++ js "🔍 **Filtro aplicado:** " ++ dq) ++ question
          ++ (dq ++ nl ++ js "📊 **Status:** ")
          ++ (if hasData then (js "Dados carregados") else (js "Sem dados"))
          ++ nl ++ nl
          ++ match firstRow hasData context with
             | Some row => (js "📋 **Amostra:** ") ++ JSON_stringify_indented row
             | None => (js "⚠️ Carregue dados médicos no visual")
             end)
  else if includes q (js "vendas") || includes q (js "receita")
          || includes q (js "sales") then
    Some ((js "💰 **ANÁLISE DE VENDAS via JSONP**" ++ nl ++ js "    " ++ nl ++ js "📈 **Transações:** ") ++ numToString rowCount
          ++ (js " registros" ++ nl ++ js "💵 **Status:** ")
          ++ (if hasData then (js "Dados processados") else (js "Sem dados de vendas"))
          ++ (nl ++ js "🎯 **Pergunta:** ") ++ question
          ++ nl ++ nl
          ++ (if hasData then (js "✅ Dados prontos para análise de performance") else (js "⚠️ Configure dados de vendas no visual")))
  else
    Some ((js "🔄 **JSONP CONECTADO COM SUCESSO!**" ++ nl ++ js "  " ++ nl ++ js "✅ **Comunicação:** Ativa via JSONP (bypass CORS)" ++ nl ++ js "🔍 **Pergunta:** " ++ dq) ++ question
          ++ (dq ++ nl ++ js "📊 **Dados:** ")
          ++ (if hasData then numToString rowCount ++ (js " registros carregados")
              else (js "Nenhum dado disponível"))
          ++ (nl ++ js "⚡ **Método:** Fallback inteligente ativo" ++ nl ++ nl)
          ++ match firstRow hasData context with
             | Some _ => (js "💡 **Dica:** Dados prontos! Faça perguntas mais específicas para análises detalhadas.")
             | None => (js "🔧 **Ação:** Adicione dados ao visual Power BI para análises completas.")
             end).

Record Payload := {
  answer : option jsstring;
  method : jsstring;
  error : bool;
  dataStatus : option (bool * Num) }.

(** The body is [callback(JSON.stringify(payload));]. *)
Record Response := {
  statusCode : Z;
  callbackName : jsstring;
  body : Payload }.

Definition recovery (callback : jsstring) (message : jsstring) : Response :=
  {| statusCode := 200;
     callbackName := callback;
     body := {| answer := Some ((js "⚠️ Erro JSONP: ") ++ message ++ (js ". Sistema em modo de recuperação."));
                method := js "JSONP_ERROR";
                error := true;
                dataStatus := None |} |}.

Record Invocation := {
  response : Response;
  forwarded : option jsstring }.

(** What the handler reads from the query string. *)
Record Request := {
  callback : jsstring;
  question : jsstring;
  hasData : bool;
  rowCount : Num;
  contextData : json }.

Definition intake (event : Event) : Request :=
  let params := default noParams (queryStringParameters event) in
  {| callback := orElse (Netlify.callback params) (js "callback");
     question := orElse (Netlify.question params) (js "Pergunta não informada");
     hasData := bool_decide (Netlify.hasData params = Some (js "true"));
     rowCount := parseInt (orElse (Netlify.rowCount params) (js "0"));
     contextData :=
       match decodeURIComponent (orElse (Netlify.context params) (js "[]")) with
       | Some decoded => default (JArr []) (JSON_parse decoded)
       | None => JArr []
       end |}.

(** The exchange raced against the 5 s timer. *)
Definition attempt (event : Event) (up : Upstream) : Outcome :=
  (race 5000 (sendToCopilotFast up (question (intake event))
                                (contextData (intake event)))).2.

Definition handler (event : Event) (up : Upstream) : Invocation :=
  let r := intake event in
  let x := sendToCopilotFast up (question r) (contextData r) in
  match attempt event up with
  | Returned text =>
    {| response :=
         {| statusCode := 200; callbackName := callback r;
            body := {| answer := text; method := js "JSONP_COPILOT";
                       error := false;
                       dataStatus := Some (hasData r, rowCount r) |} |};
       forwarded := posted x |}
  | Threw _ =>
    match generateSmartFallback (question r) (contextData r) (hasData r)
                                (rowCount r) with
    | Some text =>
      {| response :=
           {| statusCode := 200; callbackName := callback r;
              body := {| answer := Some text; method := js "JSONP_FALLBACK";
                         error := false;
                         dataStatus := Some (hasData r, rowCount r) |} |};
         forwarded := posted x |}
    | None =>
      {| response := recovery (callback r) typeErrorMessage;
         forwarded := posted x |}
    end
  end.

End Handler.

End ChatJsonp.

(** ** netlify/functions/chat-iframe.js *)

Module ChatIframe.

Section Handler.

Context {engine : Netlify.Engine}.

Import Netlify.

Abbreviation json := (Json.json Num).

(** [Object.entries(row).map(([k, v]) => `${k}:${v}`).join(', ')]. *)
Definition renderRow (row : json) : option jsstring :=
  fmap (M := option)
    (fun entries =>
       join (js ", ") (map (fun kv => kv.1 ++ js ":" ++ valueToString kv.2) entries))
    (Object_entries row).

(** [sample.map(renderRow)]: [None] when a row is [null]. *)
Fixpoint renderRows (sample : list json) : option (list jsstring) :=
  match sample with
  | [] => Some []
  | row :: rest =>
    match renderRow row, renderRows rest with
    | Some line, Some lines => Some (line :: lines)
    | _, _ => None
    end
  end.

Definition prepareIframeMessage (question : jsstring) (context : json)
    : option jsstring :=
  match rows context with
  | None => Some ((js "Pergunta via Iframe: " ++ dq) ++ question ++ (dq ++ nl ++ js "Contexto: Nenhum dado disponível no Power BI."))
  | Some items =>
    let first := default JNull (head items) in
    let columns := default [] (Object_keys (if truthy first then first else JObj [])) in
    match renderRows (take 2 items) with
    | None => None
    | Some lines =>
      Some ((js "ANÁLISE POWER BI via Iframe:" ++ nl ++ js "Pergunta: " ++ dq) ++ question
            ++ (dq ++ nl ++ js "Registros: ") ++ decimal (length items)
            ++ (nl ++ js "Colunas: ") ++ join (js ", ") columns
            ++ (nl ++ js "Amostra: ") ++ join (js " | ") lines
            ++ (nl ++ nl ++ js "Responda com base nestes dados específicos."))
    end
  end.

Definition variant : Variant :=
  {| userId := js "PowerBI_Iframe_User";
     convTimeout := None;
     postTimeout := None;
     pollTimeout := None;
     attempts := 4;
     interval := 1300;
     catchesPollErrors := false;
     convFailed := js "Iframe conversa falhou: ";
     exhausted := js "Iframe polling timeout após 4 tentativas" |}.

Definition sendToCopilotIframe (up : Upstream) (question : jsstring)
    (context : json) : Exchanged :=
  directLine variant up (prepareIframeMessage question context).

Definition firstRow (hasData : bool) (context : json) : option json :=
  if hasData then
    match rows context with
    | Some items => head items
    | None => None
    end
  else None.

Definition generateIframeFallback (question : jsstring) (context : json)
    (hasData : bool) (rowCount : Num) : option jsstring :=
  let q := toLowerCase question in
  if includes q (js "quantidade") || includes q (js "médico") then
    let intro :=
      (js "👨‍⚕️ **ANÁLISE MÉDICOS via Iframe**" ++ nl ++ nl ++ js "🖼️ **Método:** Iframe + PostMessage ativo" ++ nl ++ js "📊 **Dados:** ")
      ++ (if hasData then numToString rowCount ++ (js " registros médicos encontrados") else (js "Nenhum dado médico disponível"))
      ++ (nl ++ js "🔍 **Pergunta:** ") ++ question ++ nl ++ nl in
    let outro :=
      (nl ++ nl ++ js "💡 **Sugestão:** ")
      ++ (if hasData then (js "Agrupe por nome do médico para análise detalhada") else (js "Adicione dados da tabela de médicos ao visual")) in
    match firstRow hasData context with
    | Some row =>
      match Object_keys row with
      | None => None
      | Some keys =>
        Some (intro ++ (js "📋 **Colunas disponíveis:** ") ++ join (js ", ") keys
              ++ (nl ++ js "   📝 **Primeira entrada:** ") ++ JSON_stringify_indented row ++ outro)
      end
    | None => Some (intro ++ (js "⚠️ **Ação necessária:** Configure dados médicos no visual Power BI") ++ outro)
    end
  else
    Some ((js "🖼️ **IFRAME BRIDGE ATIVO!**" ++ nl ++ nl ++ js "✅ **Comunicação:** PostMessage funcionando" ++ nl ++ js "🔍 **Pergunta:** " ++ dq) ++ question
          ++ (dq ++ nl ++ js "📊 **Status dos dados:** ")
          ++ (if hasData then numToString rowCount ++ (js " registros carregados")
              else (js "Nenhum dado disponível"))
          ++ (nl ++ js "⚡ **Método:** Contorno de CSP via Iframe" ++ nl ++ nl)
          ++ (if hasData then (js "💡 **Dica:** Dados carregados! Faça perguntas específicas para análises detalhadas.") else (js "🔧 **Configure:** Adicione dados ao visual Power BI para análises completas."))).

Record Payload := {
  answer : option jsstring;
  method : jsstring;
  dataStatus : option (bool * Num) }.

(** The body is an HTML page whose script posts [Posted payload] to the
    parent window; the page served after a crash posts an [error] text and
    no answer. *)
Inductive Page :=
| Posted (payload : Payload)
| Critical (error : jsstring) (method : jsstring).

Record Response := { statusCode : Z; body : Page }.

Record Invocation := {
  response : Response;
  forwarded : option jsstring }.

(** What the handler reads from the query string. *)
Record Request := {
  question : jsstring;
  hasData : bool;
  rowCount : Num;
  contextData : json }.

Definition intake (event : Event) : Request :=
  let params := default noParams (queryStringParameters event) in
  {| question := orElse (Netlify.question params) (js "Pergunta não informada");
     hasData := bool_decide (Netlify.hasData params = Some (js "true"));
     rowCount := parseInt (orElse (Netlify.rowCount params) (js "0"));
     contextData :=
       match decodeURIComponent (orElse (Netlify.context params) (js "[]")) with
       | Some decoded => default (JArr []) (JSON_parse decoded)
       | None => JArr []
       end |}.

(** The exchange raced against the 6 s timer. *)
Definition attempt (event : Event) (up : Upstream) : Outcome :=
  (race 6000 (sendToCopilotIframe up (question (intake event))
                                  (contextData (intake event)))).2.

Definition handler (event : Event) (up : Upstream) : Invocation :=
  let r := intake event in
  let x := sendToCopilotIframe up (question r) (contextData r) in
  match attempt event up with
  | Returned text =>
    {| response :=
         {| statusCode := 200;
            body := Posted {| answer := text; method := js "IFRAME_COPILOT";
                              dataStatus := Some (hasData r, rowCount r) |} |};
       forwarded := posted x |}
  | Threw _ =>
    match generateIframeFallback (question r) (contextData r) (hasData r)
                                 (rowCount r) with
    | Some text =>
      {| response :=
           {| statusCode := 200;
              body := Posted {| answer := Some text;
                                method := js "IFRAME_FALLBACK";
                                dataStatus := Some (hasData r, rowCount r) |} |};
         forwarded := posted x |}
    | None =>
      {| response :=
           {| statusCode := 200;
              body := Critical ((js "Erro crítico iframe: ") ++ typeErrorMessage)
                               (js "IFRAME_CRITICAL_ERROR") |};
         forwarded := posted x |}
    end
  end.

End Handler.

End ChatIframe.

(** ** netlify/functions/chat-sse.js *)

Module ChatSse.

Section Handler.

Context {engine : Netlify.Engine}.

Import Netlify.

Abbreviation json := (Json.json Num).

(** [Object.entries(row).map(([k, v]) => `${k}=${v}`).join(', ')]. *)
Definition renderRow (row : json) : option jsstring :=
  fmap (M := option)
    (fun entries =>
       join (js ", ") (map (fun kv => kv.1 ++ js "=" ++ valueToString kv.2) entries))
    (Object_entries row).

(** The [map] over the sample rows, from index [i]. *)
Fixpoint renderLines (sample : list json) (i : nat) : option (list jsstring) :=
  match sample with
  | [] => Some []
  | row :: rest =>
    match renderRow row, renderLines rest (S i) with
    | Some line, Some lines =>
      Some ((js "Linha " ++ decimal (i + 1) ++ js ": " ++ line) :: lines)
    | _, _ => None
    end
  end.

Definition prepareContextForCopilot (context : json) (question : jsstring)
    : option jsstring :=
  match context with
  | JArr [] => Some ((js "Pergunta: " ++ dq) ++ question ++ (dq ++ nl ++ js "Contexto: Nenhum dado disponível no Power BI."))
  | JArr items =>
    match renderLines (take 3 items) 0 with
    | None => None
    | Some lines =>
      Some ((js "DADOS POWER BI:" ++ nl ++ js "Pergunta: " ++ dq) ++ question
            ++ (dq ++ nl ++ js "Registros: ") ++ decimal (length items)
            ++ (nl ++ js "Amostra: ") ++ join (js " | ") lines
            ++ (nl ++ js "Analise estes dados para responder."))
    end
  | _ =>
    if truthy context
    then Some ((js "Pergunta: " ++ dq) ++ question ++ (dq ++ nl ++ js "Dados: ") ++ JSON_stringify context)
    else Some ((js "Pergunta: " ++ dq) ++ question ++ (dq ++ nl ++ js "Contexto: Nenhum dado disponível no Power BI."))
  end.

Definition variant : Variant :=
  {| userId := js "PowerBI_SSE_User";
     convTimeout := None;
     postTimeout := None;
     pollTimeout := None;
     attempts := 6;
     interval := 1500;
     catchesPollErrors := false;
     convFailed := js "Conversa falhou: ";
     exhausted := js "Timeout SSE: 9 segundos" |}.

Definition sendToCopilot (up : Upstream) (message : jsstring) : Exchanged :=
  directLine variant up (Some message).

Definition generateFallbackResponse (question : jsstring) (context : json)
    : jsstring :=
  let q := toLowerCase question in
  let hasData := bool_decide (is_Some (rows context)) in
  let rowCount := decimal (length (default [] (rows context))) in
  if includes q (js "total") || includes q (js "soma") then
    (js "📊 ANÁLISE DE TOTAIS (via SSE): ") ++ (if hasData then (js "Processando ") ++ rowCount ++ (js " registros")
                else (js "Nenhum dado disponível"))
  else if includes q (js "quantidade") || includes q (js "qtd") then
    (js "🔢 ANÁLISE DE QUANTIDADES (via SSE): ") ++ (if hasData then rowCount ++ (js " registros encontrados") else (js "Carregue dados no visual"))
  else
    (js "✅ Conectado via SSE! Pergunta: " ++ dq) ++ question ++ (dq ++ js ". Dados: ")
    ++ (if hasData then rowCount ++ (js " registros") else (js "Sem dados")).

Record Payload := {
  answer : option jsstring;
  method : jsstring;
  success : bool;
  error : option jsstring }.

(** The body is one server-push event, [data: JSON.stringify(payload)]. *)
Record Response := { statusCode : Z; body : Payload }.

Record Invocation := {
  response : Response;
  forwarded : option jsstring }.

Definition fallback (question : jsstring) (contextData : json)
    (message : jsstring) (sent : option jsstring) : Invocation :=
  {| response :=
       {| statusCode := 200;
          body := {| answer := Some (generateFallbackResponse question contextData);
                     method := js "SSE_FALLBACK";
                     success := false;
                     error := Some message |} |};
     forwarded := sent |}.

(** What the handler reads from the query string. *)
Record Request := { question : jsstring; contextData : json }.

Definition intake (event : Event) : Request :=
  let params := default noParams (queryStringParameters event) in
  {| question := orElse (Netlify.question params) (js "Pergunta não informada");
     contextData :=
       match decodeURIComponent (orElse (Netlify.context params) (js "{}")) with
       | Some decoded => default (JObj []) (JSON_parse decoded)
       | None => JObj []
       end |}.

(** The body of the [try]: preparing the message and the exchange. *)
Definition attempt (event : Event) (up : Upstream) : Outcome * option jsstring :=
  let r := intake event in
  match prepareContextForCopilot (contextData r) (question r) with
  | None => (Threw typeErrorMessage, None)
  | Some contextMessage =>
    let x := sendToCopilot up contextMessage in (outcome x, posted x)
  end.

Definition handler (event : Event) (up : Upstream) : Invocation :=
  let r := intake event in
  match attempt event up with
  | (Returned text, sent) =>
    {| response :=
         {| statusCode := 200;
            body := {| answer := text; method := js "SSE"; success := true;
                       error := None |} |};
       forwarded := sent |}
  | (Threw message, sent) =>
    fallback (question r) (contextData r) message sent
  end.

End Handler.

End ChatSse.

(** ** netlify/functions/chat-pixel.js *)

Module ChatPixel.

Section Handler.

Context {engine : Netlify.Engine}.

Import Netlify.

Abbreviation json := (Json.json Num).

(** [Object.entries(row).map(([k, v]) => `${k}:${v}`).join(', ')]. *)
Definition renderRow (row : json) : option jsstring :=
  fmap (M := option)
    (fun entries =>
       join (js ", ") (map (fun kv => kv.1 ++ js ":" ++ valueToString kv.2) entries))
    (Object_entries row).

Fixpoint renderRows (sample : list json) : option (list jsstring) :=
  match sample with
  | [] => Some []
  | row :: rest =>
    match renderRow row, renderRows rest with
    | Some line, Some lines => Some (line :: lines)
    | _, _ => None
    end
  end.

Definition prepareContextForCopilot (context : json) (question : jsstring)
    : option jsstring :=
  match context with
  | JArr [] => Some ((js "Pergunta: " ++ dq) ++ question ++ (dq ++ nl ++ js "Contexto: Sem dados no Power BI."))
  | JArr items =>
    let first := default JNull (head items) in
    let columns := default [] (Object_keys (if truthy first then first else JObj [])) in
    match renderRows (take 2 items) with
    | None => None
    | Some lines =>
      Some ((js "ANÁLISE POWER BI:" ++ nl ++ js "Pergunta: " ++ dq) ++ question
            ++ (dq ++ nl ++ js "Dados: ") ++ decimal (length items)
            ++ (js " registros" ++ nl ++ js "Colunas: ") ++ join (js ", ") columns
            ++ (nl ++ js "Exemplo: ") ++ join (js " | ") lines)
    end
  | _ =>
    if truthy context
    then Some ((js "Pergunta: " ++ dq) ++ question ++ (dq ++ nl ++ js "Contexto: ") ++ JSON_stringify context)
    else Some ((js "Pergunta: " ++ dq) ++ question ++ (dq ++ nl ++ js "Contexto: Sem dados no Power BI."))
  end.

Definition variant : Variant :=
  {| userId := js "PowerBI_Pixel_User";
     convTimeout := None;
     postTimeout := None;
     pollTimeout := None;
     attempts := 5;
     interval := 2000;
     catchesPollErrors := false;
     convFailed := js "Falha conversa: ";
     exhausted := js "Timeout pixel: 10 segundos" |}.

Definition sendToCopilot (up : Upstream) (message : jsstring) : Exchanged :=
  directLine variant up (Some message).

Definition generateFallbackResponse (question : jsstring) (context : json)
    : jsstring :=
  let q := toLowerCase question in
  let hasData := bool_decide (is_Some (rows context)) in
  let rowCount := decimal (length (default [] (rows context))) in
  if includes q (js "médico") || includes q (js "doctor") then
    (js "👨‍⚕️ ANÁLISE MÉDICOS (via Pixel): ") ++ (if hasData then (js "Encontrados ") ++ rowCount ++ (js " registros médicos")
                else (js "Dados médicos não disponíveis"))
  else if includes q (js "vendas") || includes q (js "receita") then
    (js "💰 ANÁLISE VENDAS (via Pixel): ") ++ (if hasData then (js "Processando ") ++ rowCount ++ (js " transações")
                else (js "Dados de vendas não carregados"))
  else
    (js "🖼️ Conectado via Pixel Tracking! Pergunta: " ++ dq) ++ question ++ (dq ++ js ". Status: ")
    ++ (if hasData then rowCount ++ (js " registros") else (js "Sem dados")).

Record Payload := {
  answer : option jsstring;
  method : jsstring;
  success : bool;
  error : option jsstring }.

(** The reply is the 1x1 image, at once; the answer is what the detached
    task hands to [storeResponse]: the session id and the payload to store.
    [imageStatus] is the status code of the image reply. *)
Record Invocation := {
  imageStatus : Z;
  storedUnder : jsstring;
  storedData : Payload;
  forwarded : option jsstring }.

Definition fallback (sessionId question : jsstring) (contextData : json)
    (message : jsstring) (sent : option jsstring) : Invocation :=
  {| imageStatus := 200;
     storedUnder := sessionId;
     storedData := {| answer := Some (generateFallbackResponse question contextData);
                      method := js "PIXEL_FALLBACK";
                      success := false;
                      error := Some message |};
     forwarded := sent |}.

(** What the handler reads from the query string. *)
Record Request := {
  sessionId : jsstring;
  question : jsstring;
  contextData : json }.

Definition intake (event : Event) : Request :=
  let params := default noParams (queryStringParameters event) in
  {| sessionId := orElse (Netlify.session params) (js "default");
     question := orElse (Netlify.question params) (js "Pergunta não informada");
     contextData :=
       match decodeURIComponent (orElse (Netlify.context params) (js "{}")) with
       | Some decoded => default (JObj []) (JSON_parse decoded)
       | None => JObj []
       end |}.

(** The body of the detached task's [try]. *)
Definition attempt (event : Event) (up : Upstream) : Outcome * option jsstring :=
  let r := intake event in
  match prepareContextForCopilot (contextData r) (question r) with
  | None => (Threw typeErrorMessage, None)
  | Some contextMessage =>
    let x := sendToCopilot up contextMessage in (outcome x, posted x)
  end.

Definition handler (event : Event) (up : Upstream) : Invocation :=
  let r := intake event in
  match attempt event up with
  | (Returned text, sent) =>
    {| imageStatus := 200;
       storedUnder := sessionId r;
       storedData := {| answer := text; method := js "PIXEL"; success := true;
                        error := None |};
       forwarded := sent |}
  | (Threw message, sent) =>
    fallback (sessionId r) (question r) (contextData r) message sent
  end.

End Handler.

End ChatPixel.


(** ** netlify/functions/debug.js: the health analysis *)

Module DebugJs.

(** What the analysis reads of [debugInfo]: [copilot.hasSecret],
    [copilot.connectivity], [performance.memoryUsage.heapUsed] (bytes) and
    [netlify.url]. *)
Record DebugInfo := {
  hasSecret : bool;
  connectivity : jsstring;
  heapUsed : N;
  url : jsstring }.

Record Health := {
  overall : jsstring;
  score : Z;
  issues : list jsstring;
  recommendations : list jsstring }.

(** [heapUsed / 1024 / 1024 > 100]: dividing a byte count by a power of two
    is exact, so the test is one on bytes. *)
Definition memoryHigh (heapUsed : N) : bool := (100 * 1024 * 1024 <? heapUsed)%N.

(** [Math.round(heapUsed / 1024 / 1024)]: halves round up. *)
Definition roundMB (heapUsed : N) : nat :=
  N.to_nat ((heapUsed + 512 * 1024) / (1024 * 1024)).

Definition generateHealthRecommendations (issues : list jsstring) : list jsstring :=
  flat_map
    (fun issue =>
       (if includes issue (js "COPILOT_SECRET")
        then [js "🔑 Configure COPILOT_SECRET nas variáveis de ambiente Netlify"]
        else [])
       ++ (if includes issue (js "Copilot não conectado")
           then [js "🔌 Teste a conectividade do Direct Line Secret"]
           else [])
       ++ (if includes issue (js "memória")
           then [js "🧠 Monitore uso de memória e otimize processamento"]
           else [])
       ++ (if includes issue (js "ambiente")
           then [js "🌍 Verifique configuração do ambiente Netlify"]
           else []))
    issues.

(** The three checks, each with the issue it reports and what it costs. *)
Definition copilotCheck (debugInfo : DebugInfo) : list jsstring * Z :=
  if negb (hasSecret debugInfo)
  then ([js "❌ COPILOT_SECRET não configurada"], 30%Z)
  else if negb (bool_decide (connectivity debugInfo = js "connected"))
  then ([js "⚠️ Copilot não conectado: " ++ connectivity debugInfo], 20%Z)
  else ([], 0%Z).

Definition memoryCheck (debugInfo : DebugInfo) : list jsstring * Z :=
  if memoryHigh (heapUsed debugInfo)
  then ([js "⚠️ Alto uso de memória: " ++ decimal (roundMB (heapUsed debugInfo))
         ++ js "MB"], 10%Z)
  else ([], 0%Z).

Definition environmentCheck (debugInfo : DebugInfo) : list jsstring * Z :=
  if negb (includes (url debugInfo) (js "netlify.app"))
  then ([js "⚠️ Ambiente não é Netlify padrão"], 5%Z)
  else ([], 0%Z).

Definition healthLevel (score : Z) : jsstring :=
  if (score <? 60)%Z then js "critical"
  else if (score <? 80)%Z then js "warning"
  else if (score <? 95)%Z then js "good"
  else js "excellent".

Definition analyzeSystemHealth (debugInfo : DebugInfo) : Health :=
  let c := copilotCheck debugInfo in
  let m := memoryCheck debugInfo in
  let e := environmentCheck debugInfo in
  let issues := c.1 ++ m.1 ++ e.1 in
  let score := (100 - c.2 - m.2 - e.2)%Z in
  {| overall := healthLevel score;
     score := score;
     issues := issues;
     recommendations :=
       match issues with
       | [] => [js "✅ Sistema funcionando perfeitamente!"]
       | _ :: _ => generateHealthRecommendations issues
       end |}.

End DebugJs.


(** ** src/errorHandler.ts *)

Module ErrorHandlerTs.

Section Handler.

(** [s.toLowerCase()]. *)
Variable toLowerCase : jsstring -> jsstring.

(** The [context] argument, which the handler only stores. *)
Variable Ctx : Type.

Inductive Severity := low | medium | high | critical.

Inductive Category := network | cors | auth | data | config | unknown.

Record ErrorDetails := {
  code : jsstring;
  message : jsstring;
  severity : Severity;
  solution : jsstring;
  category : Category;
  timestamp : N;
  context : option Ctx }.

Definition isCorsError (message : jsstring) : bool :=
  includes message (js "cors")
  || includes message (js "cross-origin")
  || includes message (js "access-control-allow-origin").

Definition isCspError (message : jsstring) : bool :=
  includes message (js "content security policy")
  || includes message (js "unsafe-inline")
  || includes message (js "unsafe-eval")
  || includes message (js "violates the following content security policy").

Definition isNetworkError (message : jsstring) : bool :=
  includes message (js "network")
  || includes message (js "fetch")
  || includes message (js "connection")
  || includes message (js "offline").

Definition isTimeoutError (message : jsstring) : bool :=
  includes message (js "timeout")
  || includes message (js "timed out")
  || includes message (js "request timeout").

Definition isAuthError (message : jsstring) : bool :=
  includes message (js "unauthorized")
  || includes message (js "403")
  || includes message (js "401")
  || includes message (js "authentication").

Definition isDataError (message : jsstring) : bool :=
  includes message (js "json")
  || includes message (js "parse")
  || includes message (js "data")
  || includes message (js "undefined").

(** The details [analyzeError] builds for an error with this message, at
    time [now]. *)
Definition classify (error_message : jsstring) (ctx : option Ctx) (now : N)
    : ErrorDetails :=
  let errorMessage := toLowerCase error_message in
  if isCorsError errorMessage then
    {| code := js "CORS_BLOCKED";
       message := js "Bloqueio CORS detectado";
       severity := high;
       solution := js "Usando método JSONP ou Iframe como alternativa";
       category := cors;
       timestamp := now;
       context := ctx |}
  else if isCspError errorMessage then
    {| code := js "CSP_VIOLATION";
       message := js "Violação de Content Security Policy";
       severity := high;
       solution := js "Tentando método Iframe para contornar CSP";
       category := cors;
       timestamp := now;
       context := ctx |}
  else if isNetworkError errorMessage then
    {| code := js "NETWORK_ERROR";
       message := js "Erro de conectividade";
       severity := medium;
       solution := js "Verificando conexão e tentando novamente";
       category := network;
       timestamp := now;
       context := ctx |}
  else if isTimeoutError errorMessage then
    {| code := js "TIMEOUT_ERROR";
       message := js "Timeout na comunicação";
       severity := medium;
       solution := js "Reduzindo timeout e usando fallback";
       category := network;
       timestamp := now;
       context := ctx |}
  else if isAuthError errorMessage then
    {| code := js "AUTH_ERROR";
       message := js "Erro de autenticação Copilot";
       severity := critical;
       solution := js "Verifique COPILOT_SECRET nas variáveis de ambiente";
       category := auth;
       timestamp := now;
       context := ctx |}
  else if isDataError errorMessage then
    {| code := js "DATA_ERROR";
       message := js "Erro no processamento de dados";
       severity := low;
       solution := js "Verificando formato dos dados do Power BI";
       category := data;
       timestamp := now;
       context := ctx |}
  else
    {| code := js "UNKNOWN_ERROR";
       message := error_message;
       severity := medium;
       solution := js "Ativando modo de recuperação automática";
       category := unknown;
       timestamp := now;
       context := ctx |}.

(** [l.slice(-n)]. *)
Definition sliceLast {A} (n : nat) (l : list A) : list A :=
  drop (length l - n) l.

(** The handler's state: [errorHistory] and what the panel's error section
    shows, one block per entry ([None] while the section was never in the
    document). *)
Record Handler := {
  errorHistory : list ErrorDetails;
  shown : option (list ErrorDetails) }.

Definition updateDebugPanel (attached : bool) (h : Handler) : Handler :=
  if attached
  then {| errorHistory := errorHistory h;
          shown := Some (rev (sliceLast 20 (errorHistory h))) |}
  else h.

Definition logError (attached : bool) (error : ErrorDetails) (h : Handler)
    : Handler :=
  let pushed := errorHistory h ++ [error] in
  let kept := if bool_decide (50 < length pushed) then sliceLast 50 pushed
              else pushed in
  updateDebugPanel attached {| errorHistory := kept; shown := shown h |}.

(** One reported error: its message, its context, the time, and whether
    the panel's error section is in the document then. *)
Record Report := {
  error_message : jsstring;
  error_context : option Ctx;
  reportedAt : N;
  attached : bool }.

Definition analyzeError (r : Report) (h : Handler) : ErrorDetails * Handler :=
  let errorDetails := classify (error_message r) (error_context r) (reportedAt r) in
  (errorDetails, logError (attached r) errorDetails h).

Definition clearDebugHistory (attached : bool) (h : Handler) : Handler :=
  updateDebugPanel attached {| errorHistory := []; shown := shown h |}.

Definition newHandler : Handler := {| errorHistory := []; shown := None |}.

Definition details (r : Report) : ErrorDetails :=
  classify (error_message r) (error_context r) (reportedAt r).

Definition reportAll (rs : list Report) (h : Handler) : Handler :=
  foldl (fun h r => (analyzeError r h).2) h rs.

End Handler.

End ErrorHandlerTs.

(** ** src/chartGenerator.ts *)

Module ChartGeneratorTs.

Section Generator.

Variable Num : Type.

(** [isNaN(n)] on a number. *)
Variable isNaN : Num -> bool.

Abbreviation json := (Json.json Num).

Inductive ChartType := bar | line | pie | scatter.

Inductive Theme := light | dark | powerbi.

Inductive InsightType := trend | outlier | recommendation.

(** [confidence] is kept in hundredths: 0.8 is 80. *)
Record AIInsight := {
  insight_type : InsightType;
  message : jsstring;
  confidence : N }.

Record ChartConfig := {
  type : ChartType;
  data : list json;
  theme : Theme;
  animation : bool;
  interactive : bool }.

(** [Object.entries(x)] of a row: [None] when [Object.keys] throws, on
    [null] and [undefined]. *)
Definition entries (x : json) : option (list (jsstring * json)) :=
  match x with
  | JNull => None
  | JObj fields => Some fields
  | JArr items => Some (imap (fun i item => (decimal i, item)) items)
  | JStr s => Some (imap (fun i c => (decimal i, JStr [c])) s)
  | JBool _ | JNum _ => Some []
  end.

(** [typeof v === 'number' && !isNaN(v)]. *)
Definition numeric (v : json) : bool :=
  match v with
  | JNum n => negb (isNaN n)
  | _ => false
  end.

(** [typeof v === 'string']. *)
Definition categorical (v : json) : bool :=
  match v with
  | JStr _ => true
  | _ => false
  end.

(** The columns of the first row that pass the test. *)
Definition getNumericColumns (row : list (jsstring * json)) : list jsstring :=
  (filter (fun e => numeric e.2 = true) row).*1.

Definition getCategoricalColumns (row : list (jsstring * json)) : list jsstring :=
  (filter (fun e => categorical e.2 = true) row).*1.

Definition getDefaultConfig : ChartConfig :=
  {| type := bar; data := []; theme := powerbi;
     animation := true; interactive := true |}.

(** [analyzeDataAndSuggestChart(data)] with the generator's [insights] as
    state.  [data] is [None] for [null] and [undefined].  The result is
    [None] when the call throws, on a first row that is [null]; nothing
    was pushed then. *)
Definition analyzeDataAndSuggestChart (data : option (list json))
    (insights : list AIInsight) : option (ChartConfig * list AIInsight) :=
  match data with
  | None | Some [] => Some (getDefaultConfig, insights)
  | Some (first :: more) =>
    match entries first with
    | None => None
    | Some row =>
      let numericColumns := getNumericColumns row in
      let categoricalColumns := getCategoricalColumns row in
      let '(suggestedType, insights') :=
        if bool_decide (length categoricalColumns = 1)
           && bool_decide (length numericColumns = 1)
        then
          if bool_decide (length (first :: more) <= 10)
          then (pie,
                insights
                ++ [{| insight_type := recommendation;
                       message := js "🥧 Poucas categorias - gráfico de pizza recomendado";
                       confidence := 80 |}])
          else (bar, insights)
        else if bool_decide (2 <= length numericColumns)
        then (scatter,
              insights
              ++ [{| insight_type := trend;
                     message := js "🔍 Múltiplas variáveis numéricas detectadas";
                     confidence := 70 |}])
        else (bar, insights) in
      Some ({| type := suggestedType; data := first :: more; theme := powerbi;
               animation := true; interactive := true |},
            insights')
    end
  end.

(** The generator analysing one data set after the other; a call that
    throws leaves the state as it was. *)
Definition analyzeAll (sets : list (option (list json))) (insights : list AIInsight)
    : list AIInsight :=
  foldl (fun acc d =>
           match analyzeDataAndSuggestChart d acc with
           | Some (_, acc') => acc'
           | None => acc
           end)
        insights sets.

Definition getChartIcon (t : ChartType) : jsstring :=
  match t with
  | bar => js "📊"
  | line => js "📈"
  | pie => js "🥧"
  | scatter => js "🔍"
  end.

Definition getChartName (t : ChartType) : jsstring :=
  match t with
  | bar => js "Gráfico de Barras"
  | line => js "Gráfico de Linha"
  | pie => js "Gráfico de Pizza"
  | scatter => js "Gráfico de Dispersão"
  end.

End Generator.

End ChartGeneratorTs.

(** ** Facts about strings *)

Module JsFacts.

Lemma startsWith_app p r : startsWith p (p ++ r) = true.
Proof.
  induction p as [|c p IH]; simpl; [done|]. by rewrite N.eqb_refl.
Qed.


Lemma Contains_here n r : Contains n (n ++ r).
Proof. exists [], r. done. Qed.

Lemma Contains_refl n : Contains n n.
Proof. exists [], []. by rewrite app_nil_r. Qed.

Lemma Contains_skip n a r : Contains n r -> Contains n (a ++ r).
Proof. intros (pre & post & ->). exists (a ++ pre), post. by rewrite app_assoc. Qed.

Lemma Contains_inl n a r : Contains n a -> Contains n (a ++ r).
Proof.
  intros (pre & post & ->). exists pre, (post ++ r). by rewrite <- !app_assoc.
Qed.

Lemma take_take_le {A} (n m : nat) (l : list A) :
  n <= m -> take n (take m l) = take n l.
Proof. intros. rewrite take_take. f_equal. lia. Qed.

End JsFacts.

Import JsFacts.

(** Finds [n] in a concatenation. *)
Ltac contains :=
  rewrite <- ?app_assoc;
  repeat first
    [ apply Contains_here
    | apply Contains_refl
    | apply Contains_skip ].

(** ** A reference engine

    A small implementation of the built-ins, enough to run the proxies on
    the examples below: integers for numbers, case mapping for Basic Latin
    and Latin-1, texts without escapes for URI decoding, and a JSON reader
    that knows the texts the examples use. *)

Module Reference.

Definition lowerUnit (c : N) : N :=
  if ((65 <=? c) && (c <=? 90)
      || (192 <=? c) && (c <=? 222) && negb (c =? 215))%N
  then (c + 32)%N else c.

Definition showZ (z : Z) : list N :=
  if (z <? 0)%Z then js "-" ++ decimal (Z.abs_nat z) else decimal (Z.abs_nat z).

(** [None] is NaN. *)
Definition showNum (n : option Z) : list N :=
  match n with Some z => showZ z | None => js "NaN" end.

Fixpoint readDigits (s : list N) (acc : option Z) : option Z :=
  match s with
  | c :: s' =>
    if ((48 <=? c) && (c <=? 57))%N
    then readDigits s' (Some (10 * default 0%Z acc + Z.of_N (c - 48))%Z)
    else acc
  | [] => acc
  end.

Definition readInt (s : list N) : option Z :=
  match s with
  | 45%N :: s' => fmap (M := option) Z.opp (readDigits s' None)
  | _ => readDigits s None
  end.

Definition unescaped (s : list N) : option (list N) :=
  if includes s (js "%") then None else Some s.

Fixpoint stringify (x : Json.json (option Z)) : list N :=
  match x with
  | JNull => js "null"
  | JBool true => js "true"
  | JBool false => js "false"
  | JNum n => showNum n
  | JStr s => dq ++ s ++ dq
  | JArr items => js "[" ++ Netlify.join (js ",") (map stringify items) ++ js "]"
  | JObj fields =>
    js "{"
    ++ Netlify.join (js ",")
         (map (fun kv => let '(k, v) := kv in dq ++ k ++ dq ++ js ":" ++ stringify v)
              fields)
    ++ js "}"
  end.

Fixpoint show (x : Json.json (option Z)) : list N :=
  match x with
  | JNull => js "null"
  | JBool true => js "true"
  | JBool false => js "false"
  | JNum n => showNum n
  | JStr s => s
  | JArr items =>
    Netlify.join (js ",")
      (map (fun item => match item with JNull => [] | _ => show item end) items)
  | JObj _ => js "[object Object]"
  end.

Definition anaRow : Json.json (option Z) :=
  JObj [(js "medico", JStr (js "Ana")); (js "vendas", JNum (Some 10%Z))].

Definition ruiRow : Json.json (option Z) :=
  JObj [(js "medico", JStr (js "Rui")); (js "vendas", JNum (Some 7%Z))].

Definition twoRows : Json.json (option Z) := JArr [anaRow; ruiRow].

Definition readJson (s : list N) : option (Json.json (option Z)) :=
  if bool_decide (s = js "[]") then Some (JArr [])
  else if bool_decide (s = js "{}") then Some (JObj [])
  else if bool_decide (s = js "[null]") then Some (JArr [JNull])
  else if bool_decide (s = stringify twoRows) then Some twoRows
  else None.

Definition engine : Netlify.Engine :=
  {| Netlify.Num := option Z;
     Netlify.numToString := showNum;
     Netlify.parseInt := readInt;
     Netlify.numTruthy := fun n => match n with Some z => negb (z =? 0)%Z | None => false end;
     Netlify.toLowerCase := map lowerUnit;
     Netlify.decodeURIComponent := unescaped;
     Netlify.JSON_parse := readJson;
     Netlify.JSON_stringify := stringify;
     Netlify.JSON_stringify_indented := stringify;
     Netlify.valueToString := show;
     Netlify.typeErrorMessage := js "Cannot convert undefined or null to object";
     Netlify.uriErrorMessage := js "URI malformed" |}.

#[local] Existing Instance engine.

(** The credential is missing. *)
Definition noSecret : @Netlify.Upstream engine :=
  {| Netlify.COPILOT_SECRET := None;
     Netlify.conversations := (0%N, Netlify.Unreachable []);
     Netlify.postActivity := (0%N, Netlify.Unreachable []);
     Netlify.getActivities := fun _ => (0%N, Netlify.Unreachable []) |}.

(** The backend takes the message and never answers: every poll comes
    back without a bot message. *)
Definition silentBot : @Netlify.Upstream engine :=
  {| Netlify.COPILOT_SECRET := Some (js "s3cr3t");
     Netlify.conversations := (100%N, Netlify.Replied true (Some 200%Z) (Some tt));
     Netlify.postActivity := (100%N, Netlify.Replied true (Some 200%Z) (Some tt));
     Netlify.getActivities := fun _ =>
       (100%N, Netlify.Replied true (Some 200%Z) (Some [])) |}.

Definition ask (q : list N) (ctx : option (list N)) : Netlify.Event :=
  {| Netlify.httpMethod := js "GET";
     Netlify.queryStringParameters :=
       Some {| Netlify.callback := Some (js "cb");
               Netlify.session := Some (js "s1");
               Netlify.question := Some q;
               Netlify.hasData :=
                 Some (match ctx with Some _ => js "true" | None => js "false" end);
               Netlify.rowCount :=
                 Some (match ctx with Some _ => js "12" | None => js "0" end);
               Netlify.context := ctx |} |}.

End Reference.

(** ** Properties of the main chat proxy (netlify/functions/chat.js) *)

Module ChatJsFacts.

Import Netlify ChatJs.

(** Closes [js "a" <> js "b"] and [js "a" <> []] by evaluation. *)
Ltac js_differ := let H := fresh in intros H; vm_compute in H; congruence.

Section Facts.

Context {engine : Netlify.Engine}.

Abbreviation json := (Json.json Num).

Definition totalsTitle : jsstring := js "📊 **ANÁLISE DE TOTAIS** ".
Definition doctorsTitle : jsstring := js "👨‍⚕️ **ANÁLISE MÉDICOS** ".
Definition salesTitle : jsstring := js "💰 **ANÁLISE DE VENDAS** ".
Definition generalTitle : jsstring := js "🤖 **ASSISTENTE BI ATIVO** ".

(** Does [q] contain one of the terms listed for [type]? *)
Definition mentions (q : jsstring) (type : jsstring) : bool :=
  existsb (fun term => includes q term)
    (default [] (snd <$> find (fun e => bool_decide (e.1 = type)) questionTypes)).

(** The title the answer to the lower-cased question [q] carries. *)
Definition titleFor (q : jsstring) : jsstring :=
  if mentions q (js "totals") then totalsTitle
  else if mentions q (js "quantities") then generalTitle
  else if mentions q (js "sales") then salesTitle
  else if mentions q (js "doctors") then doctorsTitle
  else generalTitle.

Lemma classify_cases q :
  (classify q questionTypes).1
  = if mentions q (js "totals") then js "totals"
    else if mentions q (js "quantities") then js "quantities"
    else if mentions q (js "sales") then js "sales"
    else if mentions q (js "doctors") then js "doctors"
    else if mentions q (js "averages") then js "averages"
    else if mentions q (js "comparisons") then js "comparisons"
    else js "general".
Proof.
  unfold mentions, questionTypes. cbn [classify find fst snd].
  repeat match goal with
  | |- context [bool_decide (js ?a = js ?b)] =>
    let v := eval vm_compute in (bool_decide (js a = js b)) in
    change (bool_decide (js a = js b)) with v
  end.
  cbn [fmap option_fmap option_map default].
  repeat (destruct (existsb _ _); [reflexivity|]). reflexivity.
Qed.

Lemma fallback_title question (context : json) a :
  generateIntelligentFallback question context = Some a ->
  startsWith (titleFor (toLowerCase question)) a = true.
Proof.
  unfold generateIntelligentFallback, titleFor.
  pose proof (classify_cases (toLowerCase question)) as Hc.
  destruct (classify (toLowerCase question) questionTypes) as [type kws].
  cbn [fst] in Hc. subst type.
  repeat (destruct (mentions (toLowerCase question) _));
    repeat match goal with
    | |- context [bool_decide (js ?a = js ?b)] =>
      let v := eval vm_compute in (bool_decide (js a = js b)) in
      change (bool_decide (js a = js b)) with v
    end;
    cbv iota;
    repeat case_match; intros Heq;
    first [ discriminate Heq
          | apply (inj Some) in Heq; rewrite <- Heq; apply startsWith_app ].
Qed.



Lemma literal_app_nonempty (lit rest : jsstring) : lit <> [] -> lit ++ rest <> [].
Proof. intros Hl Happ. by apply app_eq_nil in Happ as [? _]. Qed.




(** The same event with its [question] parameter set to [q]. *)
Definition asking (q : jsstring) (event : Event) : Event :=
  let params := default noParams (queryStringParameters event) in
  {| httpMethod := httpMethod event;
     queryStringParameters :=
       Some {| callback := callback params; session := session params;
               question := Some q; hasData := hasData params;
               rowCount := rowCount params; context := context params |} |}.

(** The main proxy reads only the first 500 code units of the decoded
    question: two requests that differ only in questions agreeing on that
    prefix get the same response and forward the same message. *)
Theorem chat_reads_500_units (event : Event) (up : Upstream) (lag : N)
    (q1 q2 d1 d2 : jsstring) :
  decodeURIComponent q1 = Some d1 ->
  decodeURIComponent q2 = Some d2 ->
  take 500 d1 = take 500 d2 ->
  handler (asking q1 event) up lag = handler (asking q2 event) up lag.
Proof.
  intros H1 H2 Hpre. unfold handler, intake, asking.
  cbn [httpMethod queryStringParameters default question].
  case_bool_decide; [done|]. unfold readContext.
  cbn [Netlify.question Netlify.context default from_option id].
  rewrite H1, H2. unfold substring0. by rewrite Hpre.
Qed.

Lemma prepared_quotes_question question (ctx : json) :
  Contains question (prepareOptimizedMessage question ctx).
Proof.
  unfold prepareOptimizedMessage. destruct (rows ctx); contains.
Qed.

Lemma intake_asked event question (ctx : json) summary :
  intake event = Asked question ctx summary ->
  exists decoded,
    decodeURIComponent
      (default [] (Netlify.question
                     (default noParams (queryStringParameters event))))
    = Some decoded
    /\ question = take 500 decoded.
Proof.
  unfold intake. case_bool_decide; [done|].
  destruct (decodeURIComponent _) as [decoded|]; [|done].
  destruct (substring0 500 decoded) as [|c s0] eqn:Hq; [done|].
  destruct (readContext _). intros [= <- _ _]. by exists decoded.
Qed.

Lemma directLine_posted v up message m :
  posted (directLine v up message) = Some m ->
  message = Some m /\ exists c s, COPILOT_SECRET up = Some (c :: s).
Proof.
  unfold directLine. destruct (COPILOT_SECRET up) as [[|c s]|]; try done.
  destruct (withTimeout (convTimeout v) (conversations up)) as [t1 r1].
  destruct r1 as [|[] status [|]]; try done.
  destruct message as [body|]; [|done].
  destruct (withTimeout (postTimeout v) (postActivity up)) as [t2 r2].
  destruct r2; [|destruct (poll _ _ _ _ _)]; cbn [posted];
    intros [= ->]; eauto.
Qed.

Lemma forwarded_reply up lag question (ctx : json) summary :
  forwarded (reply up lag question ctx summary)
  = posted (sendToCopilotOptimized up question ctx).
Proof.
  unfold reply. destruct (race COPILOT_TIMEOUT _) as [t raced].
  destruct raced as [[[|r rs]|]|message];
    try reflexivity; by destruct (generateIntelligentFallback question ctx).
Qed.

(** Whatever the main proxy forwards to the backend is the prepared
    message for the question cut to its first 500 code units, which it
    quotes in full; and it forwards something only when the credential is
    set. *)
Theorem chat_forwards_truncated_question (event : Event) (up : Upstream)
    (lag : N) (m : jsstring) :
  forwarded (handler event up lag) = Some m ->
  exists question ctx summary decoded,
    intake event = Asked question ctx summary
    /\ decodeURIComponent
         (default [] (Netlify.question
                        (default noParams (queryStringParameters event))))
       = Some decoded
    /\ question = take 500 decoded
    /\ m = prepareOptimizedMessage question ctx
    /\ Contains question m
    /\ exists c s, COPILOT_SECRET up = Some (c :: s).
Proof.
  unfold handler. destruct (intake event) as [| | |question ctx summary] eqn:Hi;
    try done.
  rewrite forwarded_reply. unfold sendToCopilotOptimized.
  intros [[= <-] Hsecret]%directLine_posted.
  destruct (intake_asked _ _ _ _ Hi) as (decoded & Hdec & Hq).
  exists question, ctx, summary, decoded. split_and!; try done.
  apply prepared_quotes_question.
Qed.

(** When the exchange resolves without a usable text (the bot's message has
    no text, or an empty one), the main proxy answers with the rule-based
    text but labels the reply COPILOT. *)
Theorem empty_reply_labelled_copilot (up : Upstream) (lag : N)
    (question : jsstring) (ctx : json) (summary : jsstring) (t : N)
    (text : option jsstring) (a : jsstring) :
  race COPILOT_TIMEOUT (sendToCopilotOptimized up question ctx)
  = (t, Returned text) ->
  orElse text [] = [] ->
  generateIntelligentFallback question ctx = Some a ->
  body (response (reply up lag question ctx summary))
  = Some {| answer := a; method := js "COPILOT";
            contextSummary := Some summary; error := false |}.
Proof.
  intros Hrace Htext Ha. unfold reply. rewrite Hrace, Ha.
  by destruct text as [[|r rs]|].
Qed.

(** With data in the context, the main proxy's rule-based answer states
    the number of rows of the context. *)
Theorem chat_fallback_counts_rows (question : jsstring) (ctx : json)
    (items : list json) (a : jsstring) :
  rows ctx = Some items ->
  generateIntelligentFallback question ctx = Some a ->
  Contains (decimal (length items)) a.
Proof.
  unfold generateIntelligentFallback. intros Hrows.
  destruct (classify (toLowerCase question) questionTypes) as [type kws].
  rewrite Hrows.
  repeat case_match; intros Heq;
    first [ discriminate Heq
          | apply (inj Some) in Heq; rewrite <- Heq; contains ].
Qed.


(** Which reply the main proxy's generator picks: a totals term wins over
    everything; failing that, a quantity term sends the question to the
    generic reply even when it also names sales or doctors; then a sales
    term wins over a doctor term; a question with none of these, or only
    average or comparison terms, gets the generic reply. *)
Theorem chat_title_priority (question : jsstring) (ctx : json) (a : jsstring) :
  generateIntelligentFallback question ctx = Some a ->
  let q := toLowerCase question in
  (mentions q (js "totals") = true -> startsWith totalsTitle a = true)
  /\ (mentions q (js "totals") = false -> mentions q (js "quantities") = true ->
      startsWith generalTitle a = true)
  /\ (mentions q (js "totals") = false -> mentions q (js "quantities") = false ->
      mentions q (js "sales") = true -> startsWith salesTitle a = true)
  /\ (mentions q (js "totals") = false -> mentions q (js "quantities") = false ->
      mentions q (js "sales") = false -> mentions q (js "doctors") = true ->
      startsWith doctorsTitle a = true)
  /\ (mentions q (js "totals") = false -> mentions q (js "quantities") = false ->
      mentions q (js "sales") = false -> mentions q (js "doctors") = false ->
      startsWith generalTitle a = true).
Proof.
  intros Ha%fallback_title q. fold q in Ha. unfold titleFor in Ha.
  split_and!; intros; repeat match goal with H : mentions _ _ = _ |- _ =>
    rewrite H in Ha; clear H end; exact Ha.
Qed.

End Facts.

(** *** Concrete requests *)

#[local] Existing Instance Reference.engine.

Definition longQuestion : jsstring := replicate 600 97%N.
Definition otherTail : jsstring := replicate 500 97%N ++ js "bbbbb".

Example long_question_cut :
  let i := handler (Reference.ask longQuestion None) Reference.silentBot 0 in
  forwarded i
  = Some (js "Pergunta rápida: " ++ dq ++ replicate 500 97%N ++ dq
          ++ js " - Sem dados do Power BI.")
  /\ option_map method (body (response i)) = Some (js "FALLBACK")
  /\ option_map answer (body (response i))
     = Some (js "🤖 **ASSISTENTE BI ATIVO** ⚠️ Nenhum dado carregado no visual").
Proof. vm_compute. by split_and!. Qed.

Lemma chat_reads_500_units_witness :
  decodeURIComponent longQuestion = Some longQuestion
  /\ decodeURIComponent otherTail = Some otherTail
  /\ take 500 longQuestion = take 500 otherTail
  /\ handler (asking longQuestion (Reference.ask [] None)) Reference.silentBot 0
     = handler (asking otherTail (Reference.ask [] None)) Reference.silentBot 0.
Proof.
  assert (decodeURIComponent longQuestion = Some longQuestion) as H1
    by (vm_compute; reflexivity).
  assert (decodeURIComponent otherTail = Some otherTail) as H2
    by (vm_compute; reflexivity).
  assert (take 500 longQuestion = take 500 otherTail) as H3
    by (vm_compute; reflexivity).
  split_and!; [exact H1|exact H2|exact H3|].
  exact (chat_reads_500_units (Reference.ask [] None) Reference.silentBot 0
           longQuestion otherTail longQuestion otherTail H1 H2 H3).
Defined.

Lemma chat_forwards_truncated_question_witness :
  forwarded (handler (Reference.ask longQuestion None) Reference.silentBot 0)
  = Some (prepareOptimizedMessage (replicate 500 97%N) (JObj []))
  /\ exists question ctx summary decoded,
       intake (Reference.ask longQuestion None) = Asked question ctx summary
       /\ decodeURIComponent
            (default []
               (Netlify.question
                  (default noParams
                     (queryStringParameters (Reference.ask longQuestion None)))))
          = Some decoded
       /\ question = take 500 decoded
       /\ prepareOptimizedMessage (replicate 500 97%N) (JObj [])
          = prepareOptimizedMessage question ctx
       /\ Contains question (prepareOptimizedMessage (replicate 500 97%N) (JObj []))
       /\ exists c s, COPILOT_SECRET Reference.silentBot = Some (c :: s).
Proof.
  assert (forwarded (handler (Reference.ask longQuestion None) Reference.silentBot 0)
          = Some (prepareOptimizedMessage (replicate 500 97%N) (JObj []))) as Hf
    by (vm_compute; reflexivity).
  split; [exact Hf|].
  exact (chat_forwards_truncated_question (Reference.ask longQuestion None)
           Reference.silentBot 0 _ Hf).
Defined.

(** The bot's only message carries no text. *)
Definition muteBot : Upstream :=
  {| COPILOT_SECRET := Some (js "s3cr3t");
     conversations := (100%N, Replied true (Some 200%Z) (Some tt));
     postActivity := (100%N, Replied true (Some 200%Z) (Some tt));
     getActivities := fun _ =>
       (100%N,
        Replied true (Some 200%Z)
          (Some [ {| type := js "message"; from_id := js "PowerBI_Fast_User";
                     text := Some (js "oi") |};
                  {| type := js "message"; from_id := js "bot"; text := None |} ])) |}.

Lemma empty_reply_labelled_copilot_witness :
  race COPILOT_TIMEOUT (sendToCopilotOptimized muteBot (js "oi") (JObj []))
  = (1800%N, Returned None)
  /\ orElse None [] = ([] : jsstring)
  /\ generateIntelligentFallback (js "oi") (JObj [])
     = Some (js "🤖 **ASSISTENTE BI ATIVO** ⚠️ Nenhum dado carregado no visual")
  /\ body (response (reply muteBot 0 (js "oi") (JObj []) (js "Sem dados")))
     = Some {| answer :=
                 js "🤖 **ASSISTENTE BI ATIVO** ⚠️ Nenhum dado carregado no visual";
               method := js "COPILOT";
               contextSummary := Some (js "Sem dados"); error := false |}.
Proof.
  assert (race COPILOT_TIMEOUT (sendToCopilotOptimized muteBot (js "oi") (JObj []))
          = (1800%N, Returned None)) as H1 by (vm_compute; reflexivity).
  assert (generateIntelligentFallback (js "oi") (JObj [])
          = Some (js "🤖 **ASSISTENTE BI ATIVO** ⚠️ Nenhum dado carregado no visual"))
    as H3 by (vm_compute; reflexivity).
  split_and!; [exact H1|reflexivity|exact H3|].
  exact (empty_reply_labelled_copilot muteBot 0 (js "oi") (JObj [])
           (js "Sem dados") 1800 None _ H1 eq_refl H3).
Defined.

Definition sampleRows : Json.json Num := Reference.twoRows.

Lemma chat_fallback_counts_rows_witness :
  rows sampleRows = Some [Reference.anaRow; Reference.ruiRow]
  /\ (exists a, generateIntelligentFallback (js "vendas") sampleRows = Some a
                /\ Contains (decimal 2) a).
Proof.
  split; [reflexivity|].
  destruct (generateIntelligentFallback (js "vendas") sampleRows)
    as [a|] eqn:Ha; [|vm_compute in Ha; discriminate Ha].
  exists a. split; [reflexivity|].
  exact (chat_fallback_counts_rows (js "vendas") sampleRows
           [Reference.anaRow; Reference.ruiRow] a eq_refl Ha).
Defined.


Lemma chat_title_priority_witness :
  generateIntelligentFallback (js "Quantidade de vendas por médico") sampleRows
  <> None
  /\ mentions (toLowerCase (js "Quantidade de vendas por médico")) (js "totals")
     = false
  /\ mentions (toLowerCase (js "Quantidade de vendas por médico")) (js "quantities")
     = true
  /\ mentions (toLowerCase (js "Quantidade de vendas por médico")) (js "sales")
     = true
  /\ exists a,
       generateIntelligentFallback (js "Quantidade de vendas por médico") sampleRows
       = Some a
       /\ startsWith generalTitle a = true.
Proof.
  destruct (generateIntelligentFallback (js "Quantidade de vendas por médico")
              sampleRows) as [a|] eqn:Ha; [|vm_compute in Ha; discriminate Ha].
  assert (mentions (toLowerCase (js "Quantidade de vendas por médico"))
            (js "totals") = false) as H1 by (vm_compute; reflexivity).
  assert (mentions (toLowerCase (js "Quantidade de vendas por médico"))
            (js "quantities") = true) as H2 by (vm_compute; reflexivity).
  split_and!; [done|exact H1|exact H2|vm_compute; reflexivity|].
  exists a. split; [reflexivity|].
  exact (proj1 (proj2 (chat_title_priority _ _ _ Ha)) H1 H2).
Defined.

(** The timer fired (the continuation came 9 s late), and the caller got
    the ordinary answer. *)
Example timer_fired_unheard :
  let i := handler (Reference.ask (js "total") None) Reference.noSecret 9000 in
  timeoutFired i = true
  /\ returnedToTimer i = Some timeoutReply
  /\ option_map method (body (response i)) = Some (js "FALLBACK").
Proof. vm_compute. by split_and!. Qed.

End ChatJsFacts.

(** ** Properties of the script-injection proxy (netlify/functions/chat-jsonp.js) *)

Module ChatJsonpFacts.

Import Netlify ChatJsonp.

Ltac js_differ := let H := fresh in intros H; vm_compute in H; congruence.

Section Facts.

Context {engine : Netlify.Engine}.

Abbreviation json := (Json.json Num).

Definition asksTotals (q : jsstring) : bool :=
  includes q (js "total") || includes q (js "soma") || includes q (js "sum").

Definition asksDoctors (q : jsstring) : bool :=
  includes q (js "médico") || includes q (js "doctor")
  || includes q (js "quantidade").

Definition asksSales (q : jsstring) : bool :=
  includes q (js "vendas") || includes q (js "receita") || includes q (js "sales").

Lemma Object_keys_None (x : json) : Object_keys x = None <-> x = JNull.
Proof.
  unfold Object_keys. destruct x; cbn; split; intros Heq;
    first [reflexivity | discriminate Heq].
Qed.

Lemma smart_fallback_nonempty (question : jsstring) (ctx : json)
    (hasData : bool) (rowCount : Num) (a : jsstring) :
  generateSmartFallback question ctx hasData rowCount = Some a -> a <> [].
Proof.
  unfold generateSmartFallback. cbv zeta. intros Heq.
  repeat case_match; try discriminate Heq;
    apply (inj Some) in Heq; rewrite <- Heq; rewrite <- ?app_assoc;
    apply ChatJsFacts.literal_app_nonempty; js_differ.
Qed.

(** The script-injection proxy's generator fails in one case only: the
    question asks for totals, the request says it has data, and the first
    row of the context is [null].  Otherwise it returns a non-empty text
    that quotes the whole question, whatever its length, and that states
    the [rowCount] parameter whenever the request says it has data. *)
Theorem jsonp_fallback_contract (question : jsstring) (ctx : json)
    (hasData : bool) (rowCount : Num) :
  (generateSmartFallback question ctx hasData rowCount = None <->
   asksTotals (toLowerCase question) = true
   /\ firstRow hasData ctx = Some JNull)
  /\ forall a, generateSmartFallback question ctx hasData rowCount = Some a ->
       a <> []
       /\ Contains question a
       /\ (hasData = true -> Contains (numToString rowCount) a).
Proof.
  unfold generateSmartFallback, asksTotals.
  destruct (includes _ (js "total") || includes _ (js "soma")
            || includes _ (js "sum")) eqn:Htot.
  - destruct (firstRow hasData ctx) as [row|] eqn:Hrow.
    + destruct (Object_keys row) as [keys|] eqn:Hkeys.
      * split.
        { split; [done|]. intros [_ [= ->]]. done. }
        intros a Heq. apply (inj Some) in Heq. rewrite <- Heq.
        split_and!; [ apply ChatJsFacts.literal_app_nonempty; js_differ
                    | contains | intros ->; contains ].
      * apply Object_keys_None in Hkeys as ->. split; [done|]. by intros a.
    + split.
      { split; [done|]. by intros [_ ?]. }
      intros a Heq. apply (inj Some) in Heq. rewrite <- Heq.
      split_and!; [ apply ChatJsFacts.literal_app_nonempty; js_differ
                  | contains | intros ->; contains ].
  - split.
    { split; [|by intros [? _]]. repeat case_match; done. }
    intros a. repeat case_match; intros Heq; apply (inj Some) in Heq;
      rewrite <- Heq;
      (split_and!; [ apply ChatJsFacts.literal_app_nonempty; js_differ
                   | contains | try (intros ?; simplify_eq); contains ]).
Qed.

Definition jsonpTotalsTitle : jsstring := js "📊 **ANÁLISE DE TOTAIS via JSONP**".
Definition jsonpDoctorsTitle : jsstring := js "👨‍⚕️ **ANÁLISE MÉDICOS via JSONP**".
Definition jsonpSalesTitle : jsstring := js "💰 **ANÁLISE DE VENDAS via JSONP**".
Definition jsonpGeneralTitle : jsstring := js "🔄 **JSONP CONECTADO COM SUCESSO!**".

(** Which reply the script-injection proxy's generator picks: totals
    first; then the doctors reply, which 'quantidade' also selects and which
    wins over sales; then sales; else the generic reply. *)
Theorem jsonp_title_priority (question : jsstring) (ctx : json)
    (hasData : bool) (rowCount : Num) (a : jsstring) :
  generateSmartFallback question ctx hasData rowCount = Some a ->
  let q := toLowerCase question in
  (asksTotals q = true -> startsWith jsonpTotalsTitle a = true)
  /\ (asksTotals q = false -> asksDoctors q = true ->
      startsWith jsonpDoctorsTitle a = true)
  /\ (asksTotals q = false -> asksDoctors q = false -> asksSales q = true ->
      startsWith jsonpSalesTitle a = true)
  /\ (asksTotals q = false -> asksDoctors q = false -> asksSales q = false ->
      startsWith jsonpGeneralTitle a = true).
Proof.
  unfold generateSmartFallback, asksTotals, asksDoctors, asksSales.
  cbv zeta. intros Ha. set (q := toLowerCase question) in *.
  destruct (includes q (js "total") || includes q (js "soma")
            || includes q (js "sum"));
    [|destruct (includes q (js "médico") || includes q (js "doctor")
                || includes q (js "quantidade"));
      [|destruct (includes q (js "vendas") || includes q (js "receita")
                  || includes q (js "sales"))]];
    (split_and!; intros; try discriminate;
     revert Ha; repeat case_match; intros Heq;
     first [ discriminate Heq
           | apply (inj Some) in Heq; rewrite <- Heq;
             rewrite <- ?app_assoc; apply startsWith_app ]).
Qed.

Lemma quick_message_quotes_question question (ctx : json) m :
  prepareQuickMessage question ctx = Some m -> Contains question m.
Proof.
  unfold prepareQuickMessage. repeat case_match; intros Heq;
    first [ discriminate Heq
          | apply (inj Some) in Heq; rewrite <- Heq; contains ].
Qed.

Lemma forwarded_handler event up :
  forwarded (handler event up)
  = posted (sendToCopilotFast up (question (intake event))
                              (contextData (intake event))).
Proof.
  unfold handler. destruct (attempt event up); [done|].
  by destruct (generateSmartFallback _ _ _ _).
Qed.

(** The script-injection proxy does not shorten the question: whatever it
    forwards to the backend quotes the [question] parameter in full. *)
Theorem jsonp_forwards_whole_question (event : Event) (up : Upstream)
    (params : Params) (q m : jsstring) :
  queryStringParameters event = Some params ->
  Netlify.question params = Some q ->
  q <> [] ->
  forwarded (handler event up) = Some m ->
  Contains q m.
Proof.
  intros Hp Hq Hne. rewrite forwarded_handler. unfold sendToCopilotFast.
  intros [Hm _]%ChatJsFacts.directLine_posted.
  apply quick_message_quotes_question in Hm.
  unfold intake in Hm. cbn [question] in Hm. rewrite Hp in Hm.
  cbn [default from_option id] in Hm. rewrite Hq in Hm.
  by destruct q.
Qed.


End Facts.

#[local] Existing Instance Reference.engine.

Definition sampleRows : Json.json Num := Reference.twoRows.

Lemma jsonp_title_priority_witness :
  (exists a,
     generateSmartFallback (js "Vendas por médico") sampleRows true (Some 12%Z)
     = Some a
     /\ startsWith jsonpDoctorsTitle a = true)
  /\ asksTotals (toLowerCase (js "Vendas por médico")) = false
  /\ asksDoctors (toLowerCase (js "Vendas por médico")) = true
  /\ asksSales (toLowerCase (js "Vendas por médico")) = true.
Proof.
  assert (asksTotals (toLowerCase (js "Vendas por médico")) = false) as H1
    by (vm_compute; reflexivity).
  assert (asksDoctors (toLowerCase (js "Vendas por médico")) = true) as H2
    by (vm_compute; reflexivity).
  split_and!; [|exact H1|exact H2|vm_compute; reflexivity].
  destruct (generateSmartFallback (js "Vendas por médico") sampleRows true
              (Some 12%Z)) as [a|] eqn:Ha; [|vm_compute in Ha; discriminate Ha].
  exists a. split; [reflexivity|].
  exact (proj1 (proj2 (jsonp_title_priority _ _ _ _ _ Ha)) H1 H2).
Defined.

Definition longQuestion : jsstring := replicate 600 97%N.

Lemma jsonp_forwards_whole_question_witness :
  longQuestion <> []
  /\ exists m,
       forwarded (handler (Reference.ask longQuestion None) Reference.silentBot)
       = Some m
       /\ Contains longQuestion m.
Proof.
  assert (longQuestion <> []) as Hne by js_differ.
  split; [exact Hne|].
  destruct (forwarded (handler (Reference.ask longQuestion None)
                         Reference.silentBot)) as [m|] eqn:Hm;
    [|vm_compute in Hm; discriminate Hm].
  exists m. split; [reflexivity|].
  exact (jsonp_forwards_whole_question (Reference.ask longQuestion None)
           Reference.silentBot _ longQuestion m eq_refl eq_refl Hne Hm).
Defined.

End ChatJsonpFacts.

(** ** Properties of the hidden-frame proxy (netlify/functions/chat-iframe.js) *)

Module ChatIframeFacts.

Import Netlify ChatIframe.

Ltac js_differ := let H := fresh in intros H; vm_compute in H; congruence.

Section Facts.

Context {engine : Netlify.Engine}.

Abbreviation json := (Json.json Num).

Definition asksDoctors (q : jsstring) : bool :=
  includes q (js "quantidade") || includes q (js "médico").




End Facts.

End ChatIframeFacts.

(** ** Properties of the server-push proxy (netlify/functions/chat-sse.js) *)

Module ChatSseFacts.

Import Netlify ChatSse.

Ltac js_differ := let H := fresh in intros H; vm_compute in H; congruence.

Section Facts.

Context {engine : Netlify.Engine}.

Abbreviation json := (Json.json Num).

Definition asksTotals (q : jsstring) : bool :=
  includes q (js "total") || includes q (js "soma").

Definition asksQuantities (q : jsstring) : bool :=
  includes q (js "quantidade") || includes q (js "qtd").

(** The server-push proxy's generator never fails and never returns the
    empty text; with rows in the context it states their number; it picks
    the totals reply first, then the quantities reply, else the generic
    reply, which quotes the question. *)
Theorem sse_fallback_contract (question : jsstring) (ctx : json) :
  let a := generateFallbackResponse question ctx in
  let q := toLowerCase question in
  a <> []
  /\ (forall items, rows ctx = Some items -> Contains (decimal (length items)) a)
  /\ (asksTotals q = true ->
      startsWith (js "📊 ANÁLISE DE TOTAIS (via SSE): ") a = true)
  /\ (asksTotals q = false -> asksQuantities q = true ->
      startsWith (js "🔢 ANÁLISE DE QUANTIDADES (via SSE): ") a = true)
  /\ (asksTotals q = false -> asksQuantities q = false ->
      startsWith (js "✅ Conectado via SSE! Pergunta: ") a = true
      /\ Contains question a).
Proof.
  unfold generateFallbackResponse, asksTotals, asksQuantities. cbv zeta.
  set (q := toLowerCase question).
  destruct (includes q (js "total") || includes q (js "soma"));
    [|destruct (includes q (js "quantidade") || includes q (js "qtd"))];
    (split_and!;
     [ apply ChatJsFacts.literal_app_nonempty; js_differ
     | intros items ->;
       rewrite bool_decide_eq_true_2 by (by eexists); cbn [default from_option id];
       contains
     | intros; try discriminate; try apply startsWith_app .. ]).
  split; [rewrite <- ?app_assoc; apply startsWith_app|contains].
Qed.


End Facts.

End ChatSseFacts.

(** ** Properties of the image-beacon proxy (netlify/functions/chat-pixel.js) *)

Module ChatPixelFacts.

Import Netlify ChatPixel.

Ltac js_differ := let H := fresh in intros H; vm_compute in H; congruence.

Section Facts.

Context {engine : Netlify.Engine}.

Abbreviation json := (Json.json Num).

Definition asksDoctors (q : jsstring) : bool :=
  includes q (js "médico") || includes q (js "doctor").

Definition asksSales (q : jsstring) : bool :=
  includes q (js "vendas") || includes q (js "receita").

(** The image-beacon proxy's generator never fails and never returns the
    empty text; with rows in the context it states their number; it picks
    the doctors reply first, so before sales, then the sales reply, else the
    generic reply, which quotes the question. *)
Theorem pixel_fallback_contract (question : jsstring) (ctx : json) :
  let a := generateFallbackResponse question ctx in
  let q := toLowerCase question in
  a <> []
  /\ (forall items, rows ctx = Some items -> Contains (decimal (length items)) a)
  /\ (asksDoctors q = true ->
      startsWith (js "👨‍⚕️ ANÁLISE MÉDICOS (via Pixel): ") a = true)
  /\ (asksDoctors q = false -> asksSales q = true ->
      startsWith (js "💰 ANÁLISE VENDAS (via Pixel): ") a = true)
  /\ (asksDoctors q = false -> asksSales q = false ->
      startsWith (js "🖼️ Conectado via Pixel Tracking! Pergunta: ") a = true
      /\ Contains question a).
Proof.
  unfold generateFallbackResponse, asksDoctors, asksSales. cbv zeta.
  set (q := toLowerCase question).
  destruct (includes q (js "médico") || includes q (js "doctor"));
    [|destruct (includes q (js "vendas") || includes q (js "receita"))];
    (split_and!;
     [ apply ChatJsFacts.literal_app_nonempty; js_differ
     | intros items ->;
       rewrite bool_decide_eq_true_2 by (by eexists); cbn [default from_option id];
       contains
     | intros; try discriminate; try apply startsWith_app .. ]).
  split; [rewrite <- ?app_assoc; apply startsWith_app|contains].
Qed.


End Facts.

End ChatPixelFacts.

(** ** Properties of the Direct Line exchange *)

Module ExchangeFacts.

Import Netlify.

Section Facts.

Context {engine : Netlify.Engine}.

Lemma botMessages_elem v activities a :
  a ∈ botMessages v activities ->
  a ∈ activities /\ type a = js "message" /\ from_id a <> userId v.
Proof.
  unfold botMessages. intros [[? ?] ?]%list_elem_of_filter. done.
Qed.

Lemma poll_returned v up remaining k t t' txt :
  poll v up remaining k t = (t', Returned txt) ->
  exists j status activities a,
    k <= j < k + remaining
    /\ (withTimeout (pollTimeout v) (getActivities up j)).2
       = Replied true status (Some activities)
    /\ last (botMessages v activities) = Some a
    /\ text a = txt.
Proof.
  revert k t. induction remaining as [|r IH]; intros k t; cbn [poll]; [done|].
  destruct (withTimeout (pollTimeout v) (getActivities up k)) as [latency res] eqn:Hk.
  assert (forall t0, poll v up r (S k) t0 = (t', Returned txt) ->
          exists j status activities a,
            k <= j < k + S r
            /\ (withTimeout (pollTimeout v) (getActivities up j)).2
               = Replied true status (Some activities)
            /\ last (botMessages v activities) = Some a
            /\ text a = txt) as Hnext.
  { intros t0 (j & status & acts & a & Hj & ?)%IH.
    exists j, status, acts, a. split; [lia|done]. }
  destruct res as [message|[] status [activities|]].
  - destruct (catchesPollErrors v); [apply Hnext|done].
  - destruct (last (botMessages v activities)) as [a|] eqn:Hlast; [|apply Hnext].
    intros [= _ <-]. exists k, status, activities, a.
    rewrite Hk. split_and!; try done; lia.
  - destruct (catchesPollErrors v); [apply Hnext|done].
  - apply Hnext.
  - apply Hnext.
Qed.

(** What an exchange returns is the text of a message from the polled
    activities that is of type 'message' and not from the proxy's own user
    id, found within the budget of polls: the proxy never hands the user's
    own message back as the answer, and returns only after it has posted
    the message. *)
Theorem exchange_answer_is_a_bot_message (v : Variant) (up : Upstream)
    (message : option jsstring) (txt : option jsstring) :
  outcome (directLine v up message) = Returned txt ->
  exists j status activities a,
    1 <= j <= attempts v
    /\ (withTimeout (pollTimeout v) (getActivities up j)).2
       = Replied true status (Some activities)
    /\ a ∈ activities
    /\ type a = js "message"
    /\ from_id a <> userId v
    /\ text a = txt
    /\ posted (directLine v up message) = message
    /\ is_Some message.
Proof.
  unfold directLine. destruct (COPILOT_SECRET up) as [[|c s]|]; try done.
  destruct (withTimeout (convTimeout v) (conversations up)) as [t1 r1].
  destruct r1 as [|[] status [|]]; try done.
  destruct message as [body|]; [|done].
  destruct (withTimeout (postTimeout v) (postActivity up)) as [t2 r2].
  destruct r2 as [|ok st parsed]; [done|].
  destruct (poll v up (attempts v) 1 (t1 + t2)) as [t3 o] eqn:Hpoll.
  cbn [outcome posted]. intros ->.
  apply poll_returned in Hpoll as (j & status' & acts & a & Hj & Hres & Hlast & Ht).
  apply last_Some_elem_of, botMessages_elem in Hlast as (? & ? & ?).
  exists j, status', acts, a. split_and!; try done; lia.
Qed.

End Facts.

#[local] Existing Instance Reference.engine.

(** The user's message is echoed among the activities before the bot's. *)
Definition echoingBot : Upstream :=
  {| COPILOT_SECRET := Some (js "s3cr3t");
     conversations := (100%N, Replied true (Some 200%Z) (Some tt));
     postActivity := (100%N, Replied true (Some 200%Z) (Some tt));
     getActivities := fun k =>
       (100%N,
        Replied true (Some 200%Z)
          (Some ({| type := js "message"; from_id := js "PowerBI_SSE_User";
                    text := Some (js "quanto vendemos?") |}
                 :: match k with
                    | 1 => []
                    | _ => [ {| type := js "message"; from_id := js "bot";
                                text := Some (js "42") |} ]
                    end))) |}.

Lemma exchange_answer_is_a_bot_message_witness :
  outcome (directLine ChatSse.variant echoingBot (Some (js "quanto vendemos?")))
  = Returned (Some (js "42"))
  /\ exists j status activities a,
       1 <= j <= attempts ChatSse.variant
       /\ (withTimeout (pollTimeout ChatSse.variant)
             (getActivities echoingBot j)).2
          = Replied true status (Some activities)
       /\ a ∈ activities
       /\ type a = js "message"
       /\ from_id a <> userId ChatSse.variant
       /\ text a = Some (js "42")
       /\ posted (directLine ChatSse.variant echoingBot
                    (Some (js "quanto vendemos?")))
          = Some (js "quanto vendemos?")
       /\ is_Some (Some (js "quanto vendemos?")).
Proof.
  assert (outcome (directLine ChatSse.variant echoingBot
                     (Some (js "quanto vendemos?")))
          = Returned (Some (js "42"))) as Hout by (vm_compute; reflexivity).
  split; [exact Hout|].
  exact (exchange_answer_is_a_bot_message ChatSse.variant echoingBot
           (Some (js "quanto vendemos?")) (Some (js "42")) Hout).
Defined.

End ExchangeFacts.

(** ** Further properties of the widget (src/visual.ts) *)

Module WidgetFacts.

Import VisualTs.

Section Facts.

Variable PrimitiveValue : Type.

#[local] Arguments sendViaJSONP {PrimitiveValue}.
#[local] Arguments sendViaIframe {PrimitiveValue}.
#[local] Arguments sendViaSSE {PrimitiveValue}.
#[local] Arguments sendViaPixel {PrimitiveValue}.
#[local] Arguments clock {PrimitiveValue}.
#[local] Arguments timers {PrimitiveValue}.
#[local] Arguments baseUrl {PrimitiveValue}.
#[local] Arguments dataContext {PrimitiveValue}.
#[local] Arguments communicationMethods {PrimitiveValue}.
#[local] Arguments lastUsedMethod {PrimitiveValue}.
#[local] Arguments methodStatus {PrimitiveValue}.
#[local] Arguments name {PrimitiveValue}.
#[local] Arguments func {PrimitiveValue}.
#[local] Arguments priority {PrimitiveValue}.
#[local] Arguments enabled {PrimitiveValue}.
#[local] Arguments setEnabled {PrimitiveValue}.
#[local] Arguments advance {PrimitiveValue}.
#[local] Arguments fireDue {PrimitiveValue}.
#[local] Arguments cooled {PrimitiveValue}.
#[local] Arguments updateMethodStatus {PrimitiveValue}.
#[local] Arguments enabledMethods {PrimitiveValue}.
#[local] Arguments sortByPriority {PrimitiveValue}.
#[local] Arguments insertByPriority {PrimitiveValue}.
#[local] Arguments byPriority {PrimitiveValue}.
#[local] Arguments tryMethods {PrimitiveValue}.
#[local] Arguments sendMessageWithFallback {PrimitiveValue}.
#[local] Arguments step {PrimitiveValue}.
#[local] Arguments run {PrimitiveValue}.
#[local] Arguments update {PrimitiveValue}.
#[local] Arguments withMethods {PrimitiveValue}.
#[local] Arguments withTimers {PrimitiveValue}.
#[local] Arguments withClock {PrimitiveValue}.
#[local] Arguments withLastUsed {PrimitiveValue}.
#[local] Arguments withStatus {PrimitiveValue}.
#[local] Arguments withData {PrimitiveValue}.

Abbreviation Visual := (VisualTs.Visual PrimitiveValue).
Abbreviation DataContext := (VisualTs.DataContext PrimitiveValue).
Abbreviation CommunicationMethod := (VisualTs.CommunicationMethod PrimitiveValue).
Abbreviation Op := (VisualTs.Op PrimitiveValue).

(** *** The adapters' own timers and the 16 s race *)

(** The script, frame and stream adapters settle by their own 15 s timer at
    the latest when they settle at all, and then the controller's 16 s race
    changes neither their outcome nor their time.  The stream and beacon
    adapters always settle.  The script adapter never settles in one case
    only, a callback within 15 s with [null] or [undefined] (the timer is
    cleared before the payload is read); only then does its attempt end by
    the race, at 16 s, with the race's message. *)
Theorem adapters_settle_before_the_race (question : jsstring)
    (context : DataContext) (url : jsstring) (net : Network) :
  Forall (fun send =>
            match send question context url net with
            | Some p => (p.1 <= 15000)%N /\ raceTimeout (Some p) = p
            | None =>
              raceTimeout (send question context url net)
              = (16000%N, Rejected (js "Timeout geral"))
            end)
         [sendViaJSONP; sendViaIframe; sendViaSSE]
  /\ is_Some (sendViaSSE question context url net)
  /\ is_Some (sendViaPixel question context url net)
  /\ (sendViaJSONP question context url net = None <->
      exists t, jsonpWire net = Some (t, ScriptCallback None) /\ (t < 15000)%N).
Proof.
  assert (forall p : N * Settled, (p.1 <= 15000)%N ->
            (p.1 <= 15000)%N /\ raceTimeout (Some p) = p) as Hrace.
  { intros [t settled] Hp. split; [done|]. unfold raceTimeout.
    cbn [fst] in Hp. destruct (N.ltb_spec t 16000); [done|lia]. }
  split_and!.
  - repeat apply Forall_cons_2; [| | |apply Forall_nil_2].
    + unfold sendViaJSONP. destruct (jsonpWire net) as [[t ev]|];
        [|by apply Hrace].
      destruct (N.ltb_spec t 15000); [|by apply Hrace].
      destruct ev as [[data|]|]; [destruct (truthy (error data))| |];
        try done; apply Hrace; simpl; lia.
    + unfold sendViaIframe.
      destruct (firstFrameEvent _ _) as [[t ev]|]; [|by apply Hrace].
      destruct (N.ltb_spec t 15000); [|by apply Hrace].
      destruct ev as [origin [data|]|]; [destruct (truthy (error data))| |];
        try done; apply Hrace; simpl; lia.
    + unfold sendViaSSE. destruct (sseWire net) as [[t ev]|]; [|by apply Hrace].
      destruct (N.ltb_spec t 15000); [|by apply Hrace].
      destruct ev as [[data|]|]; [destruct (truthy (error data))| |];
        apply Hrace; simpl; lia.
  - unfold sendViaSSE. repeat case_match; by eexists.
  - unfold sendViaPixel. eexists. reflexivity.
  - unfold sendViaJSONP. destruct (jsonpWire net) as [[t ev]|].
    + destruct (N.ltb_spec t 15000).
      * destruct ev as [[data|]|]; [destruct (truthy (error data))| |];
          (split; [intros Hnone; try discriminate Hnone
                  |intros (t' & Heq & _); try discriminate Heq;
                   try (injection Heq as _ Heq; discriminate Heq)]).
        all: try by exists t.
        all: done.
      * split; [done|]. intros (t' & [= <- _] & Hlt). lia.
    + split; [done|]. by intros (t' & Heq & _).
Qed.

(** A poll that does not end the polling: the request failed, nothing was
    found, or what was found carries no data. *)
Definition unanswered (r : PollReply) : bool :=
  match r with
  | PollJson true (Some _) => false
  | _ => true
  end.

Definition settle (data : Reply) : Settled :=
  if truthy (error data)
  then Rejected (orElse (answer data) (js "Erro pixel"))
  else Resolved (orElse (answer data) (js "Resposta pixel recebida")).

Lemma checkResponse_cases polls remaining k t :
  (exists j data,
     k <= j < k + remaining
     /\ (polls j).2 = PollJson true (Some data)
     /\ (forall i, k <= i < j -> unanswered (polls i).2 = true)
     /\ (t + 1000 * N.of_nat (j - k) <= (checkResponse polls remaining k t).1)%N
     /\ (checkResponse polls remaining k t).2 = settle data)
  \/ ((forall i, k <= i < k + remaining -> unanswered (polls i).2 = true)
      /\ (t + 1000 * N.of_nat remaining <= (checkResponse polls remaining k t).1)%N
      /\ (checkResponse polls remaining k t).2
         = Rejected (js "Pixel timeout após 15 segundos")).
Proof.
  revert k t. induction remaining as [|r IH]; intros k t.
  - right. cbn [checkResponse]. split_and!; [lia| simpl; lia |done].
  - cbn [checkResponse]. destruct (polls k) as [latency reply] eqn:Hk.
    assert (unanswered reply = true ->
            forall i, k <= i < S k -> unanswered (polls i).2 = true) as Hhere.
    { intros Hun i Hi. assert (i = k) as -> by lia. by rewrite Hk. }
    assert (unanswered reply = true ->
      (exists j data,
         k <= j < k + S r
         /\ (polls j).2 = PollJson true (Some data)
         /\ (forall i, k <= i < j -> unanswered (polls i).2 = true)
         /\ (t + 1000 * N.of_nat (j - k)
             <= (checkResponse polls r (S k) (t + latency + 1000)).1)%N
         /\ (checkResponse polls r (S k) (t + latency + 1000)).2 = settle data)
      \/ ((forall i, k <= i < k + S r -> unanswered (polls i).2 = true)
          /\ (t + 1000 * N.of_nat (S r)
              <= (checkResponse polls r (S k) (t + latency + 1000)).1)%N
          /\ (checkResponse polls r (S k) (t + latency + 1000)).2
             = Rejected (js "Pixel timeout após 15 segundos"))) as Hnext.
    { intros Hun. destruct (IH (S k) (t + latency + 1000)%N)
        as [(j & data & Hj & Hat & Hbefore & Htime & Hres)|(Hall & Htime & Hres)].
      - left. exists j, data. split_and!; try done; try lia.
        intros i Hi. destruct (decide (i = k)) as [->|]; [by rewrite Hk|].
        apply Hbefore. lia.
      - right. split_and!; try done; try lia.
        intros i Hi. destruct (decide (i = k)) as [->|]; [by rewrite Hk|].
        apply Hall. lia. }
    destruct reply as [|[] [data|]]; try (apply Hnext; reflexivity).
    left. exists k, data. rewrite Hk. unfold settle.
    destruct (truthy (error data)); cbn [fst snd]; rewrite Nat.sub_diag;
      (split_and!; [lia|lia|done|lia|lia|done]).
Qed.

(** The beacon adapter polls at 2 s, then one second after each poll that
    brought nothing.  Under the controller's 16 s race, an outcome other
    than the race's own message is the one of the first poll that found
    data, and that poll is the 14th at the latest. *)
Theorem pixel_answer_within_14_polls (question : jsstring)
    (context : DataContext) (url : jsstring) (net : Network)
    (t : N) (s : Settled) :
  raceTimeout (sendViaPixel question context url net) = (t, s) ->
  (t < 16000)%N ->
  exists j data,
    1 <= j <= 14
    /\ (pixelWire net j).2 = PollJson true (Some data)
    /\ (forall i, 1 <= i < j -> unanswered (pixelWire net i).2 = true)
    /\ (2000 + 1000 * N.of_nat (j - 1) <= t)%N
    /\ s = settle data.
Proof.
  unfold sendViaPixel.
  pose proof (checkResponse_cases (pixelWire net) 15 1 2000%N) as Hcases.
  destruct (checkResponse (pixelWire net) 15 1 2000) as [t0 s0].
  unfold raceTimeout. cbn [fst snd] in Hcases.
  destruct (N.ltb_spec t0 16000) as [Hlt|Hge]; [|intros [= <- _]; lia].
  intros [= <- <-] _.
  destruct Hcases as [(j & data & Hj & Hat & Hbefore & Htime & Hres)
                     |(_ & Htime & _)]; [|lia].
  exists j, data. split_and!; try done; lia.
Qed.

(** When none of the 15 polls finds data, the adapter's own rejection
    ('Pixel timeout') comes at 17 s or later, so the controller never sees
    it: the attempt fails at 16 s with the race's message. *)
Theorem silent_pixel_fails_by_the_race (question : jsstring)
    (context : DataContext) (url : jsstring) (net : Network) :
  (forall i, 1 <= i <= 15 -> unanswered (pixelWire net i).2 = true) ->
  (exists t,
     sendViaPixel question context url net
     = Some (t, Rejected (js "Pixel timeout após 15 segundos"))
     /\ (17000 <= t)%N)
  /\ raceTimeout (sendViaPixel question context url net)
     = (16000%N, Rejected (js "Timeout geral")).
Proof.
  intros Hsilent. unfold sendViaPixel.
  pose proof (checkResponse_cases (pixelWire net) 15 1 2000%N) as Hcases.
  destruct (checkResponse (pixelWire net) 15 1 2000) as [t0 s0].
  cbn [fst snd] in Hcases.
  destruct Hcases as [(j & data & Hj & Hat & _)|(_ & Htime & ->)].
  - specialize (Hsilent j ltac:(lia)). rewrite Hat in Hsilent. done.
  - split; [exists t0; split; [done|lia]|]. unfold raceTimeout.
    destruct (N.ltb_spec t0 16000); [lia|done].
Qed.

(** *** The origin filter of the frame adapter *)

(** A frame message counts exactly when its origin contains the backend
    host (the base URL less 'https://') as a substring: messages from
    origins that do not contain it are skipped whatever they carry, and a
    message whose origin merely contains the host, at any position, is
    taken; when what it carries is [null] or [undefined] the adapter never
    settles. *)
Theorem iframe_origin_filter (question : jsstring) (context : DataContext)
    (url : jsstring) (net later : Network)
    (skipped : list (N * FrameEvent)) (t : N) (origin : jsstring)
    (data : option Reply) :
  let host := replace url (js "https://") [] in
  Forall (fun e => match e.2 with
                   | FrameMessage o _ => includes o host = false
                   | FrameLoadError => False
                   end) skipped ->
  (iframeWire net = skipped ++ iframeWire later ->
   sendViaIframe question context url net
   = sendViaIframe question context url later)
  /\ (iframeWire net = skipped ++ (t, FrameMessage origin data) :: iframeWire later ->
      includes origin host = true ->
      (t < 15000)%N ->
      sendViaIframe question context url net
      = match data with
        | Some reply =>
          Some (t, if truthy (error reply) then Rejected (errorText (error reply))
                   else Resolved (orElse (answer reply)
                                         (js "Resposta iframe recebida")))
        | None => None
        end).
Proof.
  intros host Hskip.
  assert (forall rest, firstFrameEvent host (skipped ++ rest)
                       = firstFrameEvent host rest) as Hfirst.
  { intros rest. induction Hskip as [|[t0 [o d|]] l Hx _ IH]; [done| |done].
    simpl in Hx. cbn [app firstFrameEvent]. by rewrite Hx. }
  split.
  - intros Hwire. unfold sendViaIframe. fold host. by rewrite Hwire, Hfirst.
  - intros Hwire Hin Ht. unfold sendViaIframe. fold host.
    rewrite Hwire, Hfirst. cbn [firstFrameEvent]. rewrite Hin.
    apply N.ltb_lt in Ht. rewrite Ht. destruct data as [reply|]; [|done].
    by destruct (truthy (error reply)).
Qed.

(** *** The controller *)

Lemma updateMethodStatus_nonempty (status : jsstring) (v : Visual) :
  status <> [] ->
  updateMethodStatus status v = withStatus (status, (methodStatus v).2) v.
Proof. by destruct status. Qed.

Lemma trying_nonempty (n : jsstring) : js "Tentando " ++ n ++ js "..." <> [].
Proof.
  apply ChatJsFacts.literal_app_nonempty. intros H. vm_compute in H. congruence.
Qed.

Lemma connected_nonempty (n : jsstring) : js "✅ Conectado via " ++ n <> [].
Proof.
  apply ChatJsFacts.literal_app_nonempty. intros H. vm_compute in H. congruence.
Qed.

Lemma all_failed_nonempty : js "❌ Todos os métodos falharam" <> [].
Proof. intros H. vm_compute in H. congruence. Qed.

Lemma advance_frame dt (v : Visual) :
  clock (advance dt v) = (clock v + dt)%N
  /\ lastUsedMethod (advance dt v) = lastUsedMethod v
  /\ methodStatus (advance dt v) = methodStatus v
  /\ dataContext (advance dt v) = dataContext v
  /\ baseUrl (advance dt v) = baseUrl v.
Proof. done. Qed.

Lemma raceTimeout_le p : ((raceTimeout p).1 <= 16000)%N.
Proof.
  unfold raceTimeout. destruct p as [[t settled]|]; [|simpl; lia].
  destruct (N.ltb_spec t 16000); simpl; lia.
Qed.

(** The attempts of one call run back to back from [t] to [t'], each
    taking 16 s at most. *)
Fixpoint backToBack (t : N) (tr : list Attempt) (t' : N) : Prop :=
  match tr with
  | [] => t' = t
  | a :: rest =>
    startedAt a = t
    /\ (t <= settledAt a <= t + 16000)%N
    /\ backToBack (settledAt a) rest t'
  end.

Lemma backToBack_bound t tr t' :
  backToBack t tr t' -> (t <= t' <= t + 16000 * N.of_nat (length tr))%N.
Proof.
  revert t. induction tr as [|a rest IH]; intros t; simpl.
  - intros ->. lia.
  - intros (_ & Ha & Hrest). apply IH in Hrest. lia.
Qed.

Lemma tryMethods_timing w question refs lastError (v : Visual) :
  let '(res, tr, v') := tryMethods w question refs lastError v in
  backToBack (clock v) tr (clock v') /\ length tr <= length refs.
Proof.
  revert lastError v. induction refs as [|[i m] rest IH]; intros lastError v.
  - cbn [tryMethods]. rewrite updateMethodStatus_nonempty by apply all_failed_nonempty.
    split; [done|]. simpl. lia.
  - cbn [tryMethods].
    rewrite (updateMethodStatus_nonempty (js "Tentando " ++ _)) by apply trying_nonempty.
    cbn [dataContext baseUrl clock withStatus].
    match goal with |- context [raceTimeout ?p] =>
      pose proof (raceTimeout_le p) as Hle; destruct (raceTimeout p) as [dt r] end.
    simpl in Hle. destruct r as [value|message].
    + rewrite updateMethodStatus_nonempty by apply connected_nonempty.
      cbn. split_and!; try done; lia.
    + match goal with |- context [tryMethods w question rest ?e ?v3] =>
        specialize (IH e v3); destruct (tryMethods w question rest e v3)
          as [[res tr] v'] end.
      destruct IH as [Hchain Hlen]. cbn in Hchain |- *.
      split_and!; try done; lia.
Qed.

(** A call to the fallback controller tries at most as many methods as the
    widget has, one after the other without pause, and each attempt ends
    within 16 s of its start; so the call returns within 16 s times the
    number of methods it tried. *)
Theorem call_takes_16s_per_method (w : World) (question : jsstring) (v : Visual) :
  let '(res, tr, v') := sendMessageWithFallback w question v in
  backToBack (clock v) tr (clock v')
  /\ length tr <= length (communicationMethods v)
  /\ (clock v <= clock v' <= clock v + 16000 * N.of_nat (length tr))%N.
Proof.
  unfold sendMessageWithFallback.
  pose proof (tryMethods_timing w question (enabledMethods v) None v) as H.
  destruct (tryMethods w question (enabledMethods v) None v) as [[res tr] v'].
  destruct H as [Hchain Hlen].
  split; [done|]. split; [|by apply backToBack_bound].
  etransitivity; [exact Hlen|]. unfold enabledMethods.
  rewrite (Permutation_length (sortByPriority_perm _ _)).
  etransitivity; [apply length_filter|]. by rewrite length_imap.
Qed.

Lemma tryMethods_record w question refs lastError (v : Visual) :
  let '(res, tr, v') := tryMethods w question refs lastError v in
  (methodStatus v').2 = (methodStatus v).2
  /\ match res with
     | Resolved value =>
       exists a m,
         last tr = Some a
         /\ outcome a = Resolved value
         /\ (tried a, m) ∈ refs
         /\ lastUsedMethod v' = name m
         /\ (methodStatus v').1 = js "✅ Conectado via " ++ name m
     | Rejected _ =>
       lastUsedMethod v' = lastUsedMethod v
       /\ (methodStatus v').1 = js "❌ Todos os métodos falharam"
     end.
Proof.
  revert lastError v. induction refs as [|[i m] rest IH]; intros lastError v.
  - cbn [tryMethods]. rewrite updateMethodStatus_nonempty by apply all_failed_nonempty.
    done.
  - cbn [tryMethods].
    rewrite (updateMethodStatus_nonempty (js "Tentando " ++ _)) by apply trying_nonempty.
    cbn [dataContext baseUrl clock withStatus].
    destruct (raceTimeout _) as [dt r]. destruct r as [value|message].
    + rewrite updateMethodStatus_nonempty by apply connected_nonempty.
      split; [done|]. eexists _, m. split_and!; try done. cbn. left.
    + match goal with |- context [tryMethods w question rest ?e ?v3] =>
        specialize (IH e v3); destruct (tryMethods w question rest e v3)
          as [[res tr] v'] end.
      destruct IH as [Hclass Hres]. split; [done|].
      destruct res as [value|message'].
      * destruct Hres as (a & m' & Hlast & Hout & Hin & Hused & Htext).
        exists a, m'. split_and!; try done; [|by right].
        cbn [last]. destruct tr; [done|]. done.
      * done.
Qed.

(** When a call resolves, the last attempt is the one that resolved, the
    widget remembers that method's name and shows 'Conectado via' with it;
    when it rejects, the remembered method is the one from before and the
    status reads that all methods failed.  Either way the status element
    keeps the CSS class it had: a call never sets it. *)
Theorem call_records_the_method (w : World) (question : jsstring) (v : Visual) :
  let '(res, tr, v') := sendMessageWithFallback w question v in
  (methodStatus v').2 = (methodStatus v).2
  /\ match res with
     | Resolved value =>
       exists a m,
         last tr = Some a
         /\ outcome a = Resolved value
         /\ communicationMethods v !! tried a = Some m
         /\ enabled m = true
         /\ lastUsedMethod v' = name m
         /\ (methodStatus v').1 = js "✅ Conectado via " ++ name m
     | Rejected _ =>
       lastUsedMethod v' = lastUsedMethod v
       /\ (methodStatus v').1 = js "❌ Todos os métodos falharam"
     end.
Proof.
  unfold sendMessageWithFallback.
  pose proof (tryMethods_record w question (enabledMethods v) None v) as H.
  destruct (tryMethods w question (enabledMethods v) None v) as [[res tr] v'].
  destruct H as [Hclass Hres]. split; [done|].
  destruct res as [value|message]; [|done].
  destruct Hres as (a & m & Hlast & Hout & Hin & Hused & Htext).
  apply elem_of_enabledMethods in Hin as [Hlook Hon].
  by exists a, m.
Qed.

(** *** What never changes in the method table *)

(** The method objects are the initial ones up to their [enabled] flag. *)
Definition Intact (ms : list CommunicationMethod) : Prop :=
  map (setEnabled true) ms = initializeCommunicationMethods PrimitiveValue.

Lemma Intact_alter b i ms : Intact ms -> Intact (alter (setEnabled b) i ms).
Proof.
  unfold Intact. intros <-. apply list_eq. intros k.
  rewrite !list_lookup_fmap. destruct (decide (i = k)) as [->|Hne].
  - rewrite list_lookup_alter_eq. by destruct (ms !! k).
  - by rewrite list_lookup_alter_ne.
Qed.

Lemma Intact_fireDue (v : Visual) :
  Intact (communicationMethods v) -> Intact (communicationMethods (fireDue v)).
Proof.
  unfold fireDue. cbn [communicationMethods withTimers withMethods].
  generalize (filter (fun t : N * nat => (t.1 <= clock v)%N) (timers v)).
  intros due. revert due. generalize (communicationMethods v).
  intros ms due. revert ms. induction due as [|t due IH]; intros ms Hms; [done|].
  cbn [foldl]. apply IH. by apply Intact_alter.
Qed.

Lemma Intact_advance dt (v : Visual) :
  Intact (communicationMethods v) -> Intact (communicationMethods (advance dt v)).
Proof. intros H. unfold advance. by apply Intact_fireDue. Qed.

Lemma Intact_status status (v : Visual) :
  Intact (communicationMethods v) ->
  Intact (communicationMethods (updateMethodStatus status v)).
Proof.
  destruct (updateMethodStatus_frame PrimitiveValue status v) as (_ & _ & -> & _).
  done.
Qed.

Lemma Intact_tryMethods w question refs lastError (v : Visual) :
  Intact (communicationMethods v) ->
  Intact (communicationMethods (tryMethods w question refs lastError v).2).
Proof.
  revert lastError v. induction refs as [|[i m] rest IH]; intros lastError v Hv.
  - cbn [tryMethods snd]. by apply Intact_status.
  - cbn [tryMethods]. destruct (raceTimeout _) as [dt r].
    destruct r as [value|message].
    + cbn [snd]. apply Intact_status. cbn [communicationMethods withLastUsed].
      by apply Intact_advance, Intact_status.
    + match goal with |- context [tryMethods w question rest ?e ?v3] =>
        specialize (IH e v3); destruct (tryMethods w question rest e v3)
          as [[res tr] v'] end.
      cbn [snd] in IH |- *. apply IH. unfold cooled.
      cbn [communicationMethods withTimers withMethods].
      by apply Intact_alter, Intact_advance, Intact_status.
Qed.

Lemma Intact_step (s : Visual * list Attempt) (op : Op) :
  Intact (communicationMethods s.1) ->
  Intact (communicationMethods (step s op).1).
Proof.
  intros Hs. destruct op as [w question|secret dv|dt]; cbn [step].
  - unfold sendMessageWithFallback.
    pose proof (Intact_tryMethods w question (enabledMethods s.1) None s.1 Hs) as H.
    by destruct (tryMethods w question (enabledMethods s.1) None s.1) as [[res tr] v'].
  - cbn [fst]. unfold update. destruct dv; [|done]. by apply Intact_status.
  - by apply Intact_advance.
Qed.

Lemma Intact_run (ops : list Op) now :
  Intact (communicationMethods (run ops now).1).
Proof.
  unfold run. induction ops as [|op ops IH] using rev_ind; [done|].
  rewrite foldl_app. cbn [foldl]. by apply Intact_step.
Qed.

Lemma Intact_unsorted (v : Visual) :
  Intact (communicationMethods v) -> enabledMethods v = enabledRefs PrimitiveValue v.
Proof.
  unfold Intact, enabledMethods, enabledRefs.
  destruct (communicationMethods v) as [|[n0 f0 p0 e0] [|[n1 f1 p1 e1]
    [|[n2 f2 p2 e2] [|[n3 f3 p3 e3] [|? ?]]]]]; try done.
  intros H. apply (f_equal (map priority)) in H.
  cbn [map priority setEnabled initializeCommunicationMethods] in H.
  injection H as -> -> -> ->.
  destruct e0, e1, e2, e3; reflexivity.
Qed.

(** Whatever the widget has been through, its four method objects are the
    initial ones up to the [enabled] flag (names, adapters and priorities
    never change), and the selection for a question lists the enabled ones
    in the order of the table: JSONP, Iframe, SSE, Pixel, less the disabled
    ones.  The sort by priority never reorders anything. *)
Theorem method_table_is_fixed (ops : list Op) (now : N) :
  let v := (run ops now).1 in
  map (setEnabled true) (communicationMethods v)
  = initializeCommunicationMethods PrimitiveValue
  /\ map name (communicationMethods v)
     = [js "JSONP"; js "Iframe"; js "SSE"; js "Pixel"]
  /\ map priority (communicationMethods v) = [1; 2; 3; 4]%Z
  /\ enabledMethods v
     = filter (fun r => enabled r.2 = true) (imap pair (communicationMethods v)).
Proof.
  intros v. pose proof (Intact_run ops now) as H. fold v in H.
  split_and!.
  - exact H.
  - transitivity (map name (map (setEnabled true) (communicationMethods v)));
      [|by rewrite H].
    apply list_eq. intros k. rewrite !list_lookup_fmap.
    by destruct (communicationMethods v !! k).
  - transitivity (map priority (map (setEnabled true) (communicationMethods v)));
      [|by rewrite H].
    apply list_eq. intros k. rewrite !list_lookup_fmap.
    by destruct (communicationMethods v !! k).
  - by apply Intact_unsorted.
Qed.

End Facts.

(** The third poll finds the answer; each poll takes 200 ms. *)
Definition thirdPoll : Network :=
  {| jsonpWire := None;
     iframeWire := [];
     sseWire := None;
     pixelWire := fun k =>
       match k with
       | 3 => (200%N, PollJson true
                        (Some {| error := NoError;
                                 answer := Some (js "12 registros") |}))
       | _ => (200%N, PollJson false None)
       end |}.

Lemma pixel_answer_within_14_polls_witness :
  raceTimeout (sendViaPixel unit (js "total?") (emptyContext unit) [] thirdPoll)
  = (4600%N, Resolved (js "12 registros"))
  /\ exists j data,
       1 <= j <= 14
       /\ (pixelWire thirdPoll j).2 = PollJson true (Some data)
       /\ (forall i, 1 <= i < j -> unanswered (pixelWire thirdPoll i).2 = true)
       /\ (2000 + 1000 * N.of_nat (j - 1) <= 4600)%N
       /\ Resolved (js "12 registros") = settle data.
Proof.
  assert (raceTimeout
            (sendViaPixel unit (js "total?") (emptyContext unit) [] thirdPoll)
          = (4600%N, Resolved (js "12 registros"))) as Heq
    by (vm_compute; reflexivity).
  split; [exact Heq|].
  apply (pixel_answer_within_14_polls unit (js "total?") (emptyContext unit) []
           thirdPoll 4600 (Resolved (js "12 registros")) Heq).
  reflexivity.
Defined.

(** The bridge is reachable and never has the answer. *)
Definition nothingStored : Network :=
  {| jsonpWire := None;
     iframeWire := [];
     sseWire := None;
     pixelWire := fun _ => (0%N, PollJson false None) |}.

Lemma silent_pixel_fails_by_the_race_witness :
  (exists t,
     sendViaPixel unit (js "total?") (emptyContext unit) [] nothingStored
     = Some (t, Rejected (js "Pixel timeout após 15 segundos"))
     /\ (17000 <= t)%N)
  /\ raceTimeout (sendViaPixel unit (js "total?") (emptyContext unit) []
                    nothingStored)
     = (16000%N, Rejected (js "Timeout geral")).
Proof.
  apply (silent_pixel_fails_by_the_race unit (js "total?") (emptyContext unit) []
           nothingStored).
  intros i _. reflexivity.
Defined.

(** A stranger posts an error first; then a page whose origin only
    contains the backend host posts an answer. *)
Definition strangerFirst : list (N * FrameEvent) :=
  [ (100%N, FrameMessage (js "https://stranger.example")
              (Some {| error := ErrorText (js "boom"); answer := None |})) ].

Definition lookalike : Network :=
  {| jsonpWire := None;
     iframeWire :=
       strangerFirst
       ++ [ (300%N, FrameMessage
                      (js "https://copilotassistbi.netlify.app.stranger.example")
                      (Some {| error := NoError; answer := Some (js "42") |})) ];
     sseWire := None;
     pixelWire := fun _ => (0%N, PollFails) |}.

Lemma iframe_origin_filter_witness :
  Forall (fun e => match e.2 with
                   | FrameMessage o _ =>
                     includes o (replace (js "https://copilotassistbi.netlify.app")
                                         (js "https://") []) = false
                   | FrameLoadError => False
                   end) strangerFirst
  /\ sendViaIframe unit (js "total?") (emptyContext unit)
       (js "https://copilotassistbi.netlify.app") lookalike
     = Some (300%N, Resolved (js "42")).
Proof.
  assert (Forall (fun e => match e.2 with
                   | FrameMessage o _ =>
                     includes o (replace (js "https://copilotassistbi.netlify.app")
                                         (js "https://") []) = false
                   | FrameLoadError => False
                   end) strangerFirst) as Hskip.
  { constructor; [vm_compute; reflexivity|constructor]. }
  split; [exact Hskip|].
  refine (proj2 (iframe_origin_filter unit (js "total?") (emptyContext unit)
                   (js "https://copilotassistbi.netlify.app") lookalike
                   nothingStored strangerFirst 300
                   (js "https://copilotassistbi.netlify.app.stranger.example")
                   (Some {| error := NoError; answer := Some (js "42") |}) Hskip)
                _ _ _).
  - reflexivity.
  - vm_compute. reflexivity.
  - reflexivity.
Defined.

End WidgetFacts.

(** ** The widget and the proxies together

    What an adapter of the widget makes of the reply a proxy builds. *)

Module EndToEnd.

Import Json.

Ltac js_differ := let H := fresh in intros H; vm_compute in H; congruence.

Section Wire.

Context {engine : Netlify.Engine}.

Variable PrimitiveValue : Type.

(** [new Date(t).toISOString()], for the bridge's [storedAt]. *)
Variable toISOString : N -> list N.

Abbreviation json := (Json.json Netlify.Num).
Abbreviation object := (list (list N * Json.json Netlify.Num)).
Abbreviation Visual := (VisualTs.Visual PrimitiveValue).
Abbreviation DataContext := (VisualTs.DataContext PrimitiveValue).

(** The argument the injected script passes to the callback: the payload
    after [JSON.stringify] and evaluation. *)
Definition jsonpReply (p : ChatJsonp.Payload) : VisualTs.Reply :=
  {| VisualTs.error :=
       if ChatJsonp.error p then VisualTs.ErrorFlag true else VisualTs.NoError;
     VisualTs.answer := ChatJsonp.answer p |}.

(** [JSON.parse(event.data)] of the event the stream proxy sends. *)
Definition sseReply (p : ChatSse.Payload) : VisualTs.Reply :=
  {| VisualTs.error :=
       match ChatSse.error p with
       | Some message => VisualTs.ErrorText message
       | None => VisualTs.NoError
       end;
     VisualTs.answer := ChatSse.answer p |}.

(** The object the beacon proxy hands to [storeResponse], as
    [JSON.stringify] sends it: an absent answer or error leaves no key. *)
Definition pixelJson (timestamp : jsstring) (p : ChatPixel.Payload) : json :=
  JObj (match ChatPixel.answer p with
        | Some a => [(js "answer", JStr a)]
        | None => []
        end
        ++ [ (js "method", JStr (ChatPixel.method p));
             (js "timestamp", JStr timestamp);
             (js "success", JBool (ChatPixel.success p)) ]
        ++ match ChatPixel.error p with
           | Some message => [(js "error", JStr message)]
           | None => []
           end).

(** [data.data] of the bridge's reply as the beacon adapter reads it: the
    [error] and [answer] properties.  Values of the types the proxies never
    store are left out ([None]). *)
Definition asReply (entry : object) : option VisualTs.Reply :=
  match
    match getProp (js "error") entry with
    | None => Some VisualTs.NoError
    | Some (JStr message) => Some (VisualTs.ErrorText message)
    | Some (JBool b) => Some (VisualTs.ErrorFlag b)
    | Some _ => None
    end,
    match getProp (js "answer") entry with
    | None => Some None
    | Some (JStr a) => Some (Some a)
    | Some _ => None
    end
  with
  | Some e, Some a => Some {| VisualTs.error := e; VisualTs.answer := a |}
  | _, _ => None
  end.

(** One poll of the bridge as the beacon adapter sees it. *)
Definition pollReply (r : StorageBridge.Response Netlify.Num)
    : option VisualTs.PollReply :=
  match StorageBridge.payload Netlify.Num r with
  | StorageBridge.Found _ entry =>
    option_map (fun reply => VisualTs.PollJson true (Some reply)) (asReply entry)
  | StorageBridge.NoBody _ => Some VisualTs.PollFails
  | _ => Some (VisualTs.PollJson false None)
  end.

Lemma stream_fallback_nonempty question (ctx : json) :
  ChatSse.generateFallbackResponse question ctx <> [].
Proof.
  unfold ChatSse.generateFallbackResponse. cbv zeta.
  repeat case_match; rewrite <- ?app_assoc;
    apply ChatJsFacts.literal_app_nonempty; js_differ.
Qed.

Lemma beacon_fallback_nonempty question (ctx : json) :
  ChatPixel.generateFallbackResponse question ctx <> [].
Proof.
  unfold ChatPixel.generateFallbackResponse. cbv zeta.
  repeat case_match; rewrite <- ?app_assoc;
    apply ChatJsFacts.literal_app_nonempty; js_differ.
Qed.

Lemma orElse_Some_nonempty (a d : jsstring) : a <> [] -> orElse (Some a) d = a.
Proof. by destruct a. Qed.

(** A poll that finds data ends the polling. *)
Lemma checkResponse_found (polls : nat -> N * VisualTs.PollReply)
    (remaining k : nat) (t latency : N) (data : VisualTs.Reply) :
  polls k = (latency, VisualTs.PollJson true (Some data)) ->
  VisualTs.checkResponse polls (S remaining) k t
  = if VisualTs.truthy (VisualTs.error data)
    then ((t + latency)%N,
          VisualTs.Rejected (orElse (VisualTs.answer data) (js "Erro pixel")))
    else ((t + latency)%N,
          VisualTs.Resolved
            (orElse (VisualTs.answer data) (js "Resposta pixel recebida"))).
Proof. intros Hk. cbn [VisualTs.checkResponse]. by rewrite Hk. Qed.

Lemma script_fallback_settles (event : Netlify.Event) (up : Netlify.Upstream)
    (message : jsstring) (question : jsstring) (context : DataContext)
    (url : jsstring) (net : VisualTs.Network) (t : N) :
  ChatJsonp.attempt event up = Netlify.Threw message ->
  VisualTs.jsonpWire net
  = Some (t, VisualTs.ScriptCallback
               (Some (jsonpReply
                        (ChatJsonp.body
                           (ChatJsonp.response (ChatJsonp.handler event up)))))) ->
  (t < 15000)%N ->
  let r := ChatJsonp.intake event in
  VisualTs.sendViaJSONP PrimitiveValue question context url net
  = Some
      (t, match ChatJsonp.generateSmartFallback
                (ChatJsonp.question r) (ChatJsonp.contextData r)
                (ChatJsonp.hasData r) (ChatJsonp.rowCount r) with
        | Some text => VisualTs.Resolved text
        | None =>
          VisualTs.Rejected
            (js "⚠️ Erro JSONP: " ++ Netlify.typeErrorMessage
             ++ js ". Sistema em modo de recuperação.")
        end).
Proof.
  intros Hthrew Hwire Ht r. unfold VisualTs.sendViaJSONP. rewrite Hwire.
  apply N.ltb_lt in Ht. rewrite Ht.
  unfold ChatJsonp.handler. fold r. rewrite Hthrew.
  destruct (ChatJsonp.generateSmartFallback _ _ _ _) as [text|] eqn:Hgen.
  - apply ChatJsonpFacts.smart_fallback_nonempty in Hgen.
    cbn [ChatJsonp.response ChatJsonp.body jsonpReply ChatJsonp.error
         ChatJsonp.answer VisualTs.error VisualTs.answer VisualTs.truthy].
    by rewrite orElse_Some_nonempty.
  - cbn [ChatJsonp.response ChatJsonp.recovery ChatJsonp.body jsonpReply
         ChatJsonp.error ChatJsonp.answer VisualTs.error VisualTs.answer
         VisualTs.truthy].
    rewrite orElse_Some_nonempty; [done|].
    apply ChatJsFacts.literal_app_nonempty. js_differ.
Qed.

(** When the exchange with the bot fails (no credential, an error, the 5 s
    race lost), the script-injection proxy's reply makes the widget answer
    as if the bot had: in any state the widget can be in with the JSONP
    method enabled, once the script calls back within 15 s the call
    resolves with the proxy's rule-based answer after that one attempt, and
    the widget records JSONP as the method used. *)
Theorem fallback_answer_reaches_user (ops : list (VisualTs.Op PrimitiveValue))
    (now : N) (w : VisualTs.World) (question : jsstring)
    (event : Netlify.Event) (up : Netlify.Upstream)
    (message text : jsstring) (t : N) :
  let v := (VisualTs.run PrimitiveValue ops now).1 in
  let r := ChatJsonp.intake event in
  (exists m, VisualTs.communicationMethods PrimitiveValue v !! 0 = Some m
             /\ VisualTs.enabled PrimitiveValue m = true) ->
  ChatJsonp.attempt event up = Netlify.Threw message ->
  ChatJsonp.generateSmartFallback (ChatJsonp.question r) (ChatJsonp.contextData r)
                                  (ChatJsonp.hasData r) (ChatJsonp.rowCount r)
  = Some text ->
  VisualTs.jsonpWire (w (VisualTs.clock PrimitiveValue v))
  = Some (t, VisualTs.ScriptCallback
               (Some (jsonpReply
                        (ChatJsonp.body
                           (ChatJsonp.response (ChatJsonp.handler event up)))))) ->
  (t < 15000)%N ->
  let '(res, tr, v') := VisualTs.sendMessageWithFallback PrimitiveValue w question v in
  res = VisualTs.Resolved text
  /\ map VisualTs.tried tr = [0]
  /\ VisualTs.clock PrimitiveValue v' = (VisualTs.clock PrimitiveValue v + t)%N
  /\ VisualTs.lastUsedMethod PrimitiveValue v' = js "JSONP".
Proof.
  intros v r (m0 & Hlook & Hon) Hthrew Hgen Hwire Ht.
  pose proof (WidgetFacts.Intact_run PrimitiveValue ops now) as Hintact.
  fold v in Hintact. unfold VisualTs.sendMessageWithFallback.
  rewrite (WidgetFacts.Intact_unsorted PrimitiveValue v Hintact).
  unfold VisualTs.enabledRefs. unfold WidgetFacts.Intact in Hintact.
  destruct (VisualTs.communicationMethods PrimitiveValue v) as [|m ms] eqn:Hms;
    [done|].
  cbn in Hlook. apply (inj Some) in Hlook. subst m.
  assert (VisualTs.name PrimitiveValue m0 = js "JSONP"
          /\ VisualTs.func PrimitiveValue m0 = VisualTs.sendViaJSONP PrimitiveValue)
    as [Hname Hfunc].
  { apply (f_equal head) in Hintact. cbn [head map] in Hintact.
    apply (inj Some) in Hintact.
    split; [apply (f_equal (VisualTs.name PrimitiveValue)) in Hintact
           |apply (f_equal (VisualTs.func PrimitiveValue)) in Hintact];
      exact Hintact. }
  cbn [imap]. rewrite filter_cons_True by exact Hon.
  cbn [VisualTs.tryMethods snd].
  destruct (VisualTs.updateMethodStatus_frame PrimitiveValue
              (js "Tentando " ++ VisualTs.name PrimitiveValue m0 ++ js "...") v)
    as (_ & Hclock & _ & Hctx & Hurl).
  rewrite Hfunc, Hclock.
  pose proof (script_fallback_settles event up message question
                (VisualTs.dataContext PrimitiveValue
                   (VisualTs.updateMethodStatus PrimitiveValue
                      (js "Tentando " ++ VisualTs.name PrimitiveValue m0 ++ js "...") v))
                (VisualTs.baseUrl PrimitiveValue
                   (VisualTs.updateMethodStatus PrimitiveValue
                      (js "Tentando " ++ VisualTs.name PrimitiveValue m0 ++ js "...") v))
                (w (VisualTs.clock PrimitiveValue v)) t Hthrew Hwire Ht) as Hsend.
  cbv zeta in Hsend. fold r in Hsend. rewrite Hgen in Hsend. rewrite Hsend.
  unfold VisualTs.raceTimeout.
  assert ((t <? 16000)%N = true) as -> by (apply N.ltb_lt; lia).
  rewrite (WidgetFacts.updateMethodStatus_nonempty PrimitiveValue
             (js "✅ Conectado via " ++ _))
    by apply WidgetFacts.connected_nonempty.
  cbn [VisualTs.clock VisualTs.lastUsedMethod VisualTs.withStatus
       VisualTs.withLastUsed VisualTs.tried map].
  split_and!; [reflexivity..| |exact Hname].
  destruct (WidgetFacts.advance_frame PrimitiveValue t
              (VisualTs.updateMethodStatus PrimitiveValue
                 (js "Tentando " ++ VisualTs.name PrimitiveValue m0 ++ js "...") v))
    as (-> & _).
  by rewrite Hclock.
Qed.

(** When the exchange with the bot fails, the stream proxy's reply carries
    the error's message beside the rule-based answer, and the widget's SSE
    adapter takes any reply with a truthy [error] for a failure: it
    rejects, the rule-based answer being the message of the rejection. *)
Theorem sse_fallback_rejects (event : Netlify.Event) (up : Netlify.Upstream)
    (message : jsstring) (sent : option jsstring)
    (question : jsstring) (context : DataContext)
    (url : jsstring) (net : VisualTs.Network) (t : N) :
  ChatSse.attempt event up = (Netlify.Threw message, sent) ->
  message <> [] ->
  VisualTs.sseWire net
  = Some (t, VisualTs.StreamMessage
               (Some (sseReply (ChatSse.body
                                  (ChatSse.response (ChatSse.handler event up)))))) ->
  (t < 15000)%N ->
  let r := ChatSse.intake event in
  VisualTs.sendViaSSE PrimitiveValue question context url net
  = Some (t, VisualTs.Rejected
               (ChatSse.generateFallbackResponse (ChatSse.question r)
                                                 (ChatSse.contextData r))).
Proof.
  intros Hthrew Hmsg Hwire Ht r. unfold VisualTs.sendViaSSE. rewrite Hwire.
  apply N.ltb_lt in Ht. rewrite Ht.
  unfold ChatSse.handler. fold r. rewrite Hthrew.
  cbn [ChatSse.fallback ChatSse.response ChatSse.body sseReply ChatSse.error
       ChatSse.answer VisualTs.error VisualTs.answer VisualTs.truthy].
  destruct message as [|c message]; [done|].
  rewrite orElse_Some_nonempty; [done|apply stream_fallback_nonempty].
Qed.

(** The same through the beacon transport: the proxy stores its fallback
    reply in the bridge under the session id, the adapter's first poll
    fetches it (the bridge adds [storedAt] and drops the entry), and since
    the stored reply carries the error's message the adapter rejects with
    the rule-based answer as the message. *)
Theorem pixel_fallback_rejects (event : Netlify.Event) (up : Netlify.Upstream)
    (message : jsstring) (sent : option jsstring) (timestamp : jsstring)
    (st : StorageBridge.Store Netlify.Num)
    (question : jsstring) (context : DataContext)
    (url : jsstring) (net : VisualTs.Network) (latency : N) :
  ChatPixel.attempt event up = (Netlify.Threw message, sent) ->
  message <> [] ->
  let r := ChatPixel.intake event in
  let i := ChatPixel.handler event up in
  let stored :=
    (StorageBridge.handler Netlify.Num toISOString
       (StorageBridge.store Netlify.Num (ChatPixel.storedUnder i)
          (pixelJson timestamp (ChatPixel.storedData i))) st).2 in
  let fetched :=
    StorageBridge.handler Netlify.Num toISOString
      (StorageBridge.fetch Netlify.Num (ChatPixel.storedUnder i)) stored in
  let fallback :=
    ChatPixel.generateFallbackResponse (ChatPixel.question r)
                                       (ChatPixel.contextData r) in
  pollReply fetched.1
  = Some (VisualTs.PollJson true
            (Some {| VisualTs.error := VisualTs.ErrorText message;
                     VisualTs.answer := Some fallback |}))
  /\ StorageBridge.responses Netlify.Num fetched.2 !! ChatPixel.storedUnder i = None
  /\ (Some (VisualTs.pixelWire net 1) = option_map (pair latency) (pollReply fetched.1) ->
      VisualTs.sendViaPixel PrimitiveValue question context url net
      = Some ((2000 + latency)%N, VisualTs.Rejected fallback)).
Proof.
  intros Hthrew Hmsg r i stored fetched fallback.
  assert (ChatPixel.storedUnder i <> []) as Hid.
  { subst i. unfold ChatPixel.handler. rewrite Hthrew.
    cbn [ChatPixel.fallback ChatPixel.storedUnder ChatPixel.intake ChatPixel.sessionId].
    apply VisualTs.orElse_nonempty. js_differ. }
  assert (ChatPixel.storedData i
          = {| ChatPixel.answer := Some fallback;
               ChatPixel.method := js "PIXEL_FALLBACK";
               ChatPixel.success := false;
               ChatPixel.error := Some message |}) as Hdata.
  { subst i. unfold ChatPixel.handler. by rewrite Hthrew. }
  set (entry := setProp (js "storedAt")
                  (JStr (toISOString (StorageBridge.now Netlify.Num st)))
                  ([ (js "answer", JStr fallback);
                     (js "method", JStr (js "PIXEL_FALLBACK"));
                     (js "timestamp", JStr timestamp);
                     (js "success", JBool false);
                     (js "error", JStr message) ] : object)).
  assert (StorageBridge.responses Netlify.Num stored !! ChatPixel.storedUnder i
          = Some entry) as Hstored.
  { subst stored. rewrite Hdata.
    rewrite (StorageBridge.handler_store Netlify.Num toISOString).
    cbn [snd StorageBridge.responses]. by rewrite lookup_insert_eq. }
  assert (fetched
          = ({| StorageBridge.statusCode := 200;
                StorageBridge.payload := StorageBridge.Found Netlify.Num entry |},
             {| StorageBridge.responses :=
                  delete (ChatPixel.storedUnder i)
                         (StorageBridge.responses Netlify.Num stored);
                StorageBridge.cleanups := StorageBridge.cleanups Netlify.Num stored;
                StorageBridge.now := StorageBridge.now Netlify.Num stored |}))
    as Hfetched.
  { subst fetched. rewrite (StorageBridge.handler_fetch Netlify.Num toISOString).
    rewrite Hstored. by destruct (ChatPixel.storedUnder i). }
  assert (asReply entry
          = Some {| VisualTs.error := VisualTs.ErrorText message;
                    VisualTs.answer := Some fallback |}) as Hreply.
  { unfold asReply, entry.
    rewrite getProp_setProp_ne by js_differ.
    rewrite getProp_setProp_ne by js_differ.
    cbn [getProp].
    change (bool_decide (js "answer" = js "error")) with false.
    change (bool_decide (js "method" = js "error")) with false.
    change (bool_decide (js "timestamp" = js "error")) with false.
    change (bool_decide (js "success" = js "error")) with false.
    change (bool_decide (js "error" = js "error")) with true.
    change (bool_decide (js "answer" = js "answer")) with true.
    done. }
  assert (pollReply fetched.1
          = Some (VisualTs.PollJson true
                    (Some {| VisualTs.error := VisualTs.ErrorText message;
                             VisualTs.answer := Some fallback |}))) as Hpoll.
  { rewrite Hfetched. unfold pollReply.
    cbn [fst StorageBridge.payload]. by rewrite Hreply. }
  split_and!.
  - exact Hpoll.
  - rewrite Hfetched. cbn [snd StorageBridge.responses]. apply lookup_delete_eq.
  - rewrite Hpoll. cbn [option_map]. intros Hwire. apply (inj Some) in Hwire.
    unfold VisualTs.sendViaPixel.
    rewrite (checkResponse_found (VisualTs.pixelWire net) 14 1 2000 _ _ Hwire).
    cbn [VisualTs.error VisualTs.answer VisualTs.truthy].
    destruct message as [|c message]; [done|].
    rewrite orElse_Some_nonempty; [done|apply beacon_fallback_nonempty].
Qed.

End Wire.

#[local] Existing Instance Reference.engine.

(** No credential is configured; the proxies fall back at once. *)
Definition scriptLoaded : VisualTs.Network :=
  {| VisualTs.jsonpWire :=
       Some (400%N,
             VisualTs.ScriptCallback
               (Some
                  (jsonpReply
                     (ChatJsonp.body
                        (ChatJsonp.response
                           (ChatJsonp.handler (Reference.ask (js "total") None)
                                              Reference.noSecret))))));
     VisualTs.iframeWire := [];
     VisualTs.sseWire :=
       Some (500%N,
             VisualTs.StreamMessage
               (Some (sseReply
                        (ChatSse.body
                           (ChatSse.response
                              (ChatSse.handler (Reference.ask (js "total") None)
                                               Reference.noSecret))))));
     VisualTs.pixelWire := fun _ =>
       (300%N,
        VisualTs.PollJson true
          (Some {| VisualTs.error :=
                     VisualTs.ErrorText (js "COPILOT_SECRET não configurada");
                   VisualTs.answer :=
                     Some (ChatPixel.generateFallbackResponse
                             (js "total") (JObj [])) |})) |}.

Definition scriptWorld : VisualTs.World := fun _ => scriptLoaded.

Definition totalsAnswer : jsstring :=
  default []
    (ChatJsonp.generateSmartFallback
       (ChatJsonp.question (ChatJsonp.intake (Reference.ask (js "total") None)))
       (ChatJsonp.contextData (ChatJsonp.intake (Reference.ask (js "total") None)))
       (ChatJsonp.hasData (ChatJsonp.intake (Reference.ask (js "total") None)))
       (ChatJsonp.rowCount (ChatJsonp.intake (Reference.ask (js "total") None)))).

Lemma fallback_answer_reaches_user_witness :
  (exists m,
     VisualTs.communicationMethods unit (VisualTs.run unit [] 0).1 !! 0 = Some m
     /\ VisualTs.enabled unit m = true)
  /\ ChatJsonp.attempt (Reference.ask (js "total") None) Reference.noSecret
     = Netlify.Threw (js "COPILOT_SECRET não configurada")
  /\ startsWith ChatJsonpFacts.jsonpTotalsTitle totalsAnswer = true
  /\ let '(res, tr, v') :=
       VisualTs.sendMessageWithFallback unit scriptWorld (js "total")
         (VisualTs.run unit [] 0).1 in
     res = VisualTs.Resolved totalsAnswer
     /\ map VisualTs.tried tr = [0]
     /\ VisualTs.clock unit v'
        = (VisualTs.clock unit (VisualTs.run unit [] 0).1 + 400)%N
     /\ VisualTs.lastUsedMethod unit v' = js "JSONP".
Proof.
  assert (exists m,
            VisualTs.communicationMethods unit (VisualTs.run unit [] 0).1 !! 0
            = Some m
            /\ VisualTs.enabled unit m = true) as Hon
    by (eexists; split; reflexivity).
  assert (ChatJsonp.attempt (Reference.ask (js "total") None) Reference.noSecret
          = Netlify.Threw (js "COPILOT_SECRET não configurada")) as Hthrew
    by (vm_compute; reflexivity).
  split_and!; [exact Hon|exact Hthrew|vm_compute; reflexivity|].
  refine (fallback_answer_reaches_user unit [] 0 scriptWorld (js "total")
            (Reference.ask (js "total") None) Reference.noSecret
            (js "COPILOT_SECRET não configurada") totalsAnswer 400
            Hon Hthrew _ eq_refl eq_refl).
  vm_compute. reflexivity.
Defined.

(** The rule-based answer reaches the user through the script transport,
    and comes back as a failure through the stream. *)
Example fallback_by_script_and_by_stream :
  (exists text,
     VisualTs.sendViaJSONP unit (js "total") (VisualTs.emptyContext unit)
       (js "https://copilotassistbi.netlify.app") scriptLoaded
     = Some (400%N, VisualTs.Resolved text)
     /\ startsWith ChatJsonpFacts.jsonpTotalsTitle text = true)
  /\ VisualTs.sendViaSSE unit (js "total") (VisualTs.emptyContext unit)
       (js "https://copilotassistbi.netlify.app") scriptLoaded
     = Some (500%N,
             VisualTs.Rejected
               (js "📊 ANÁLISE DE TOTAIS (via SSE): Nenhum dado disponível")).
Proof.
  split; [eexists; split|]; vm_compute; reflexivity.
Qed.

Lemma sse_fallback_rejects_witness :
  ChatSse.attempt (Reference.ask (js "total") None) Reference.noSecret
  = (Netlify.Threw (js "COPILOT_SECRET não configurada"), None)
  /\ VisualTs.sendViaSSE unit (js "total") (VisualTs.emptyContext unit)
       (js "https://copilotassistbi.netlify.app") scriptLoaded
     = Some (500%N,
        VisualTs.Rejected
          (ChatSse.generateFallbackResponse
             (ChatSse.question (ChatSse.intake (Reference.ask (js "total") None)))
             (ChatSse.contextData (ChatSse.intake (Reference.ask (js "total") None))))).
Proof.
  assert (ChatSse.attempt (Reference.ask (js "total") None) Reference.noSecret
          = (Netlify.Threw (js "COPILOT_SECRET não configurada"), None)) as Hthrew
    by (vm_compute; reflexivity).
  split; [exact Hthrew|].
  refine (sse_fallback_rejects unit (Reference.ask (js "total") None)
            Reference.noSecret (js "COPILOT_SECRET não configurada") None
            (js "total") (VisualTs.emptyContext unit)
            (js "https://copilotassistbi.netlify.app") scriptLoaded 500
            Hthrew _ eq_refl eq_refl).
  intros H. vm_compute in H. discriminate H.
Defined.

Lemma pixel_fallback_rejects_witness :
  ChatPixel.attempt (Reference.ask (js "total") None) Reference.noSecret
  = (Netlify.Threw (js "COPILOT_SECRET não configurada"), None)
  /\ VisualTs.sendViaPixel unit (js "total") (VisualTs.emptyContext unit)
       (js "https://copilotassistbi.netlify.app") scriptLoaded
     = Some (2300%N,
        VisualTs.Rejected
          (ChatPixel.generateFallbackResponse
             (ChatPixel.question (ChatPixel.intake (Reference.ask (js "total") None)))
             (ChatPixel.contextData
                (ChatPixel.intake (Reference.ask (js "total") None))))).
Proof.
  assert (ChatPixel.attempt (Reference.ask (js "total") None) Reference.noSecret
          = (Netlify.Threw (js "COPILOT_SECRET não configurada"), None)) as Hthrew
    by (vm_compute; reflexivity).
  split; [exact Hthrew|].
  refine (proj2 (proj2
            (pixel_fallback_rejects unit StorageBridge.stamp
               (Reference.ask (js "total") None) Reference.noSecret
               (js "COPILOT_SECRET não configurada") None (js "T+0")
               (StorageBridge.emptyStore _ 0)
               (js "total") (VisualTs.emptyContext unit)
               (js "https://copilotassistbi.netlify.app") scriptLoaded 300
               Hthrew _)) _).
  - intros H. vm_compute in H. discriminate H.
  - vm_compute. reflexivity.
Defined.

End EndToEnd.

(** ** The global timer of the main chat proxy *)

Module ChatJsTimer.

Import Netlify ChatJs.

Section Facts.

Context {engine : Netlify.Engine}.

Lemma race_within (limit : N) (x : Exchanged) : ((race limit x).1 <= limit)%N.
Proof.
  unfold race. destruct (N.ltb_spec (settledAt x) limit); simpl; lia.
Qed.

(** The main proxy clears its 8.5 s timer right after the 6 s race, or
    earlier on the paths that do not reach the backend, so the timer can
    only fire when the event loop holds the continuation back by 2.5 s or
    more; with less delay its callback never runs, whatever the backend
    does. *)
Theorem global_timer_needs_2500ms_lag (event : Event) (up : Upstream) (lag : N) :
  timeoutFired (handler event up lag) = true ->
  (2500 <= lag)%N /\ (clearedAt (handler event up lag) <= 6000 + lag)%N.
Proof.
  unfold handler. destruct (intake event) as [| | |question ctx summary].
  1-3: unfold finish; cbn [timeoutFired clearedAt];
       intros Hf%N.leb_le; unfold MAX_EXECUTION_TIME in Hf; lia.
  unfold reply.
  pose proof (race_within COPILOT_TIMEOUT (sendToCopilotOptimized up question ctx))
    as Hrace.
  destruct (race COPILOT_TIMEOUT _) as [t raced]. cbn [fst] in Hrace.
  unfold COPILOT_TIMEOUT in Hrace.
  destruct raced as [[[|c s]|]|message];
    destruct (generateIntelligentFallback question ctx);
    unfold finish; cbn [timeoutFired clearedAt];
    intros Hf%N.leb_le; unfold MAX_EXECUTION_TIME in Hf; lia.
Qed.

End Facts.

#[local] Existing Instance Reference.engine.

Lemma global_timer_needs_2500ms_lag_witness :
  timeoutFired (handler (Reference.ask (js "total") None) Reference.silentBot 3500)
  = true
  /\ (2500 <= 3500)%N
  /\ (clearedAt (handler (Reference.ask (js "total") None) Reference.silentBot 3500)
      <= 6000 + 3500)%N.
Proof.
  assert (timeoutFired
            (handler (Reference.ask (js "total") None) Reference.silentBot 3500)
          = true) as Hfired by (vm_compute; reflexivity).
  split; [exact Hfired|].
  exact (global_timer_needs_2500ms_lag (Reference.ask (js "total") None)
           Reference.silentBot 3500 Hfired).
Defined.

End ChatJsTimer.

(** ** Further properties of the storage bridge (storage-bridge.js) *)

Module StorageFacts.

Import Json StorageBridge.

Section Facts.

Variable Num : Type.
Variable toISOString : N -> list N.

#[local] Arguments responses {Num}.
#[local] Arguments cleanups {Num}.
#[local] Arguments now {Num}.
#[local] Arguments statusCode {Num}.
#[local] Arguments payload {Num}.
#[local] Arguments httpMethod {Num}.
#[local] Arguments body {Num}.
#[local] Arguments session {Num}.
#[local] Arguments store {Num}.
#[local] Arguments fetch {Num}.
#[local] Arguments tick {Num}.
#[local] Arguments storesUnder {Num}.
#[local] Arguments elapsed {Num}.

Abbreviation json := (Json.json Num).
Abbreviation Store := (StorageBridge.Store Num).
Abbreviation Event := (StorageBridge.Event Num).
Abbreviation Op := (StorageBridge.Op Num).
Abbreviation handler := (StorageBridge.handler Num toISOString).
Abbreviation step := (StorageBridge.step Num toISOString).

(** The entry the bridge keeps for [data] stored at time [t]. *)
Definition stamped (t : N) (data : json) : list (list N * json) :=
  setProp (js "storedAt") (JStr (toISOString t)) (spread (Some data)).

(** Does this operation store under [id] or fetch [id]? *)
Definition touches (id : jsstring) (op : Op) : bool :=
  storesUnder id op
  || match op with
     | Request _ event =>
       bool_decide (httpMethod event = js "GET")
       && bool_decide (session event = Some id)
     | Tick _ _ => false
     end.

Definition untouched (id : jsstring) (ops : list Op) : bool :=
  forallb (fun op => negb (touches id op)) ops.

Lemma handler_untouched id (event : Event) (st : Store) :
  touches id (Request Num event) = false ->
  responses (handler event st).2 !! id = responses st !! id
  /\ forall d, (d, id) ∈ cleanups (handler event st).2 -> (d, id) ∈ cleanups st.
Proof.
  unfold touches, storesUnder, StorageBridge.handler.
  intros [Hstore Hfetch]%orb_false_elim.
  destruct (bool_decide (httpMethod event = js "OPTIONS")); [by cbn|].
  destruct (bool_decide (httpMethod event = js "POST")); cbn [andb] in Hstore.
  - destruct (body event) as [[| | | | |fields]|]; cbn; try done.
    destruct (getProp (js "action") fields) as [[| | |action| |]|]; try done.
    destruct (bool_decide (action = js "store")); [|by cbn].
    destruct (getProp (js "sessionId") fields) as [[| | |id'| |]|]; try (by cbn).
    cbn [andb] in Hstore. apply bool_decide_eq_false in Hstore. cbn. split.
    + by apply lookup_insert_ne.
    + intros d [Hin|Hin]%elem_of_app; [done|].
      apply list_elem_of_singleton in Hin. congruence.
  - destruct (bool_decide (httpMethod event = js "GET")); [|by cbn].
    cbn [andb] in Hfetch. apply bool_decide_eq_false in Hfetch.
    destruct (session event) as [[|c sid]|]; try (by cbn).
    destruct (responses st !! (c :: sid)) eqn:Hlook; [|by cbn]. cbn.
    split; [|done]. apply lookup_delete_ne. congruence.
Qed.

Lemma survives_run id entry (due : N) (ops : list Op) (st : Store) :
  untouched id ops = true ->
  responses st !! id = Some entry ->
  (forall d, (d, id) ∈ cleanups st -> (due <= d)%N) ->
  (now st + elapsed ops < due)%N ->
  responses (foldl step st ops) !! id = Some entry.
Proof.
  revert st. induction ops as [|op ops IH]; intros st Hun Hentry Hdue Htime; [done|].
  cbn [untouched forallb] in Hun. apply andb_prop in Hun as [Hop Hun].
  apply negb_true_iff in Hop. cbn [foldl]. apply IH; [done|..].
  - destruct op as [event|dt]; cbn [StorageBridge.step].
    + destruct (handler_untouched id event st Hop) as [-> _]. done.
    + unfold tick. cbn [responses]. rewrite lookup_expire.
      rewrite bool_decide_eq_false_2; [done|].
      intros ([d id'] & Hid & Hin)%list_elem_of_fmap. cbn in Hid. subst id'.
      apply list_elem_of_filter in Hin as [Hnow Hin]. cbn in Hnow.
      apply Hdue in Hin. cbn [elapsed foldr] in Htime. fold (elapsed ops) in Htime.
      lia.
  - destruct op as [event|dt]; cbn [StorageBridge.step].
    + intros d Hin. apply Hdue. by apply (handler_untouched id event st Hop).
    + unfold tick. cbn [cleanups]. intros d Hin.
      apply list_elem_of_filter in Hin as [_ Hin]. by apply Hdue.
  - destruct op as [event|dt]; cbn [StorageBridge.step].
    + rewrite handler_now. cbn [elapsed foldr] in Htime. exact Htime.
    + unfold tick. cbn [now]. cbn [elapsed foldr] in Htime.
      fold (elapsed ops) in Htime. lia.
Qed.

(** An entry stored under an id that has no cleanup pending stays
    retrievable, unchanged, for the whole 5 minutes: whatever else is
    stored or fetched meanwhile under other ids and however time passes,
    while less than 300 000 ms have elapsed a fetch finds it. *)
Theorem entry_survives_five_minutes (st : Store) (id : jsstring) (data : json)
    (ops : list Op) :
  id <> [] ->
  id ∉ (cleanups st).*2 ->
  untouched id ops = true ->
  (elapsed ops < 5 * 60 * 1000)%N ->
  let st' := foldl step (handler (store id data) st).2 ops in
  responses st' !! id = Some (stamped (now st) data)
  /\ (handler (fetch id) st').1
     = {| StorageBridge.statusCode := 200;
          StorageBridge.payload := Found Num (stamped (now st) data) |}.
Proof.
  intros Hid Hfree Hun Htime st'.
  assert (responses st' !! id = Some (stamped (now st) data)) as Hentry.
  { apply (survives_run id _ (now st + 300000)%N); [done|..].
    - rewrite (handler_store Num toISOString). cbn [snd responses].
      apply lookup_insert_eq.
    - rewrite (handler_store Num toISOString). cbn [snd cleanups].
      intros d [Hin|Hin]%elem_of_app.
      + exfalso. apply Hfree. apply list_elem_of_fmap. by exists (d, id).
      + apply list_elem_of_singleton in Hin. injection Hin as ->. lia.
    - rewrite handler_now. lia. }
  split; [done|]. rewrite (handler_fetch Num toISOString).
  destruct id; [done|]. by rewrite Hentry.
Qed.

(** Storing again under an id does not cancel the cleanup of the first
    store: an entry stored [d] ms (less than 5 minutes) after an earlier
    one under the same id is there right after the store, and is deleted
    when the first store's 5 minutes are over, that is after 300 000 - d ms
    only. *)
Theorem restored_entry_cut_short (st : Store) (id : jsstring)
    (first second : json) (d : N) :
  (d < 5 * 60 * 1000)%N ->
  let st1 := tick d (handler (store id first) st).2 in
  let st2 := (handler (store id second) st1).2 in
  responses st2 !! id = Some (stamped (now st + d) second)
  /\ responses (tick (5 * 60 * 1000 - d) st2) !! id = None.
Proof.
  intros Hd st1 st2. subst st2. rewrite (handler_store Num toISOString).
  cbn [snd responses]. split.
  - rewrite lookup_insert_eq. done.
  - unfold tick at 1. cbn [responses cleanups now].
    rewrite lookup_expire. rewrite bool_decide_eq_true_2; [done|].
    apply list_elem_of_fmap. exists ((now st + 300000)%N, id). split; [done|].
    apply list_elem_of_filter. split.
    + subst st1. unfold tick. cbn [now fst]. rewrite handler_now. lia.
    + apply elem_of_app. left. subst st1. unfold tick. cbn [cleanups].
      apply list_elem_of_filter. split.
      * cbn [fst]. rewrite handler_now. lia.
      * rewrite (handler_store Num toISOString). cbn [snd cleanups].
        apply elem_of_app. right. by apply list_elem_of_singleton.
Qed.

(** The bridge answers with one of four statuses, and a request answered
    with another status than 200 changes nothing in the store: a missing
    session id (400), an unknown method or action (405) and an unreadable
    body (500) leave every entry and every pending cleanup as they were.
    No request moves the clock or cancels a cleanup. *)
Theorem bridge_errors_change_nothing (event : Event) (st : Store) :
  statusCode (handler event st).1 ∈ [200; 400; 405; 500]%Z
  /\ (statusCode (handler event st).1 <> 200%Z -> (handler event st).2 = st)
  /\ now (handler event st).2 = now st
  /\ cleanups st `prefix_of` cleanups (handler event st).2.
Proof.
  split_and!.
  - unfold StorageBridge.handler.
    repeat (case_match; cbn [fst statusCode StorageBridge.methodNotAllowed
                             StorageBridge.internalError]);
      set_solver.
  - unfold StorageBridge.handler.
    repeat (case_match; cbn [fst snd statusCode StorageBridge.methodNotAllowed
                             StorageBridge.internalError]); done.
  - apply handler_now.
  - unfold StorageBridge.handler.
    repeat (case_match; cbn [snd cleanups]); try done.
    by eexists.
Qed.

End Facts.

Lemma entry_survives_five_minutes_witness :
  js "s1" <> []
  /\ untouched Z (js "s1")
       [Tick Z 120000; Request Z (store Z (js "s2") okAnswer);
        Request Z (fetch Z (js "s2")); Tick Z 179999] = true
  /\ let st' :=
       foldl (StorageBridge.step Z stamp)
         (StorageBridge.handler Z stamp (store Z (js "s1") okAnswer)
            (emptyStore Z 0)).2
         [Tick Z 120000; Request Z (store Z (js "s2") okAnswer);
          Request Z (fetch Z (js "s2")); Tick Z 179999] in
     responses Z st' !! js "s1" = Some (stamped Z stamp 0 okAnswer)
     /\ (StorageBridge.handler Z stamp (fetch Z (js "s1")) st').1
        = {| StorageBridge.statusCode := 200;
             StorageBridge.payload := Found Z (stamped Z stamp 0 okAnswer) |}.
Proof.
  assert (js "s1" <> []) as Hid by (intros H; vm_compute in H; discriminate H).
  assert (untouched Z (js "s1")
            [Tick Z 120000; Request Z (store Z (js "s2") okAnswer);
             Request Z (fetch Z (js "s2")); Tick Z 179999] = true) as Hun
    by (vm_compute; reflexivity).
  split_and!; [exact Hid|exact Hun|].
  refine (entry_survives_five_minutes Z stamp (emptyStore Z 0) (js "s1") okAnswer
            [Tick Z 120000; Request Z (store Z (js "s2") okAnswer);
             Request Z (fetch Z (js "s2")); Tick Z 179999] Hid _ Hun _).
  - cbn. apply not_elem_of_nil.
  - vm_compute. reflexivity.
Defined.

Lemma restored_entry_cut_short_witness :
  (240000 < 5 * 60 * 1000)%N
  /\ let st1 :=
       tick Z 240000
         (StorageBridge.handler Z stamp (store Z (js "s1") okAnswer)
            (emptyStore Z 0)).2 in
     let st2 :=
       (StorageBridge.handler Z stamp (store Z (js "s1") okAnswer) st1).2 in
     responses Z st2 !! js "s1" = Some (stamped Z stamp (0 + 240000) okAnswer)
     /\ responses Z (tick Z (5 * 60 * 1000 - 240000) st2) !! js "s1" = None.
Proof.
  split; [reflexivity|].
  apply (restored_entry_cut_short Z stamp (emptyStore Z 0) (js "s1")
           okAnswer okAnswer 240000).
  reflexivity.
Defined.

End StorageFacts.

(** ** Properties of the health analysis *)

Module DebugJsFacts.

Import DebugJs.

Ltac js_differ := let H := fresh in intros H; vm_compute in H; congruence.

Lemma includes_head (s p : jsstring) (c : N) :
  includes s (c :: p) = true -> c ∈ s.
Proof.
  induction s as [|b s IH]; cbn [includes startsWith]; [done|].
  intros [Hhere|Hlater]%orb_prop.
  - apply andb_prop in Hhere as [->%N.eqb_eq _]. left.
  - right. by apply IH.
Qed.

Lemma digits_range (fuel : nat) (n : N) (acc : list N) :
  Forall (fun c => (48 <= c <= 57)%N) acc ->
  Forall (fun c => (48 <= c <= 57)%N) (digits fuel n acc).
Proof.
  revert n acc. induction fuel as [|fuel IH]; intros n acc Hacc; cbn [digits];
    [done|].
  assert (Forall (fun c => (48 <= c <= 57)%N) ((48 + n mod 10)%N :: acc)) as Hacc'.
  { constructor; [|done]. cbv beta.
    assert (n mod 10 < 10)%N as Hlt by (apply N.mod_lt; lia).
    revert Hlt. generalize (n mod 10)%N. intros d Hlt. lia. }
  destruct (n <? 10)%N; [done|]. by apply IH.
Qed.

Lemma decimal_range (n : nat) : Forall (fun c => (48 <= c <= 57)%N) (decimal n).
Proof. unfold decimal. by apply digits_range. Qed.

(** The environment issue, though spelled with a capital A, is the only
    issue that could ask for the environment recommendation. *)
Lemma memory_issue_no_ambiente (n : nat) :
  includes (js "⚠️ Alto uso de memória: " ++ decimal n ++ js "MB") (js "ambiente")
  = false.
Proof.
  assert (includes (decimal n ++ js "MB") (js "ambiente") = false) as Hrest.
  { destruct (includes _ _) eqn:Hin; [|done]. exfalso.
    change (js "ambiente") with (97%N :: js "mbiente") in Hin.
    apply includes_head in Hin.
    apply elem_of_app in Hin as [Hin|Hin].
    - pose proof (decimal_range n) as Hd. rewrite Forall_forall in Hd.
      apply Hd in Hin. lia.
    - vm_compute in Hin. repeat (apply elem_of_cons in Hin as [Hin|Hin]; [done|]).
      by apply elem_of_nil in Hin. }
  revert Hrest. generalize (decimal n ++ js "MB"). intros rest Hrest.
  let v := eval vm_compute in (js "⚠️ Alto uso de memória: ") in
  change (js "⚠️ Alto uso de memória: ") with v.
  let v := eval vm_compute in (js "ambiente") in
  change (js "ambiente") with v in *.
  cbn [app includes startsWith]. simpl N.eqb. cbn [andb orb]. exact Hrest.
Qed.

Lemma connection_issue_ambiente (c : jsstring) :
  includes (js "⚠️ Copilot não conectado: " ++ c) (js "ambiente")
  = includes c (js "ambiente").
Proof. vm_compute. reflexivity. Qed.

(** The score is 100 less 30 for a missing credential or 20 for a
    credential that does not connect, less 10 for more than 100 MB of heap,
    less 5 for a URL outside netlify.app; so it lies between 55 and 100.
    The level is critical only when the credential is missing, the heap
    high and the URL foreign (55); it is excellent exactly when the
    credential is there and connects and the heap is not high, whatever the
    URL: a foreign URL alone leaves the level excellent (95) with an issue
    listed. *)
Theorem health_level_by_cause (debugInfo : DebugInfo) :
  let h := analyzeSystemHealth debugInfo in
  let connected :=
    hasSecret debugInfo && bool_decide (connectivity debugInfo = js "connected") in
  let foreign := negb (includes (url debugInfo) (js "netlify.app")) in
  score h
  = (100
     - (if hasSecret debugInfo then if connected then 0 else 20 else 30)
     - (if memoryHigh (heapUsed debugInfo) then 10 else 0)
     - (if foreign then 5 else 0))%Z
  /\ (55 <= score h <= 100)%Z
  /\ (overall h = js "critical" <->
      hasSecret debugInfo = false /\ memoryHigh (heapUsed debugInfo) = true
      /\ foreign = true)
  /\ (overall h = js "excellent" <->
      connected = true /\ memoryHigh (heapUsed debugInfo) = false)
  /\ (issues h = [] <-> score h = 100%Z)
  /\ length (issues h)
     = (if connected then 0 else 1)
       + (if memoryHigh (heapUsed debugInfo) then 1 else 0)
       + (if foreign then 1 else 0).
Proof.
  intros h connected foreign. subst h connected foreign.
  unfold analyzeSystemHealth, copilotCheck, memoryCheck, environmentCheck.
  cbv zeta.
  destruct (hasSecret debugInfo);
    destruct (bool_decide (connectivity debugInfo = js "connected"));
    destruct (memoryHigh (heapUsed debugInfo));
    destruct (includes (url debugInfo) (js "netlify.app"));
    cbn [negb andb fst snd app score issues overall length];
    (split_and!; [reflexivity | lia | lia | | | | reflexivity]);
    try (split; [intros H; vm_compute in H; congruence | intros H; lia]);
    try (split; [intros H; vm_compute in H; congruence
                | intros H; destruct H as (? & ? & ?); congruence]);
    try (split; [intros H; vm_compute in H; congruence
                | intros H; destruct H as (? & ?); congruence]);
    try (split; [intros _; by split_and! | intros _; reflexivity]);
    try (split; [intros H; discriminate H | intros H; lia]);
    try (split; [intros _; reflexivity | intros _; reflexivity]).
Qed.

(** The recommendation about the environment is looked up under
    'ambiente', but the issue reads 'Ambiente': unless the connectivity
    text itself contains 'ambiente', that recommendation is never given,
    and when a foreign URL is the only issue the list of recommendations is
    empty, the level excellent and the score 95. *)
Theorem environment_issue_gets_no_recommendation (debugInfo : DebugInfo) :
  includes (connectivity debugInfo) (js "ambiente") = false ->
  let h := analyzeSystemHealth debugInfo in
  (js "🌍 Verifique configuração do ambiente Netlify" ∉ recommendations h)
  /\ (hasSecret debugInfo = true ->
      connectivity debugInfo = js "connected" ->
      memoryHigh (heapUsed debugInfo) = false ->
      includes (url debugInfo) (js "netlify.app") = false ->
      issues h = [js "⚠️ Ambiente não é Netlify padrão"]
      /\ recommendations h = []
      /\ overall h = js "excellent"
      /\ score h = 95%Z).
Proof.
  intros Hconn h. subst h. split.
  - unfold analyzeSystemHealth. cbv zeta. cbn [recommendations].
    set (all := (copilotCheck debugInfo).1 ++ (memoryCheck debugInfo).1
                ++ (environmentCheck debugInfo).1).
    assert (Forall (fun issue => includes issue (js "ambiente") = false) all)
      as Hall.
    { subst all. repeat apply Forall_app_2.
      - unfold copilotCheck.
        destruct (hasSecret debugInfo); cbn [negb fst];
          [destruct (bool_decide (connectivity debugInfo = js "connected"));
           cbn [negb fst]|].
        + apply Forall_nil_2.
        + apply Forall_singleton. by rewrite connection_issue_ambiente.
        + apply Forall_singleton. vm_compute. reflexivity.
      - unfold memoryCheck.
        destruct (memoryHigh (heapUsed debugInfo)); cbn [fst].
        + apply Forall_singleton. apply memory_issue_no_ambiente.
        + apply Forall_nil_2.
      - unfold environmentCheck.
        destruct (includes (url debugInfo) (js "netlify.app")); cbn [negb fst].
        + apply Forall_nil_2.
        + apply Forall_singleton. vm_compute. reflexivity. }
    destruct all as [|issue rest] eqn:Hissues.
    { intros Hin. apply list_elem_of_singleton in Hin.
      vm_compute in Hin. congruence. }
    rewrite <- Hissues in *. clear Hissues.
    unfold generateHealthRecommendations. intros Hin.
    apply list_elem_of_In, in_flat_map in Hin as (issue' & Hissue & Hin).
    apply list_elem_of_In in Hissue, Hin.
    rewrite Forall_forall in Hall. rewrite (Hall _ Hissue) in Hin.
    rewrite app_nil_r in Hin.
    repeat (apply elem_of_app in Hin as [Hin|Hin]);
      case_match; try (by apply elem_of_nil in Hin);
      apply list_elem_of_singleton in Hin; vm_compute in Hin; congruence.
  - intros Hsecret Hconnected Hmem Hurl.
    unfold analyzeSystemHealth, copilotCheck, memoryCheck, environmentCheck.
    cbv zeta. rewrite Hsecret, Hconnected, Hmem, Hurl.
    rewrite bool_decide_eq_true_2 by done.
    cbn [negb fst snd app issues recommendations overall score].
    split_and!; reflexivity.
Qed.

(** A deploy preview under another domain, otherwise healthy. *)
Definition foreignDeploy : DebugInfo :=
  {| hasSecret := true;
     connectivity := js "connected";
     heapUsed := 52428800;
     url := js "https://bridge.example.org" |}.

Lemma environment_issue_gets_no_recommendation_witness :
  includes (connectivity foreignDeploy) (js "ambiente") = false
  /\ (js "🌍 Verifique configuração do ambiente Netlify"
      ∉ recommendations (analyzeSystemHealth foreignDeploy))
  /\ recommendations (analyzeSystemHealth foreignDeploy) = []
  /\ overall (analyzeSystemHealth foreignDeploy) = js "excellent".
Proof.
  assert (includes (connectivity foreignDeploy) (js "ambiente") = false) as Hc
    by (vm_compute; reflexivity).
  pose proof (environment_issue_gets_no_recommendation foreignDeploy Hc) as [Hno Hall].
  destruct (Hall eq_refl eq_refl eq_refl ltac:(vm_compute; reflexivity))
    as (_ & Hrecs & Hlevel & _).
  by split_and!.
Defined.

End DebugJsFacts.

(** ** Properties of the error handler *)

Module ErrorHandlerFacts.

Import ErrorHandlerTs.

Lemma startsWith_spec (p s : jsstring) :
  startsWith p s = true <-> exists r, s = p ++ r.
Proof.
  revert s. induction p as [|a p IH]; intros s; simpl.
  - split; [by exists s|done].
  - destruct s as [|b s]; [split; [done|by intros [r ?]]|].
    rewrite andb_true_iff, N.eqb_eq, IH. split.
    + intros [-> [r ->]]. by exists r.
    + intros [r [= -> ->]]. split; [done|by exists r].
Qed.

Lemma includes_Contains (s p : jsstring) :
  includes s p = true <-> Contains p s.
Proof.
  induction s as [|c s IH]; simpl.
  - rewrite orb_false_r, startsWith_spec. split.
    + intros [r Hr]. exists [], r. done.
    + intros ([|? ?] & post & Heq); [by exists post|done].
  - rewrite orb_true_iff, startsWith_spec, IH. split.
    + intros [[r ->]|(pre & post & ->)].
      * exists [], r. done.
      * exists (c :: pre), post. done.
    + intros ([|c' pre] & post & Heq).
      * left. by exists post.
      * right. injection Heq as -> ->. by exists pre, post.
Qed.

Lemma includes_part (s small big : jsstring) :
  Contains small big -> includes s big = true -> includes s small = true.
Proof.
  rewrite !includes_Contains. intros (a & b & ->) (pre & post & ->).
  exists (pre ++ a), (b ++ post). by rewrite <- !app_assoc.
Qed.

Section Facts.

Variable toLowerCase : jsstring -> jsstring.
Variable Ctx : Type.

#[local] Arguments classify toLowerCase {Ctx}.
#[local] Arguments code {Ctx}.
#[local] Arguments message {Ctx}.
#[local] Arguments severity {Ctx}.
#[local] Arguments solution {Ctx}.
#[local] Arguments category {Ctx}.
#[local] Arguments timestamp {Ctx}.
#[local] Arguments context {Ctx}.
#[local] Arguments errorHistory {Ctx}.
#[local] Arguments shown {Ctx}.
#[local] Arguments logError {Ctx}.
#[local] Arguments updateDebugPanel {Ctx}.
#[local] Arguments analyzeError toLowerCase {Ctx}.
#[local] Arguments reportAll toLowerCase {Ctx}.
#[local] Arguments details toLowerCase {Ctx}.
#[local] Arguments newHandler {Ctx}.
#[local] Arguments attached {Ctx}.
#[local] Arguments error_message {Ctx}.
#[local] Arguments error_context {Ctx}.
#[local] Arguments reportedAt {Ctx}.

(** Two of the keywords can never decide: a message that includes 'violates
    the following content security policy' includes 'content security
    policy', and one that includes 'request timeout' includes 'timeout'.
    So the CSP test and the timeout test are those of their other
    keywords. *)
Theorem redundant_keywords (m : jsstring) :
  isCspError m
  = (includes m (js "content security policy")
     || includes m (js "unsafe-inline")
     || includes m (js "unsafe-eval"))
  /\ isTimeoutError m
     = (includes m (js "timeout") || includes m (js "timed out")).
Proof.
  unfold isCspError, isTimeoutError. split.
  - destruct (includes m (js "violates the following content security policy"))
      eqn:Hlong; [|by rewrite orb_false_r].
    rewrite (includes_part m (js "content security policy")
               (js "violates the following content security policy"));
      [done| |done].
    exists (js "violates the following "), []. vm_compute. reflexivity.
  - destruct (includes m (js "request timeout")) eqn:Hlong;
      [|by rewrite orb_false_r].
    rewrite (includes_part m (js "timeout") (js "request timeout"));
      [done| |done].
    exists (js "request "), []. vm_compute. reflexivity.
Qed.

(** The tests are tried in a fixed order and the first that holds names the
    error: CORS, then CSP, then network, then timeout, then authentication,
    then data.  So a message that passes the network test is a
    NETWORK_ERROR even when it also speaks of a timeout, and only a message
    that passes none is UNKNOWN_ERROR, the one case where the details carry
    the message as it was given, not a fixed text. *)
Theorem error_code_priority (error_message : jsstring) (ctx : option Ctx)
    (now : N) :
  let m := toLowerCase error_message in
  let d := classify toLowerCase error_message ctx now in
  (isCorsError m = true -> code d = js "CORS_BLOCKED")
  /\ (isCorsError m = false -> isCspError m = true -> code d = js "CSP_VIOLATION")
  /\ (isCorsError m = false -> isCspError m = false -> isNetworkError m = true ->
      code d = js "NETWORK_ERROR")
  /\ (isCorsError m = false -> isCspError m = false -> isNetworkError m = false ->
      isTimeoutError m = true -> code d = js "TIMEOUT_ERROR")
  /\ (isCorsError m = false -> isCspError m = false -> isNetworkError m = false ->
      isTimeoutError m = false -> isAuthError m = true -> code d = js "AUTH_ERROR")
  /\ (isCorsError m = false -> isCspError m = false -> isNetworkError m = false ->
      isTimeoutError m = false -> isAuthError m = false -> isDataError m = true ->
      code d = js "DATA_ERROR")
  /\ (isCorsError m = false -> isCspError m = false -> isNetworkError m = false ->
      isTimeoutError m = false -> isAuthError m = false -> isDataError m = false ->
      code d = js "UNKNOWN_ERROR" /\ message d = error_message)
  /\ timestamp d = now
  /\ context d = ctx.
Proof.
  intros m d. subst d. unfold classify. cbv zeta. fold m.
  split_and!;
    try (intros; repeat match goal with H : _ = _ |- _ => rewrite H end;
         done).
  - by repeat case_match.
  - by repeat case_match.
Qed.

(** Severity follows the code: the details are critical exactly for
    AUTH_ERROR, high exactly for the two codes of category cors, and low
    exactly for DATA_ERROR; no error is ever put in category config. *)
Theorem severity_follows_code (error_message : jsstring) (ctx : option Ctx)
    (now : N) :
  let d := classify toLowerCase error_message ctx now in
  (severity d = critical <-> code d = js "AUTH_ERROR")
  /\ (severity d = high <-> category d = cors)
  /\ (category d = cors <->
      code d = js "CORS_BLOCKED" \/ code d = js "CSP_VIOLATION")
  /\ (severity d = low <-> code d = js "DATA_ERROR")
  /\ category d <> config.
Proof.
  intros d. subst d. unfold classify. cbv zeta.
  repeat case_match; cbn [severity code category];
    (split_and!; [split|split|split|split|]; try done;
     try (intros [Hx|Hx]; vm_compute in Hx; congruence);
     try (intros Hx; vm_compute in Hx; congruence);
     try (intros _; first [by left | by right])).
Qed.

Lemma sliceLast_all {A} (n : nat) (l : list A) :
  length l <= n -> sliceLast n l = l.
Proof.
  intros Hle. unfold sliceLast. by replace (length l - n) with 0 by lia.
Qed.

Lemma sliceLast_length {A} (n : nat) (l : list A) :
  length (sliceLast n l) = Nat.min n (length l).
Proof. unfold sliceLast. rewrite length_drop. lia. Qed.

Lemma sliceLast_snoc {A} (n : nat) (l : list A) (x : A) :
  sliceLast (S n) (l ++ [x]) = sliceLast n l ++ [x].
Proof.
  unfold sliceLast. rewrite length_app. cbn [length].
  replace (length l + 1 - S n) with (length l - n) by lia.
  rewrite drop_app_le by lia. done.
Qed.

Lemma sliceLast_sliceLast {A} (n m : nat) (l : list A) :
  n <= m -> sliceLast n (sliceLast m l) = sliceLast n l.
Proof.
  intros Hnm. unfold sliceLast. rewrite length_drop, drop_drop. f_equal. lia.
Qed.

Lemma sliceLast_app {A} (n : nat) (l k : list A) :
  sliceLast (S n) (sliceLast (S n) l ++ k) = sliceLast (S n) (l ++ k).
Proof.
  induction k as [|x k IH] using rev_ind.
  - rewrite !app_nil_r. by apply sliceLast_sliceLast.
  - rewrite !app_assoc, !sliceLast_snoc. f_equal.
    destruct n as [|n].
    + unfold sliceLast. by rewrite !Nat.sub_0_r, !drop_all.
    + rewrite <- (sliceLast_sliceLast (S n) (S (S n)) (sliceLast _ l ++ k)) by lia.
      rewrite <- (sliceLast_sliceLast (S n) (S (S n)) (l ++ k)) by lia.
      by rewrite IH.
Qed.

Lemma kept_sliceLast {A} (k : list A) :
  (if bool_decide (50 < length k) then sliceLast 50 k else k) = sliceLast 50 k.
Proof. case_bool_decide; [done|]. rewrite sliceLast_all; [done|lia]. Qed.

Lemma logError_history att (d : ErrorDetails Ctx) h :
  errorHistory (logError att d h)
  = sliceLast 50 (errorHistory h ++ [d]).
Proof.
  unfold logError, updateDebugPanel. cbv zeta.
  rewrite kept_sliceLast. by destruct att.
Qed.

Lemma reportAll_history rs (h : Handler Ctx) all :
  errorHistory h = sliceLast 50 all ->
  errorHistory (reportAll toLowerCase rs h) = sliceLast 50 (all ++ map (details toLowerCase) rs).
Proof.
  revert h all. induction rs as [|r rs IH]; intros h all Hh.
  - cbn. by rewrite app_nil_r.
  - cbn [reportAll foldl]. fold (reportAll toLowerCase rs (analyzeError toLowerCase r h).2).
    rewrite (IH _ (all ++ [details toLowerCase r])).
    + by rewrite <- app_assoc.
    + unfold analyzeError. cbn [snd]. rewrite logError_history, Hh.
      fold (details toLowerCase r). change 50 with (S 49). apply sliceLast_app.
Qed.

Lemma rev_sliceLast {A} (n : nat) (l : list A) :
  rev (sliceLast n l) = take n (rev l).
Proof.
  unfold sliceLast. symmetry. apply firstn_rev.
Qed.

(** The handler remembers the last 50 errors and shows the last 20: after
    any number of reports, starting from a new handler, the history is the
    details of the last 50 reports, oldest first, and what the panel shows
    is what it showed at the last report made while its error section was
    in the document: the last 20 reports up to then, newest first. *)
Theorem history_keeps_last_50 (rs : list (Report Ctx)) :
  let h := reportAll toLowerCase rs newHandler in
  errorHistory h = sliceLast 50 (map (details toLowerCase) rs)
  /\ length (errorHistory h) = Nat.min 50 (length rs)
  /\ forall (before : list (Report Ctx)) (r : Report Ctx) (after : list (Report Ctx)),
       rs = before ++ r :: after ->
       attached r = true ->
       Forall (fun r' => attached r' = false) after ->
       shown h = Some (take 20 (rev (map (details toLowerCase) (before ++ [r])))).
Proof.
  intros h. subst h.
  assert (forall rs0 : list (Report Ctx), errorHistory (reportAll toLowerCase rs0 newHandler)
                      = sliceLast 50 (map (details toLowerCase) rs0)) as Hhist.
  { intros rs0. by rewrite (reportAll_history rs0 newHandler []). }
  split_and!.
  - apply Hhist.
  - rewrite Hhist, sliceLast_length, length_map. done.
  - intros before r after -> Hr Hafter.
    unfold reportAll. rewrite foldl_app. cbn [foldl].
    fold (reportAll toLowerCase before newHandler).
    set (h1 := (analyzeError toLowerCase r (reportAll toLowerCase before newHandler)).2).
    assert (shown h1
            = Some (take 20 (rev (map (details toLowerCase) (before ++ [r]))))) as Hshown.
    { subst h1. unfold analyzeError. cbn [snd]. unfold logError. cbv zeta.
      rewrite Hr. unfold updateDebugPanel. cbn [shown errorHistory].
      f_equal. rewrite kept_sliceLast, Hhist. fold (details toLowerCase r).
      rewrite map_app. cbn [map].
      change 50 with (S 49) at 1. rewrite sliceLast_app.
      rewrite sliceLast_sliceLast by lia. apply rev_sliceLast. }
    clearbody h1. revert h1 Hshown.
    induction Hafter as [|r' after Hr' _ IH]; intros h1 Hshown; [done|].
    cbn [foldl]. apply IH. unfold analyzeError. cbn [snd].
    unfold logError. cbv zeta. rewrite Hr'. done.
Qed.

End Facts.

End ErrorHandlerFacts.

(** ** Properties of the chart suggestion *)

Module ChartGeneratorFacts.

Import ChartGeneratorTs.

Section Facts.

Variable Num : Type.
Variable isNaN : Num -> bool.

#[local] Arguments type {Num}.
#[local] Arguments data {Num}.
#[local] Arguments theme {Num}.
#[local] Arguments animation {Num}.
#[local] Arguments interactive {Num}.
#[local] Arguments entries {Num}.
#[local] Arguments getNumericColumns {Num}.
#[local] Arguments getCategoricalColumns {Num}.
#[local] Arguments getDefaultConfig {Num}.
#[local] Arguments analyzeDataAndSuggestChart {Num}.
#[local] Arguments analyzeAll {Num}.

(** Which chart is suggested.  The suggestion reads the first row and the
    number of rows, nothing else: a pie exactly when the first row has one
    string column and one numeric column and there are at most 10 rows; a
    scatter plot exactly when the first row has two or more numeric
    columns; bars otherwise; a line chart never.  The configuration carries
    the data as given, the powerbi theme, and both flags set. *)
Theorem suggestion_reads_first_row (first : Json.json Num)
    (more : list (Json.json Num)) (row : list (jsstring * Json.json Num))
    (insights : list AIInsight) :
  entries first = Some row ->
  let strings := length (getCategoricalColumns row) in
  let numbers := length (getNumericColumns isNaN row) in
  exists config insights',
    analyzeDataAndSuggestChart isNaN (Some (first :: more)) insights
    = Some (config, insights')
    /\ data config = first :: more
    /\ theme config = powerbi
    /\ animation config = true
    /\ interactive config = true
    /\ type config <> line
    /\ (type config = pie <->
        strings = 1 /\ numbers = 1 /\ length more <= 9)
    /\ (type config = scatter <-> 2 <= numbers)
    /\ (type config = bar <->
        numbers = 0 \/ (numbers = 1 /\ (strings <> 1 \/ 10 <= length more))).
Proof.
  intros Hrow strings numbers. subst strings numbers.
  unfold analyzeDataAndSuggestChart. rewrite Hrow. cbv zeta.
  cbn [length].
  destruct (decide (length (getCategoricalColumns row) = 1)) as [Hs|Hs];
    destruct (decide (length (getNumericColumns isNaN row) = 1)) as [Hn|Hn];
    [rewrite !bool_decide_eq_true_2 by done
    |rewrite (bool_decide_eq_true_2 _ Hs), (bool_decide_eq_false_2 _ Hn)
    |rewrite (bool_decide_eq_false_2 _ Hs)
    |rewrite (bool_decide_eq_false_2 _ Hs)];
    cbn [andb];
    repeat case_bool_decide;
    (eexists _, _; split; [reflexivity|]; cbn [data theme animation interactive type];
     split_and!; try done;
     try (split; [intros Heq; first [discriminate Heq | lia] | intros; exfalso; lia]);
     try (split; [intros _; lia | intros _; reflexivity])).
Qed.

(** What a call throws on and what it leaves alone: no data, or an empty
    array, gives the default configuration with no data and pushes
    nothing; a first row that is [null] makes the call throw. *)
Theorem suggestion_without_rows (insights : list AIInsight)
    (more : list (Json.json Num)) :
  analyzeDataAndSuggestChart isNaN None insights
  = Some (getDefaultConfig, insights)
  /\ analyzeDataAndSuggestChart isNaN (Some []) insights
     = Some (getDefaultConfig, insights)
  /\ type (@getDefaultConfig Num) = bar
  /\ data (@getDefaultConfig Num) = []
  /\ analyzeDataAndSuggestChart isNaN (Some (JNull :: more)) insights = None.
Proof. by split_and!. Qed.

Lemma analyze_extends d (insights : list AIInsight) config insights' :
  analyzeDataAndSuggestChart isNaN d insights = Some (config, insights') ->
  insights' = insights
              ++ match type config with
                 | pie =>
                   [{| insight_type := recommendation;
                       message := js "🥧 Poucas categorias - gráfico de pizza recomendado";
                       confidence := 80 |}]
                 | scatter =>
                   [{| insight_type := trend;
                       message := js "🔍 Múltiplas variáveis numéricas detectadas";
                       confidence := 70 |}]
                 | _ => []
                 end.
Proof.
  unfold analyzeDataAndSuggestChart.
  destruct d as [[|first more]|]; try (intros [= <- <-]; by rewrite app_nil_r).
  destruct (entries first) as [row|]; [|done]. cbv zeta.
  repeat case_match; simplify_eq; intros [= <- <-]; cbn [type];
    by rewrite ?app_nil_r.
Qed.

(** The generator never clears its insights: each analysis that suggests a
    pie or a scatter plot appends one insight and no analysis removes any,
    so what has been pushed for earlier data sets is still there, in
    order, after any number of later analyses. *)
Theorem insights_only_grow (sets : list (option (list (Json.json Num))))
    (insights : list AIInsight) :
  insights `prefix_of` analyzeAll isNaN sets insights
  /\ length (analyzeAll isNaN sets insights) <= length insights + length sets
  /\ forall d config insights',
       analyzeDataAndSuggestChart isNaN d insights = Some (config, insights') ->
       insights `prefix_of` insights'
       /\ (type config = bar <-> insights' = insights)
       /\ insights' `prefix_of` analyzeAll isNaN (d :: sets) insights.
Proof.
  assert (forall sets acc, acc `prefix_of` analyzeAll isNaN sets acc
                           /\ length (analyzeAll isNaN sets acc)
                              <= length acc + length sets) as Hgrow.
  { clear. intros sets. induction sets as [|d sets IH]; intros acc.
    - split; [done|cbn; lia].
    - cbn [analyzeAll foldl].
      destruct (analyzeDataAndSuggestChart isNaN d acc) as [[config acc']|] eqn:Hd.
      + apply analyze_extends in Hd. destruct (IH acc') as [Hpre Hlen].
        fold (analyzeAll isNaN sets acc'). split.
        * etrans; [|exact Hpre]. rewrite Hd. by apply prefix_app_r.
        * etrans; [exact Hlen|]. rewrite Hd, length_app. cbn [length].
          destruct (type config); cbn [length]; lia.
      + destruct (IH acc) as [Hpre Hlen]. fold (analyzeAll isNaN sets acc).
        split; [done|]. cbn [length]. lia. }
  split_and!; [apply Hgrow..|].
  intros d config insights' Hd. pose proof (analyze_extends _ _ _ _ Hd) as Hext.
  split_and!.
  - rewrite Hext. by apply prefix_app_r.
  - rewrite Hext. split.
    + intros ->. by rewrite app_nil_r.
    + intros Heq. apply (f_equal length) in Heq. rewrite length_app in Heq.
      destruct (type config) eqn:Ht; cbn [length] in Heq; try lia; try done.
      revert Hd. unfold analyzeDataAndSuggestChart.
      destruct d as [[|first more]|]; try (intros [= <- _]; done).
      destruct (entries first); [|done]. cbv zeta.
      repeat case_match; simplify_eq; intros [= <- _]; done.
  - cbn [analyzeAll foldl]. rewrite Hd. apply Hgrow.
Qed.

End Facts.

(** Two analyses of the same small table: the recommendation is listed
    twice. *)
Definition smallTable : list (Json.json Z) :=
  [JObj [(js "medico", JStr (js "Ana")); (js "vendas", JNum 3%Z)];
   JObj [(js "medico", JStr (js "Rui")); (js "vendas", JNum 5%Z)]].

Example same_table_twice :
  map (confidence)
      (analyzeAll Z (fun _ => false) [Some smallTable; Some smallTable] [])
  = [80%N; 80%N]
  /\ option_map (fun r => type Z r.1)
       (analyzeDataAndSuggestChart Z (fun _ => false) (Some smallTable) [])
     = Some pie.
Proof. vm_compute. by split. Qed.

Lemma suggestion_reads_first_row_witness :
  entries Z (JObj [(js "medico", JStr (js "Ana")); (js "vendas", JNum 3%Z)])
  = Some [(js "medico", JStr (js "Ana")); (js "vendas", JNum 3%Z)]
  /\ exists config insights',
       analyzeDataAndSuggestChart Z (fun _ => false) (Some smallTable) []
       = Some (config, insights')
       /\ type Z config = pie.
Proof.
  split; [reflexivity|].
  destruct (suggestion_reads_first_row Z (fun _ => false)
              (JObj [(js "medico", JStr (js "Ana")); (js "vendas", JNum 3%Z)])
              [JObj [(js "medico", JStr (js "Rui")); (js "vendas", JNum 5%Z)]]
              _ [] eq_refl)
    as (config & insights' & Hrun & _ & _ & _ & _ & _ & Hpie & _).
  exists config, insights'. split; [exact Hrun|].
  apply Hpie. split_and!; [reflexivity|reflexivity|cbn; lia].
Defined.

End ChartGeneratorFacts.

(** ** What the proxies promise together *)

Module ProxyContracts.

Import Netlify.

Ltac js_differ := let H := fresh in intros H; vm_compute in H; congruence.

Section Claims.

Context {engine : Netlify.Engine}.

Abbreviation json := (Json.json Num).


(** C6, as the code has it.  The main proxy cuts the decoded question to
    its first 500 code units before anything else, so both what it
    forwards and what it answers come from the cut question: two requests
    whose questions agree on that prefix are handled alike.  The
    script-injection proxy cuts nothing: it forwards the whole question,
    and its rule-based answer quotes the whole question. *)
Theorem question_truncation :
  (forall (event : Event) (up : Upstream) (lag : N) (q1 q2 d1 d2 : jsstring),
     decodeURIComponent q1 = Some d1 ->
     decodeURIComponent q2 = Some d2 ->
     take 500 d1 = take 500 d2 ->
     ChatJs.handler (ChatJsFacts.asking q1 event) up lag
     = ChatJs.handler (ChatJsFacts.asking q2 event) up lag)
  /\ (forall (event : Event) (up : Upstream) (lag : N) (m : jsstring),
        ChatJs.forwarded (ChatJs.handler event up lag) = Some m ->
        exists question ctx summary decoded,
          ChatJs.intake event = ChatJs.Asked question ctx summary
          /\ decodeURIComponent
               (default [] (Netlify.question
                              (default noParams (queryStringParameters event))))
             = Some decoded
          /\ question = take 500 decoded
          /\ m = ChatJs.prepareOptimizedMessage question ctx
          /\ Contains question m
          /\ exists c s, COPILOT_SECRET up = Some (c :: s))
  /\ (forall (event : Event) (up : Upstream) (params : Params) (q m : jsstring),
        queryStringParameters event = Some params ->
        Netlify.question params = Some q ->
        q <> [] ->
        ChatJsonp.forwarded (ChatJsonp.handler event up) = Some m ->
        Contains q m)
  /\ (forall (event : Event) (up : Upstream) (params : Params) (q a : jsstring),
        queryStringParameters event = Some params ->
        Netlify.question params = Some q ->
        q <> [] ->
        ChatJsonp.method (ChatJsonp.body (ChatJsonp.response (ChatJsonp.handler event up)))
        = js "JSONP_FALLBACK" ->
        ChatJsonp.answer (ChatJsonp.body (ChatJsonp.response (ChatJsonp.handler event up)))
        = Some a ->
        Contains q a).
Proof.
  split_and!.
  - exact ChatJsFacts.chat_reads_500_units.
  - exact ChatJsFacts.chat_forwards_truncated_question.
  - exact ChatJsonpFacts.jsonp_forwards_whole_question.
  - intros event up params q a Hp Hq Hne.
    assert (ChatJsonp.question (ChatJsonp.intake event) = q) as Hquestion.
    { unfold ChatJsonp.intake. cbn [ChatJsonp.question]. rewrite Hp.
      cbn [default from_option id]. rewrite Hq. by destruct q. }
    unfold ChatJsonp.handler.
    destruct (ChatJsonp.attempt event up) as [text|message].
    { cbn. intros Hm. exfalso. revert Hm. js_differ. }
    destruct (ChatJsonp.generateSmartFallback _ _ _ _) as [text|] eqn:Hgen.
    + cbn. intros _ [= <-]. rewrite Hquestion in Hgen.
      by apply ChatJsonpFacts.jsonp_fallback_contract in Hgen as (_ & ? & _).
    + cbn. intros Hm. exfalso. revert Hm. js_differ.
Qed.

(** C8, as the code has it.  Each generator lower-cases the question and
    takes the first of its own tests that matches, but the five generators
    do not share one list.  The main proxy classifies in the order totals,
    quantities, sales, doctors, averages, comparisons, and has replies of
    their own for totals, sales and doctors only: a quantity, average or
    comparison question gets the generic reply.  The script-injection proxy
    tests totals, then doctors (which 'quantidade' also selects), then
    sales.  The hidden-frame proxy tests doctors or quantity only, the
    server-push proxy totals then quantities, the image-beacon proxy
    doctors then sales.  All end in a generic reply. *)
Theorem fallback_bucket_order :
  (* generateIntelligentFallback, chat.js *)
  (forall q : jsstring,
     (ChatJs.classify q ChatJs.questionTypes).1
     = if ChatJsFacts.mentions q (js "totals") then js "totals"
       else if ChatJsFacts.mentions q (js "quantities") then js "quantities"
       else if ChatJsFacts.mentions q (js "sales") then js "sales"
       else if ChatJsFacts.mentions q (js "doctors") then js "doctors"
       else if ChatJsFacts.mentions q (js "averages") then js "averages"
       else if ChatJsFacts.mentions q (js "comparisons") then js "comparisons"
       else js "general")
  /\ (forall (question : jsstring) (ctx : json) (a : jsstring),
        ChatJs.generateIntelligentFallback question ctx = Some a ->
        let q := toLowerCase question in
        (ChatJsFacts.mentions q (js "totals") = true ->
         startsWith ChatJsFacts.totalsTitle a = true)
        /\ (ChatJsFacts.mentions q (js "totals") = false ->
            ChatJsFacts.mentions q (js "quantities") = true ->
            startsWith ChatJsFacts.generalTitle a = true)
        /\ (ChatJsFacts.mentions q (js "totals") = false ->
            ChatJsFacts.mentions q (js "quantities") = false ->
            ChatJsFacts.mentions q (js "sales") = true ->
            startsWith ChatJsFacts.salesTitle a = true)
        /\ (ChatJsFacts.mentions q (js "totals") = false ->
            ChatJsFacts.mentions q (js "quantities") = false ->
            ChatJsFacts.mentions q (js "sales") = false ->
            ChatJsFacts.mentions q (js "doctors") = true ->
            startsWith ChatJsFacts.doctorsTitle a = true)
        /\ (ChatJsFacts.mentions q (js "totals") = false ->
            ChatJsFacts.mentions q (js "quantities") = false ->
            ChatJsFacts.mentions q (js "sales") = false ->
            ChatJsFacts.mentions q (js "doctors") = false ->
            startsWith ChatJsFacts.generalTitle a = true))
  (* generateSmartFallback, chat-jsonp.js *)
  /\ (forall (question : jsstring) (ctx : json) (hasData : bool) (rowCount : Num)
             (a : jsstring),
        ChatJsonp.generateSmartFallback question ctx hasData rowCount = Some a ->
        let q := toLowerCase question in
        (ChatJsonpFacts.asksTotals q = true ->
         startsWith ChatJsonpFacts.jsonpTotalsTitle a = true)
        /\ (ChatJsonpFacts.asksTotals q = false ->
            ChatJsonpFacts.asksDoctors q = true ->
            startsWith ChatJsonpFacts.jsonpDoctorsTitle a = true)
        /\ (ChatJsonpFacts.asksTotals q = false ->
            ChatJsonpFacts.asksDoctors q = false ->
            ChatJsonpFacts.asksSales q = true ->
            startsWith ChatJsonpFacts.jsonpSalesTitle a = true)
        /\ (ChatJsonpFacts.asksTotals q = false ->
            ChatJsonpFacts.asksDoctors q = false ->
            ChatJsonpFacts.asksSales q = false ->
            startsWith ChatJsonpFacts.jsonpGeneralTitle a = true))
  (* generateIframeFallback, chat-iframe.js *)
  /\ (forall (question : jsstring) (ctx : json) (hasData : bool) (rowCount : Num)
             (a : jsstring),
        ChatIframe.generateIframeFallback question ctx hasData rowCount = Some a ->
        let q := toLowerCase question in
        (ChatIframeFacts.asksDoctors q = true ->
         startsWith (js "👨‍⚕️ **ANÁLISE MÉDICOS via Iframe**") a = true)
        /\ (ChatIframeFacts.asksDoctors q = false ->
            startsWith (js "🖼️ **IFRAME BRIDGE ATIVO!**") a = true))
  (* generateFallbackResponse, chat-sse.js *)
  /\ (forall (question : jsstring) (ctx : json),
        let a := ChatSse.generateFallbackResponse question ctx in
        let q := toLowerCase question in
        (ChatSseFacts.asksTotals q = true ->
         startsWith (js "📊 ANÁLISE DE TOTAIS (via SSE): ") a = true)
        /\ (ChatSseFacts.asksTotals q = false ->
            ChatSseFacts.asksQuantities q = true ->
            startsWith (js "🔢 ANÁLISE DE QUANTIDADES (via SSE): ") a = true)
        /\ (ChatSseFacts.asksTotals q = false ->
            ChatSseFacts.asksQuantities q = false ->
            startsWith (js "✅ Conectado via SSE! Pergunta: ") a = true))
  (* generateFallbackResponse, chat-pixel.js *)
  /\ (forall (question : jsstring) (ctx : json),
        let a := ChatPixel.generateFallbackResponse question ctx in
        let q := toLowerCase question in
        (ChatPixelFacts.asksDoctors q = true ->
         startsWith (js "👨‍⚕️ ANÁLISE MÉDICOS (via Pixel): ") a = true)
        /\ (ChatPixelFacts.asksDoctors q = false ->
            ChatPixelFacts.asksSales q = true ->
            startsWith (js "💰 ANÁLISE VENDAS (via Pixel): ") a = true)
        /\ (ChatPixelFacts.asksDoctors q = false ->
            ChatPixelFacts.asksSales q = false ->
            startsWith (js "🖼️ Conectado via Pixel Tracking! Pergunta: ") a = true)).
Proof.
  split_and!.
  - exact ChatJsFacts.classify_cases.
  - exact ChatJsFacts.chat_title_priority.
  - exact ChatJsonpFacts.jsonp_title_priority.
  - intros question ctx hasData rowCount a.
    unfold ChatIframe.generateIframeFallback, ChatIframeFacts.asksDoctors.
    cbv zeta.
    destruct (includes _ (js "quantidade") || includes _ (js "médico"));
      intros Ha; (split; intros; try discriminate;
      revert Ha; repeat case_match; intros Heq;
      first [ discriminate Heq
            | apply (inj Some) in Heq; rewrite <- Heq;
              rewrite <- ?app_assoc; apply startsWith_app ]).
  - intros question ctx.
    pose proof (ChatSseFacts.sse_fallback_contract question ctx) as H.
    cbv zeta in *. destruct H as (_ & _ & H1 & H2 & H3).
    split_and!; [exact H1|exact H2|]. intros Ht Hq. exact (proj1 (H3 Ht Hq)).
  - intros question ctx.
    pose proof (ChatPixelFacts.pixel_fallback_contract question ctx) as H.
    cbv zeta in *. destruct H as (_ & _ & H1 & H2 & H3).
    split_and!; [exact H1|exact H2|]. intros Ht Hq. exact (proj1 (H3 Ht Hq)).
Qed.

End Claims.

(** *** The requests that separate the code from the specification *)

#[local] Existing Instance Reference.engine.


(** Two questions of 600 and 505 code units that agree on the first 500:
    without the credential the main proxy takes the rule-based path and
    handles both alike, so its answer cannot tell them apart. *)
Lemma long_questions_answered_alike :
  ChatJs.handler (Reference.ask ChatJsFacts.longQuestion None) Reference.noSecret 0
  = ChatJs.handler (Reference.ask ChatJsFacts.otherTail None) Reference.noSecret 0
  /\ option_map ChatJs.method
       (ChatJs.body
          (ChatJs.response
             (ChatJs.handler (Reference.ask ChatJsFacts.longQuestion None)
                             Reference.noSecret 0)))
     = Some (js "FALLBACK")
  /\ ChatJsFacts.longQuestion <> ChatJsFacts.otherTail.
Proof.
  split_and!; [by vm_compute|by vm_compute|].
  intros H. apply (f_equal length) in H. vm_compute in H. discriminate H.
Qed.

(** 'Vendas por médico' names a sale before a doctor in the order of the
    specification; the main proxy gives it the sales reply and the
    script-injection proxy the doctors reply. *)
Lemma doctors_reply_beats_sales :
  ChatJsFacts.mentions (toLowerCase (js "Vendas por médico")) (js "sales") = true
  /\ ChatJsonpFacts.asksSales (toLowerCase (js "Vendas por médico")) = true
  /\ (exists a,
        ChatJs.generateIntelligentFallback (js "Vendas por médico") ChatJsFacts.sampleRows
        = Some a
        /\ startsWith ChatJsFacts.salesTitle a = true)
  /\ (exists a,
        ChatJsonp.generateSmartFallback (js "Vendas por médico") ChatJsFacts.sampleRows
                                        true (Some 12%Z)
        = Some a
        /\ startsWith ChatJsonpFacts.jsonpDoctorsTitle a = true).
Proof.
  split_and!; [by vm_compute|by vm_compute|..].
  - eexists. split; [vm_compute; reflexivity|by vm_compute].
  - eexists. split; [vm_compute; reflexivity|by vm_compute].
Qed.

End ProxyContracts.
